(** * netsuite-bi: the ingestion layer and the derived-metrics engine of
  [src/App.jsx], embedded in Rocq.

  Numbers are JavaScript Numbers, that is IEEE 754 binary64 values: they are
  modelled by Rocq's primitive floats, whose operations are the binary64
  ones.  Strings are sequences of code units below 256.  A row record is
  the ordered list of its own properties, and the sales mapping the finite
  map of its own properties.  Both are ordinary objects, so that a read
  [o[k]] whose key is not an own one yields the member of
  [Object.prototype] of that name when there is one: [JsObject.read] and
  [proto_read] model such reads.  The loop of [handleSales] writes its two
  sums on that member when the item of a row names one; the member then
  holds [NaN] where it held nothing, which no read of the program tells
  apart, and so the state has no component for it. *)

From Stdlib Require Import ZArith Floats Ascii String DecimalString List Bool Lia.
From stdpp Require Import gmap strings list.

Open Scope string_scope.

(* ===================================================================== *)
(** ** JavaScript strings *)
(* ===================================================================== *)

Module JsString.

(** [String.prototype.toLowerCase] on code units below 256: A-Z and the
    Latin-1 capitals (all of 192..222 but the multiplication sign 215). *)
Definition lower_char (c : ascii) : ascii :=
  let n := nat_of_ascii c in
  if (((65 <=? n) && (n <=? 90)) || ((192 <=? n) && (n <=? 222) && negb (n =? 215)))%nat
  then ascii_of_nat (n + 32) else c.

Fixpoint toLowerCase (s : string) : string :=
  match s with
  | EmptyString => EmptyString
  | String c s' => String (lower_char c) (toLowerCase s')
  end.

(** White space and line terminators below 256. *)
Definition is_space (c : ascii) : bool :=
  let n := nat_of_ascii c in
  (((9 <=? n) && (n <=? 13)) || (n =? 32) || (n =? 160))%nat.

Fixpoint trimStart (s : string) : string :=
  match s with
  | EmptyString => EmptyString
  | String c s' => if is_space c then trimStart s' else s
  end.

Fixpoint rev_onto (s acc : string) : string :=
  match s with
  | EmptyString => acc
  | String c s' => rev_onto s' (String c acc)
  end.

Definition reverse (s : string) : string := rev_onto s EmptyString.

Definition trim (s : string) : string :=
  reverse (trimStart (reverse (trimStart s))).

Fixpoint startsWith (s p : string) : bool :=
  match p, s with
  | EmptyString, _ => true
  | String _ _, EmptyString => false
  | String a p', String b s' => Ascii.eqb a b && startsWith s' p'
  end.

(** [s.includes(sub)] *)
Fixpoint includes (s sub : string) : bool :=
  startsWith s sub ||
  match s with
  | EmptyString => false
  | String _ s' => includes s' sub
  end.

(** [s.endsWith(e)] *)
Fixpoint endsWith (s e : string) : bool :=
  String.eqb s e ||
  match s with
  | EmptyString => false
  | String _ s' => endsWith s' e
  end.

(** [s.slice(n)] *)
Fixpoint slice_from (n : nat) (s : string) : string :=
  match n, s with
  | O, _ => s
  | S _, EmptyString => EmptyString
  | S n', String _ s' => slice_from n' s'
  end.

(** [s.split(sep)[0]] for a non-empty separator: what precedes the first
    occurrence of [sep], or all of [s]. *)
Fixpoint split_head (sep s : string) : string :=
  if startsWith s sep then EmptyString
  else match s with
       | EmptyString => EmptyString
       | String c s' => String c (split_head sep s')
       end.

(** Case folding of a regular expression with the [i] flag and no [u]
    flag, restricted to what an ASCII pattern can match: a code unit of 128
    or more never folds onto an ASCII one. *)
Definition fold_char (c : ascii) : ascii :=
  let n := nat_of_ascii c in
  if ((65 <=? n) && (n <=? 90))%nat then ascii_of_nat (n + 32) else c.

Fixpoint fold_case (s : string) : string :=
  match s with
  | EmptyString => EmptyString
  | String c s' => String (fold_char c) (fold_case s')
  end.

(** [/^lit/i.test(s)] and [/lit/i.test(s)] for a literal [lit]. *)
Definition test_prefix_i (lit s : string) : bool :=
  startsWith (fold_case s) (fold_case lit).

Definition test_i (lit s : string) : bool :=
  includes (fold_case s) (fold_case lit).

(** [s.replace(/^lit/i, "")] *)
Definition strip_prefix_i (lit s : string) : string :=
  if test_prefix_i lit s then slice_from (String.length lit) s else s.

(** The one-character string holding a double quote. *)
Definition dquote : string := String (ascii_of_nat 34) EmptyString.

(** [parts.join(sep)] *)
Fixpoint join (sep : string) (parts : list string) : string :=
  match parts with
  | [] => EmptyString
  | [p] => p
  | p :: rest => p ++ sep ++ join sep rest
  end.

End JsString.

(* ===================================================================== *)
(** ** JavaScript numbers *)
(* ===================================================================== *)

Module JsNum.

Open Scope float_scope.

Definition gt (a b : float) : bool := b <? a.
Definition ge (a b : float) : bool := b <=? a.
Definition lt (a b : float) : bool := a <? b.
Definition le (a b : float) : bool := a <=? b.
(** [a === b] on Numbers *)
Definition seq (a b : float) : bool := a =? b.

(** ToBoolean on a Number: false for [+0], [-0] and [NaN]. *)
Definition truthy (x : float) : bool := negb (x =? 0) && negb (is_nan x).

(** [x || 0] *)
Definition or_zero (x : float) : float := if truthy x then x else 0.

Definition of_Z (n : Z) : float :=
  if (n <? 0)%Z then - of_uint63 (Uint63.of_Z (- n)) else of_uint63 (Uint63.of_Z n).

(** [Math.round]: the integral Number closest to [x], ties towards
    [+Infinity]; [-0] for results in [[-0.5, -0]].  A finite [x] is
    [(-1)^s * m * 2^e]; the rounding is done exactly on integers. *)
Definition Math_round (x : float) : float :=
  match Prim2SF x with
  | S754_finite s m e =>
      if (0 <=? e)%Z then x
      else
        let d := (2 ^ (- e))%Z in
        let n := if s then ((d - 2 * Zpos m) / (2 * d))%Z
                 else ((2 * Zpos m + d) / (2 * d))%Z in
        if (n =? 0)%Z then (if s then PrimFloat.neg_zero else PrimFloat.zero) else of_Z n
  | _ => x
  end.

(** [Math.max(a, b)] *)
Definition Math_max (a b : float) : float :=
  if is_nan a || is_nan b then nan
  else if a <? b then b
  else if b <? a then a
  else if get_sign a then b else a.

Definition Math_sqrt (x : float) : float := PrimFloat.sqrt x.

Definition is_finite (x : float) : bool :=
  negb (is_nan x) && negb (is_infinity x).

End JsNum.

(* ===================================================================== *)
(** ** Cell values and row records *)
(* ===================================================================== *)

(** What the readers put in a cell: an empty cell ([null]), a boolean, a
  number or a string.  A JavaScript expression that may yield [undefined]
  has type [option cell], with [None] for [undefined]. *)
Inductive cell :=
| CNull
| CBool (b : bool)
| CNum (x : float)
| CStr (s : string).

(** An ordinary object with string keys, as the list of its own properties
  in creation order; the keys of a well-formed object are distinct. *)
Definition obj := list (string * cell).

(** The names of the properties that an ordinary object inherits from
  [Object.prototype]. *)
Definition proto_members : list string :=
  [ "constructor"; "__proto__"; "hasOwnProperty"; "isPrototypeOf";
    "propertyIsEnumerable"; "toLocaleString"; "toString"; "valueOf";
    "__defineGetter__"; "__defineSetter__"; "__lookupGetter__"; "__lookupSetter__" ].

Definition is_proto_member (k : string) : bool := existsb (String.eqb k) proto_members.

(** What a read [o[k]] of an ordinary object yields when it is not
  [undefined]: the value of an own property, or the member of
  [Object.prototype] named [k], which is a function, and for [__proto__]
  the prototype object itself. *)
Inductive value :=
| VCell (c : cell)
| VInherited (name : string).

(** [m[k]] on an ordinary object used as a mapping. *)
Inductive slot (A : Type) :=
| Own (a : A)
| Inherited (name : string).
Arguments Own {A} a.
Arguments Inherited {A} name.

Module JsObject.

Fixpoint get (o : obj) (k : string) : option cell :=
  match o with
  | [] => None
  | (k', v) :: o' => if String.eqb k' k then Some v else get o' k
  end.

(** [o[k]]: own properties first, then [Object.prototype]. *)
Definition read (o : obj) (k : string) : option value :=
  match get o k with
  | Some v => Some (VCell v)
  | None => if is_proto_member k then Some (VInherited k) else None
  end.

(** [Object.fromEntries] defines own properties, whatever the key:
    an existing property keeps its place. *)
Fixpoint set (o : obj) (k : string) (v : cell) : obj :=
  match o with
  | [] => [(k, v)]
  | (k', v') :: o' => if String.eqb k' k then (k', v) :: o' else (k', v') :: set o' k v
  end.

Definition fromEntries (es : list (string * cell)) : obj :=
  fold_left (fun o kv => set o (fst kv) (snd kv)) es [].

(** The canonical decimal numeral of an array index (an integer in
    [0, 2^32 - 2]), if the key is one. *)
Definition digit_of (c : ascii) : option N :=
  let n := N_of_ascii c in
  if ((48 <=? n) && (n <=? 57))%N then Some (n - 48)%N else None.

Fixpoint digits_value (s : string) (acc : N) : option N :=
  match s with
  | EmptyString => Some acc
  | String c s' =>
      match digit_of c with
      | Some d => digits_value s' (10 * acc + d)%N
      | None => None
      end
  end.

Definition array_index (k : string) : option N :=
  match k with
  | EmptyString => None
  | String c rest =>
      if Ascii.eqb c "0" && negb (String.eqb rest EmptyString) then None
      else if (10 <? String.length k)%nat then None
      else match digits_value k 0 with
           | Some n => if (n <? 4294967295)%N then Some n else None
           | None => None
           end
  end.

Fixpoint insert_index (k : N * string) (l : list (N * string)) : list (N * string) :=
  match l with
  | [] => [k]
  | k' :: l' => if (fst k <? fst k')%N then k :: l else k' :: insert_index k l'
  end.

(** Own property keys in enumeration order: array indices in ascending
    numeric order, then the other keys in creation order. *)
Definition keys (o : obj) : list string :=
  let ks := map fst o in
  let idx := omap (fun k => option_map (fun n => (n, k)) (array_index k)) ks in
  map snd (fold_right insert_index [] idx)
    ++ List.filter (fun k => match array_index k with None => true | Some _ => false end) ks.

Definition entries (o : obj) : list (string * cell) :=
  omap (fun k => option_map (fun v => (k, v)) (get o k)) (keys o).

End JsObject.

(* ===================================================================== *)
(** ** The host: conversions of the language and the two decoders *)
(* ===================================================================== *)

(** A worksheet whose range starts at its first row: its rows from that
    one, a cell being [None] when it is empty. *)
Definition sheet := list (list (option cell)).

(** What the program takes from its environment and does not define:
    - [Number::toString] and [StringToNumber] of ECMAScript;
    - the source text that [String] gives for the built-in function
      found under a name of [Object.prototype];
    - PapaParse with [header], [dynamicTyping] and [skipEmptyLines] (the
      rows of the file, or [None] when it reports an error);
    - SheetJS reading a workbook and giving its first sheet ([None] when
      the read throws). *)
Class Host := {
  number_to_string : float -> string;
  string_to_number : string -> float;
  function_to_string : string -> string;
  papa_parse : list Byte.byte -> option (list obj);
  xlsx_first_sheet : list Byte.byte -> option sheet;
}.

Module Js.

(** ToBoolean *)
Definition truthy (v : option cell) : bool :=
  match v with
  | None | Some CNull => false
  | Some (CBool b) => b
  | Some (CNum x) => JsNum.truthy x
  | Some (CStr s) => negb (String.eqb s "")
  end.

(** [v || d] *)
Definition or_else (v : option cell) (d : cell) : cell :=
  match v with
  | Some c => if truthy v then c else d
  | None => d
  end.

(** [v ?? d] *)
Definition nullish_else (v : option cell) (d : cell) : cell :=
  match v with
  | None | Some CNull => d
  | Some c => c
  end.

(** [v != null] *)
Definition not_nullish (v : option cell) : bool :=
  match v with
  | None | Some CNull => false
  | Some _ => true
  end.

Section Conversions.
Context `{Host}.

(** [String(c)] *)
Definition String_ (c : cell) : string :=
  match c with
  | CNull => "null"
  | CBool true => "true"
  | CBool false => "false"
  | CNum x => number_to_string x
  | CStr s => s
  end.

(** [Number(v)] *)
Definition Number_ (v : option cell) : float :=
  match v with
  | None => nan
  | Some CNull => 0%float
  | Some (CBool true) => 1%float
  | Some (CBool false) => 0%float
  | Some (CNum x) => x
  | Some (CStr s) => string_to_number s
  end.

(** [String(v)] and [Number(v)] on what a read yields: an inherited member
    is a function, or [Object.prototype] itself, and converts to a text
    that is no numeral. *)
Definition String_value (v : value) : string :=
  match v with
  | VCell c => String_ c
  | VInherited k =>
      if String.eqb k "__proto__" then "[object Object]" else function_to_string k
  end.

Definition Number_value (v : option value) : float :=
  match v with
  | Some (VCell c) => Number_ (Some c)
  | Some (VInherited _) => nan
  | None => nan
  end.

End Conversions.

(** [v || d] and [v != null] on what a read yields: an inherited member is
    an object. *)
Definition or_value (v : option value) (d : cell) : value :=
  match v with
  | Some (VCell c) => VCell (or_else (Some c) d)
  | Some (VInherited k) => VInherited k
  | None => VCell d
  end.

Definition not_nullish_value (v : option value) : bool :=
  match v with
  | Some (VCell c) => not_nullish (Some c)
  | Some (VInherited _) => true
  | None => false
  end.

(** [arr[i]] for an index that may be [-1] *)
Definition at_ {A} (arr : list A) (i : Z) : option A :=
  if (i <? 0)%Z then None else nth_error arr (Z.to_nat i).

(** The index of the first element from [l] on that satisfies [p], counted
    from [i], or [-1]: the loop of [arr.indexOf(x)], and of a [for] over the
    indices that returns at the first hit. *)
Fixpoint first_index_from {A} (p : A -> bool) (l : list A) (i : Z) : Z :=
  match l with
  | [] => (-1)%Z
  | y :: l' => if p y then i else first_index_from p l' (i + 1)%Z
  end.

(** [n] is the first index of [l] whose element satisfies [p]. *)
Definition first_at {A} (p : A -> bool) (l : list A) (n : nat) : Prop :=
  (exists x, nth_error l n = Some x /\ p x = true)
  /\ forall j y, (j < n)%nat -> nth_error l j = Some y -> p y = false.

(** [arr.indexOf(x)] on strings *)
Definition indexOf (arr : list string) (x : string) : Z :=
  first_index_from (fun y => String.eqb y x) arr 0%Z.

(** [arr.sort(cmp)]: a stable sort; [x] goes after [y] exactly when
    [cmp(x, y) > 0]. *)
Fixpoint insert_by {A} (cmp : A -> A -> float) (x : A) (l : list A) : list A :=
  match l with
  | [] => [x]
  | y :: l' => if JsNum.gt (cmp x y) 0 then y :: insert_by cmp x l' else x :: l
  end.

Definition sort {A} (cmp : A -> A -> float) (l : list A) : list A :=
  fold_right (insert_by cmp) [] l.

End Js.

(* ===================================================================== *)
(** ** utils *)
(* ===================================================================== *)

Import JsString.

Definition norm_key (k : string) : string := trim (toLowerCase k).

Definition lowerKeys (o : obj) : obj :=
  JsObject.fromEntries (map (fun kv => (norm_key (fst kv), snd kv)) (JsObject.entries o)).

(** The first loop of [pick]: the aliases in order, by exact key. *)
Fixpoint pick_exact (l : obj) (keys : list string) : option value :=
  match keys with
  | [] => None
  | k :: keys' =>
      match JsObject.read l (norm_key k) with
      | Some v => Some v
      | None => pick_exact l keys'
      end
  end.

(** The second loop of [pick]: the keys of the row in order, by containment. *)
Fixpoint pick_contains (l : obj) (keys : list string) (ks : list string) : option value :=
  match ks with
  | [] => None
  | k :: ks' =>
      if existsb (fun cand => includes k (norm_key cand)) keys
      then JsObject.read l k
      else pick_contains l keys ks'
  end.

Definition pick (o : obj) (keys : list string) : option value :=
  let l := lowerKeys o in
  match pick_exact l keys with
  | Some v => Some v
  | None => pick_contains l keys (JsObject.keys l)
  end.

(** [Math.ceil(n * 0.5)] for an array length [n]: the product is exact in
    binary64, so the result is the integer ceiling of [n / 2]. *)
Definition ceil_half (n : nat) : nat := Nat.div2 (S n).

Section Utils.
Context `{Host}.

(** [String(x ?? "").toLowerCase()] over the cells of a row; an empty cell
    is a hole of the array, which [map] leaves as it is. *)
Definition header_cells (row : list (option cell)) : list (option string) :=
  map (option_map (fun x => toLowerCase (Js.String_ (Js.nullish_else (Some x) (CStr ""))))) row.

(** [r.includes(h)]: a hole reads as [undefined] and equals no string. *)
Definition row_includes (r : list (option string)) (h : string) : bool :=
  existsb (fun c => match c with Some s => String.eqb s h | None => false end) r.

Definition header_hits (row : list (option cell)) (expectedHeaders : list string) : nat :=
  let r := header_cells row in
  length (List.filter (fun h => row_includes r (toLowerCase h)) expectedHeaders).

(** [hits >= Math.ceil(expectedHeaders.length * 0.5)] *)
Definition header_qualifies (row : list (option cell)) (expectedHeaders : list string) : bool :=
  (ceil_half (length expectedHeaders) <=? header_hits row expectedHeaders)%nat.

(** The loop of [findHeaderRow] from index [i], with [fuel] iterations left
    before the bound [Math.min(rows.length, 30)] is reached. *)
Fixpoint findHeaderRow_loop (rows : sheet) (expectedHeaders : list string)
    (i : nat) (fuel : nat) : nat :=
  match fuel, rows with
  | S fuel', r :: rows' =>
      if header_qualifies r expectedHeaders
      then i
      else findHeaderRow_loop rows' expectedHeaders (S i) fuel'
  | _, _ => 0%nat
  end.

Definition findHeaderRow (ws : sheet) (expectedHeaders : list string) : nat :=
  findHeaderRow_loop ws expectedHeaders 0 30.

End Utils.

(** The first loop of [findCol]. *)
Fixpoint findCol_exact (lower : list string) (candidates : list string) : Z :=
  match candidates with
  | [] => (-1)%Z
  | c :: candidates' =>
      let i := Js.indexOf lower (toLowerCase c) in
      if negb (i =? -1)%Z then i else findCol_exact lower candidates'
  end.

(** The second loop of [findCol]. *)
Definition findCol_contains (lower : list string) (candidates : list string) : Z :=
  Js.first_index_from (fun h => existsb (fun c => includes h (toLowerCase c)) candidates)
                      lower 0%Z.

Definition findCol (headerArr : list string) (candidates : list string) : Z :=
  let lower := map toLowerCase headerArr in
  let i := findCol_exact lower candidates in
  if negb (i =? -1)%Z then i else findCol_contains lower candidates.

(* ===================================================================== *)
(** ** Data model *)
(* ===================================================================== *)

Inductive ItemType := New | ReCert.

(** [m[k]] on a mapping from strings that is an ordinary object. *)
Definition proto_read {A} (m : gmap string A) (k : string) : option (slot A) :=
  match m !! k with
  | Some a => Some (Own a)
  | None => if is_proto_member k then Some (Inherited k) else None
  end.

Module Cost.
Record Item := {
  fullItem : string;
  itemCode : string;
  itemType : ItemType;
  unitPrice : float;
  unitCost : float;
  Quantity : float;
  profitPerUnit : float;
  profitMargin : float;
  totalProfit : float;
  totalRevenue : float;
  totalCost : float;
}.
End Cost.

Module Sales.
Record Aggregate := {
  item : string;
  description : string;
  totalQtySold : float;
  totalRevenue : float;
}.
End Sales.

Module Customer.
Record Total := { customer : string; totalRevenue : float }.
End Customer.

Module SupplierTotal.
Record t := { supplier : string; totalCost : float; totalQuantity : float }.
End SupplierTotal.

Module SupplierLine.
(** [date] is [None] when the object has no [date] property at all, and
    [Some v] when it has one of value [v] ([v] itself [None] for
    [undefined]). *)
Record t := {
  supplier : string;
  item : string;
  totalCost : float;
  quantity : float;
  date : option (option value);
}.
End SupplierLine.

Record SupplierData := {
  suppliers : list SupplierTotal.t;
  lineItems : list SupplierLine.t;
}.

(** The state of the component: the status line, the four datasets and the
    six thresholds. *)
Record AppState := {
  status : string;
  costData : list Cost.Item;
  salesMap : gmap string Sales.Aggregate;
  customerData : list Customer.Total;
  supplierData : SupplierData;
  slowCost : float;
  deadCost : float;
  slowDays : float;
  targetMargin : float;
  orderingCost : float;
  holdingCostRate : float;
}.

Definition initialState : AppState := {|
  status := "";
  costData := [];
  salesMap := ∅;
  customerData := [];
  supplierData := {| suppliers := []; lineItems := [] |};
  slowCost := 400;
  deadCost := 200;
  slowDays := 180;
  targetMargin := 0x1.3333333333333p-2 (* the Number 0.30 *);
  orderingCost := 50;
  holdingCostRate := 0.25;
|}.

(* ===================================================================== *)
(** ** Handlers: a state and exception monad *)
(* ===================================================================== *)

Inductive error :=
| ExtError (msg : string)
| DecodeError.

Record File := { name : string; content : list Byte.byte }.

(** A computation over the state of the component that returns or throws;
    the state it leaves is kept in both cases. *)
Definition M (A : Type) : Type := AppState -> AppState * (error + A).

Definition ret {A} (a : A) : M A := fun st => (st, inr a).

Definition throw {A} (e : error) : M A := fun st => (st, inl e).

Definition bind {A B} (m : M A) (k : A -> M B) : M B :=
  fun st =>
    match m st with
    | (st', inr a) => k a st'
    | (st', inl e) => (st', inl e)
    end.

Declare Scope handler_scope.
Delimit Scope handler_scope with handler.
Notation "'let!' x := m 'in' k" := (bind m (fun x => k))
  (at level 10, x name, m at level 100, k at level 200) : handler_scope.
Notation "'run' m ; k" := (bind m (fun _ => k))
  (at level 10, m at level 100, k at level 200) : handler_scope.

Definition setStatus (s : string) : M unit := fun st =>
  ({| status := s; costData := costData st; salesMap := salesMap st;
      customerData := customerData st; supplierData := supplierData st;
      slowCost := slowCost st; deadCost := deadCost st; slowDays := slowDays st;
      targetMargin := targetMargin st; orderingCost := orderingCost st;
      holdingCostRate := holdingCostRate st |}, inr tt).

Definition setCostData (d : list Cost.Item) : M unit := fun st =>
  ({| status := status st; costData := d; salesMap := salesMap st;
      customerData := customerData st; supplierData := supplierData st;
      slowCost := slowCost st; deadCost := deadCost st; slowDays := slowDays st;
      targetMargin := targetMargin st; orderingCost := orderingCost st;
      holdingCostRate := holdingCostRate st |}, inr tt).

Definition setSalesMap (m : gmap string Sales.Aggregate) : M unit := fun st =>
  ({| status := status st; costData := costData st; salesMap := m;
      customerData := customerData st; supplierData := supplierData st;
      slowCost := slowCost st; deadCost := deadCost st; slowDays := slowDays st;
      targetMargin := targetMargin st; orderingCost := orderingCost st;
      holdingCostRate := holdingCostRate st |}, inr tt).

Definition setCustomerData (d : list Customer.Total) : M unit := fun st =>
  ({| status := status st; costData := costData st; salesMap := salesMap st;
      customerData := d; supplierData := supplierData st;
      slowCost := slowCost st; deadCost := deadCost st; slowDays := slowDays st;
      targetMargin := targetMargin st; orderingCost := orderingCost st;
      holdingCostRate := holdingCostRate st |}, inr tt).

Definition setSupplierData (d : SupplierData) : M unit := fun st =>
  ({| status := status st; costData := costData st; salesMap := salesMap st;
      customerData := customerData st; supplierData := d;
      slowCost := slowCost st; deadCost := deadCost st; slowDays := slowDays st;
      targetMargin := targetMargin st; orderingCost := orderingCost st;
      holdingCostRate := holdingCostRate st |}, inr tt).

Definition ensureExt (file : File) (allowed : list string) : M unit :=
  let ok := existsb (fun e => endsWith (toLowerCase (name file)) e) allowed in
  if negb ok
  then throw (ExtError ("Expected " ++ join ", " allowed ++ " but got "
                          ++ dquote ++ name file ++ dquote))
  else ret tt.

Section Handlers.
Context `{Host}.
Open Scope handler_scope.
Open Scope float_scope.

Definition parseCSV (file : File) : M (list obj) := fun st =>
  match papa_parse (content file) with
  | Some rows => (st, inr rows)
  | None => (st, inl DecodeError)
  end.

(** [readWorkbook(file)] followed by [wb.Sheets[wb.SheetNames[0]]] *)
Definition readFirstSheet (file : File) : M sheet := fun st =>
  match xlsx_first_sheet (content file) with
  | Some ws => (st, inr ws)
  | None => (st, inl DecodeError)
  end.

(** [XLSX.utils.sheet_to_json(ws, { range: hdr, header: 1, raw: true,
    defval: "" })]: the rows from [hdr] on, an empty cell read as the empty
    string.  The code counts [hdr] from the first row of the range of the
    sheet and hands it over as a row number of the sheet; the two are the
    same number for the sheets of the model, whose range starts at their
    first row, and for no other. *)
Definition sheet_rows_from (hdr : nat) (ws : sheet) : list (list cell) :=
  map (map (default (CStr ""))) (drop hdr ws).

(** [(raw[0] || []).map((h) => String(h || "").trim())] *)
Definition header_of (raw : list (list cell)) : list string :=
  map (fun h => trim (Js.String_ (Js.or_else (Some h) (CStr "")))) (hd [] raw).

(** [String(v || "")] and [Number(v || 0)], on an element of a row array
    and on what [pick] returns. *)
Definition str_or_empty (v : option cell) : string := Js.String_ (Js.or_else v (CStr "")).
Definition num_or_zero (v : option cell) : float := Js.Number_ (Some (Js.or_else v (CNum 0))).
Definition str_or_empty_of (v : option value) : string :=
  Js.String_value (Js.or_value v (CStr "")).
Definition num_or_zero_of (v : option value) : float :=
  Js.Number_value (Some (Js.or_value v (CNum 0))).

(** *** handleCost *)

Definition cost_row_accepted (row : obj) : bool :=
  Js.not_nullish_value (pick row ["Average Item Rate"])
  && Js.not_nullish_value (pick row ["Average of Est. Unit Cost"]).

Definition cost_row_item (row : obj) : Cost.Item :=
  let fullItem := str_or_empty_of (pick row ["Item"]) in
  let unitPrice := JsNum.or_zero (Js.Number_value (pick row ["Average Item Rate"])) in
  let unitCost := JsNum.or_zero (Js.Number_value (pick row ["Average of Est. Unit Cost"])) in
  let qty := JsNum.or_zero (Js.Number_value (pick row ["Quantity"; "Qty"])) in
  let profitPerUnit := if JsNum.gt unitPrice 0 then unitPrice - unitCost else 0 in
  let profitMargin :=
    if JsNum.gt unitPrice 0 then ((unitPrice - unitCost) / unitPrice) * 100 else 0 in
  {| Cost.fullItem := fullItem;
     Cost.itemCode := if negb (String.eqb fullItem "") then split_head " : " fullItem else "";
     Cost.itemType := if test_i "ReCert" fullItem then ReCert else New;
     Cost.unitPrice := unitPrice;
     Cost.unitCost := unitCost;
     Cost.Quantity := qty;
     Cost.profitPerUnit := profitPerUnit;
     Cost.profitMargin := profitMargin;
     Cost.totalProfit := profitPerUnit * qty;
     Cost.totalRevenue := unitPrice * qty;
     Cost.totalCost := unitCost * qty |}.

(** The status texts are given without the check mark that starts the
    last one of each handler. *)
Definition handleCost (file : File) : M unit :=
  run ensureExt file [".csv"];
  run setStatus "Processing cost CSV...";
  let! rows := parseCSV file in
  let items := map cost_row_item (List.filter cost_row_accepted rows) in
  run setCostData items;
  setStatus "Cost data loaded".

(** *** handleSales *)

(** The body of both row loops of [handleSales], once the four fields of
    the row are read. *)
Definition sales_add (byItem : gmap string Sales.Aggregate)
    (item desc : string) (qty revenue : float) : gmap string Sales.Aggregate :=
  if negb (String.eqb item "") && JsNum.gt qty 0 && negb (String.eqb item "Inventory Item")
  then
    match proto_read byItem item with
    | Some (Own a) =>
        <[ item := {| Sales.item := Sales.item a;
                      Sales.description := Sales.description a;
                      Sales.totalQtySold := Sales.totalQtySold a + qty;
                      Sales.totalRevenue := Sales.totalRevenue a + revenue |} ]> byItem
    | Some (Inherited _) =>
        (* [!byItem[item]] is false and the two sums are written on the
           inherited member: the mapping gets no property *)
        byItem
    | None =>
        <[ item := {| Sales.item := item;
                      Sales.description := desc;
                      Sales.totalQtySold := 0 + qty;
                      Sales.totalRevenue := 0 + revenue |} ]> byItem
    end
  else byItem.

Definition sales_csv_row (byItem : gmap string Sales.Aggregate) (row : obj) :=
  let item := trim (str_or_empty_of (pick row ["Item"; "Inventory Item"; "Item Name"])) in
  let qty := JsNum.or_zero (Js.Number_value (pick row ["Qty"; "QtySold"; "Quantity"; "Quantity Sold"])) in
  let revenue := JsNum.or_zero (Js.Number_value
      (pick row ["TotalRevenue"; "Amount"; "Total"; "Net Amount"; "Sales Amount"])) in
  let desc := str_or_empty_of (pick row ["Description"; "ItemDesc"; "Name"; "Memo"]) in
  sales_add byItem item desc qty revenue.

Definition sales_xlsx_row (iItem iDesc iQty iRev : Z)
    (byItem : gmap string Sales.Aggregate) (r : list cell) :=
  let item := trim (str_or_empty (Js.at_ r iItem)) in
  let qty := num_or_zero (Js.at_ r iQty) in
  let revenue := num_or_zero (Js.at_ r iRev) in
  let desc := str_or_empty (Js.at_ r iDesc) in
  sales_add byItem item desc qty revenue.

Definition handleSales (file : File) : M unit :=
  if endsWith (toLowerCase (name file)) ".csv" then
    run setStatus "Processing sales CSV...";
    let! rows := parseCSV file in
    let byItem := fold_left sales_csv_row rows ∅ in
    run setSalesMap byItem;
    setStatus "Sales data loaded"
  else
    run setStatus "Processing sales XLS/XLSX...";
    let! ws := readFirstSheet file in
    let hdr := findHeaderRow ws ["item"; "qty"; "quantity"; "amount"; "total"; "description"] in
    let raw := sheet_rows_from hdr ws in
    let header := header_of raw in
    let iItem := findCol header ["Item"; "Inventory Item"; "Item Name"; "Product"] in
    let iDesc := findCol header ["Description"; "ItemDesc"; "Name"; "Memo"] in
    let iQty := findCol header ["Qty"; "QtySold"; "Quantity"; "Quantity Sold"] in
    let iRev := findCol header ["TotalRevenue"; "Amount"; "Total"; "Net Amount"; "Sales Amount"] in
    let byItem := fold_left (sales_xlsx_row iItem iDesc iQty iRev) (tail raw) ∅ in
    run setSalesMap byItem;
    setStatus "Sales data loaded".

(** *** handleCustomer *)

Definition is_intercompany (customer : string) : bool :=
  test_i "ic-" customer || test_i "intercompany" customer || test_i "inter-company" customer.

(** The chain [filter, map, filter, sort] that both branches of
    [handleCustomer] apply to their [{customer, amount}] records. *)
Definition customer_totals (rs : list (string * float)) : list Customer.Total :=
  let subtotals := List.filter (fun r => test_prefix_i "total - " (fst r) && JsNum.gt (snd r) 0) rs in
  let named := map (fun r => {| Customer.customer := strip_prefix_i "total - " (fst r);
                                Customer.totalRevenue := snd r |}) subtotals in
  let kept := List.filter (fun c => negb (is_intercompany (Customer.customer c))) named in
  Js.sort (fun a b => Customer.totalRevenue b - Customer.totalRevenue a) kept.

Definition handleCustomer (file : File) : M unit :=
  if endsWith (toLowerCase (name file)) ".csv" then
    run setStatus "Processing customer CSV...";
    let! rows := parseCSV file in
    let totals := customer_totals
      (map (fun r => (str_or_empty_of (pick r ["Customer"; "Name"]),
                      num_or_zero_of (pick r ["Total"; "Amount"; "Net Amount"; "TotalRevenue"])))
           rows) in
    run setCustomerData totals;
    setStatus "Customer data loaded"
  else
    run setStatus "Processing customer XLS/XLSX...";
    let! ws := readFirstSheet file in
    let hdr := findHeaderRow ws ["customer"; "amount"; "total"; "net amount"] in
    let raw := sheet_rows_from hdr ws in
    let header := header_of raw in
    let iCustomer := findCol header ["Customer"; "Name"] in
    let iAmount := findCol header ["Total"; "Amount"; "Net Amount"; "TotalRevenue"] in
    let totals := customer_totals
      (map (fun r => (str_or_empty (Js.at_ r iCustomer), num_or_zero (Js.at_ r iAmount)))
           (tail raw)) in
    run setCustomerData totals;
    setStatus "Customer data loaded".

End Handlers.

Section SupplierHandler.
Context `{Host}.
Open Scope handler_scope.
Open Scope float_scope.

(** *** handleSupplier *)

Definition is_internal (supplier : string) : bool :=
  test_i "internal" supplier || test_i "intercompany" supplier.

Definition by_totalCost_desc (a b : SupplierTotal.t) : float :=
  SupplierTotal.totalCost b - SupplierTotal.totalCost a.

(** [supplierTotals] of the CSV branch *)
Definition supplier_csv_totals (rows : list obj) : list SupplierTotal.t :=
  let rs := map (fun r => (str_or_empty_of (pick r ["Vendor"; "Supplier"; "Name"]),
                           num_or_zero_of (pick r ["TotalCost"; "Amount"; "Total"; "Net Amount"]),
                           num_or_zero_of (pick r ["Quantity"; "Qty"]))) rows in
  let subtotals :=
    List.filter (fun r => let '(vendor, total, _) := r in
                          test_prefix_i "total - " vendor && JsNum.gt total 0) rs in
  let named :=
    map (fun r => let '(vendor, total, qty) := r in
                  {| SupplierTotal.supplier := strip_prefix_i "total - " vendor;
                     SupplierTotal.totalCost := total;
                     SupplierTotal.totalQuantity := JsNum.or_zero qty |}) subtotals in
  let kept :=
    List.filter (fun s => JsNum.gt (SupplierTotal.totalCost s) 0
                          && negb (is_internal (SupplierTotal.supplier s))) named in
  Js.sort by_totalCost_desc kept.

(** [lineItems] of the CSV branch *)
Definition supplier_csv_lines (rows : list obj) : list SupplierLine.t :=
  let rs := map (fun r =>
      {| SupplierLine.supplier := str_or_empty_of (pick r ["Vendor"; "Supplier"; "Name"]);
         SupplierLine.item := str_or_empty_of (pick r ["Item"; "Item Name"; "Product"]);
         SupplierLine.totalCost := num_or_zero_of (pick r ["TotalCost"; "Amount"; "Total"; "Net Amount"]);
         SupplierLine.quantity := num_or_zero_of (pick r ["Quantity"; "Qty"]);
         SupplierLine.date := Some (pick r ["Date"]) |}) rows in
  List.filter (fun r => negb (String.eqb (SupplierLine.supplier r) "")
                        && negb (test_prefix_i "total - " (SupplierLine.supplier r))
                        && negb (String.eqb (SupplierLine.item r) "")
                        && JsNum.gt (SupplierLine.totalCost r) 0) rs.

(** One turn of the row loop of the XLS/XLSX branch, on the two arrays it
    pushes to. *)
Definition supplier_xlsx_row (iVendor iItem iTotal iQty : Z)
    (acc : list SupplierTotal.t * list SupplierLine.t) (r : list cell)
    : list SupplierTotal.t * list SupplierLine.t :=
  let '(suppliers, lines) := acc in
  let vendor := str_or_empty (Js.at_ r iVendor) in
  let item := str_or_empty (Js.at_ r iItem) in
  let total := num_or_zero (Js.at_ r iTotal) in
  let qty := num_or_zero (Js.at_ r iQty) in
  if test_prefix_i "total - " vendor && JsNum.gt total 0 then
    let name := strip_prefix_i "total - " vendor in
    if JsNum.gt total 0 && negb (is_internal name)
    then ((suppliers ++ [{| SupplierTotal.supplier := name;
                           SupplierTotal.totalCost := total;
                           SupplierTotal.totalQuantity := JsNum.or_zero qty |}])%list, lines)
    else (suppliers, lines)
  else if negb (String.eqb vendor "") && negb (String.eqb item "") && JsNum.gt total 0 then
    (suppliers, (lines ++ [{| SupplierLine.supplier := vendor;
                             SupplierLine.item := item;
                             SupplierLine.totalCost := total;
                             SupplierLine.quantity := JsNum.or_zero qty;
                             SupplierLine.date := None |}])%list)
  else (suppliers, lines).

(** The XLS/XLSX branch from the sheet to the two result sets. *)
Definition supplier_xlsx (ws : sheet) : SupplierData :=
  let hdr := findHeaderRow ws ["vendor"; "supplier"; "item"; "quantity"; "amount"; "total"] in
  let raw := sheet_rows_from hdr ws in
  let header := header_of raw in
  let iVendor := findCol header ["Vendor"; "Supplier"; "Name"] in
  let iItem := findCol header ["Item"; "Item Name"; "Product"] in
  let iTotal := findCol header ["TotalCost"; "Amount"; "Total"; "Net Amount"] in
  let iQty := findCol header ["Quantity"; "Qty"] in
  let '(suppliers, lines) :=
    fold_left (supplier_xlsx_row iVendor iItem iTotal iQty) (tail raw) ([], []) in
  {| suppliers := Js.sort by_totalCost_desc suppliers; lineItems := lines |}.

Definition supplier_csv (rows : list obj) : SupplierData :=
  {| suppliers := supplier_csv_totals rows; lineItems := supplier_csv_lines rows |}.

Definition handleSupplier (file : File) : M unit :=
  if endsWith (toLowerCase (name file)) ".csv" then
    run setStatus "Processing supplier CSV...";
    let! rows := parseCSV file in
    run setSupplierData (supplier_csv rows);
    setStatus "Supplier data loaded"
  else
    run setStatus "Processing supplier XLS/XLSX...";
    let! ws := readFirstSheet file in
    run setSupplierData (supplier_xlsx ws);
    setStatus "Supplier data loaded".

End SupplierHandler.

(* ===================================================================== *)
(** ** The derived-metrics engine: [computed] *)
(* ===================================================================== *)

Module Derived.
(** [{ ...item, annualSales, dailySales, ... }]: the cost item and the eight
    fields added to it. *)
Record Item := {
  base : Cost.Item;
  annualSales : float;
  dailySales : float;
  daysOfInventory : float;
  reorderPoint : float;
  daysUntilStockout : float;
  eoq : float;
  priceDelta : float;
  annualImpact : float;
}.
End Derived.

Record Computed := {
  items : list Derived.Item;
  slowMovers : list Derived.Item;
  deadStock : list Derived.Item;
  criticalStockouts : list Derived.Item;
  warningStockouts : list Derived.Item;
  priceOpps : list Derived.Item;
}.

Section Engine.
Open Scope float_scope.

(** [a || b] when [a] is an object or [undefined] *)
Definition or_obj {A} (a b : option A) : option A :=
  match a with
  | Some x => Some x
  | None => b
  end.

Variable salesMap : gmap string Sales.Aggregate.
Variables slowCost deadCost slowDays targetMargin orderingCost holdingCostRate : float.

(** [const s = salesMap[code] || ... || null]: an entry of the mapping and
    an inherited member are both objects, hence both truthy. *)
Definition sales_of (item : Cost.Item) : option (slot Sales.Aggregate) :=
  let code := Cost.itemCode item in
  or_obj (proto_read salesMap code)
    (or_obj (proto_read salesMap (code ++ "-New")%string)
      (or_obj (proto_read salesMap (code ++ "-ReCert")%string)
        (or_obj (proto_read salesMap (Cost.fullItem item)) None))).

(** [s ? Number(s.totalQtySold) : 0]: an inherited member has no
    [totalQtySold] but what the loop of [handleSales] may have written on
    it, which is [NaN]; [Number] gives [NaN] in both cases. *)
Definition annualSales_of (item : Cost.Item) : float :=
  match sales_of item with
  | Some (Own s) => Sales.totalQtySold s
  | Some (Inherited _) => nan
  | None => 0
  end.

Definition leadTimeDays (item : Cost.Item) : float :=
  match Cost.itemType item with
  | ReCert => 28
  | New => 21
  end.

Definition safetyStock (dailySales leadTimeDays : float) : float :=
  dailySales * JsNum.Math_max 7 (JsNum.Math_round (leadTimeDays / 2)).

Definition eoq_of (item : Cost.Item) (annualSales : float) : float :=
  let holdingCost := Cost.unitCost item * holdingCostRate in
  if JsNum.gt holdingCost 0 && JsNum.gt annualSales 0
  then JsNum.Math_round (JsNum.Math_sqrt ((2 * annualSales * orderingCost) / holdingCost))
  else JsNum.Math_round ((annualSales / 12) * 3).

(** The function mapped over [costData]. *)
Definition derive (item : Cost.Item) : Derived.Item :=
  let annualSales := annualSales_of item in
  let dailySales := annualSales / 365 in
  let daysOfInventory :=
    if JsNum.gt dailySales 0 then Cost.Quantity item / dailySales else infinity in
  let leadTimeDays := leadTimeDays item in
  let safetyStock := safetyStock dailySales leadTimeDays in
  let reorderPoint := (dailySales * leadTimeDays) + safetyStock in
  let daysUntilStockout :=
    if JsNum.gt dailySales 0 then Cost.Quantity item / dailySales else infinity in
  let eoq := eoq_of item annualSales in
  let targetPrice :=
    if JsNum.gt (Cost.unitCost item) 0 then Cost.unitCost item / (1 - targetMargin) else 0 in
  let priceDelta := JsNum.Math_max 0 (targetPrice - Cost.unitPrice item) in
  let annualImpact := priceDelta * annualSales in
  {| Derived.base := item;
     Derived.annualSales := annualSales;
     Derived.dailySales := dailySales;
     Derived.daysOfInventory := daysOfInventory;
     Derived.reorderPoint := reorderPoint;
     Derived.daysUntilStockout := daysUntilStockout;
     Derived.eoq := eoq;
     Derived.priceDelta := priceDelta;
     Derived.annualImpact := annualImpact |}.

Definition totalCost_of (it : Derived.Item) : float := Cost.totalCost (Derived.base it).

Definition is_slowMover (it : Derived.Item) : bool :=
  JsNum.gt (totalCost_of it) slowCost
  && (JsNum.gt (Derived.daysOfInventory it) slowDays || JsNum.seq (Derived.annualSales it) 0)
  && JsNum.gt (Cost.Quantity (Derived.base it)) 0.

Definition is_deadStock (it : Derived.Item) : bool :=
  JsNum.seq (Derived.annualSales it) 0
  && JsNum.gt (totalCost_of it) deadCost
  && JsNum.gt (Cost.Quantity (Derived.base it)) 0.

Definition is_criticalStockout (it : Derived.Item) : bool :=
  JsNum.le (Derived.daysUntilStockout it) 30
  && negb (JsNum.seq (Derived.daysUntilStockout it) infinity)
  && JsNum.gt (totalCost_of it) 1000.

Definition is_warningStockout (it : Derived.Item) : bool :=
  JsNum.gt (Derived.daysUntilStockout it) 30
  && JsNum.le (Derived.daysUntilStockout it) 60
  && JsNum.gt (totalCost_of it) 500.

Definition is_priceOpp (it : Derived.Item) : bool :=
  JsNum.gt (Derived.priceDelta it) 0
  && JsNum.gt (Derived.annualSales it) 0
  && JsNum.gt (Cost.totalRevenue (Derived.base it)) 5000.

Definition by_totalCost (a b : Derived.Item) : float := totalCost_of b - totalCost_of a.
Definition by_stockout (a b : Derived.Item) : float :=
  Derived.daysUntilStockout a - Derived.daysUntilStockout b.
Definition by_impact (a b : Derived.Item) : float :=
  Derived.annualImpact b - Derived.annualImpact a.

(** The body of the [useMemo] that defines [computed]; [None] is [null]. *)
Definition computed (costData : list Cost.Item) : option Computed :=
  match costData with
  | [] => None
  | _ =>
    let items := map derive costData in
    Some {| items := items;
            slowMovers := Js.sort by_totalCost (List.filter is_slowMover items);
            deadStock := Js.sort by_totalCost (List.filter is_deadStock items);
            criticalStockouts := Js.sort by_stockout (List.filter is_criticalStockout items);
            warningStockouts := Js.sort by_stockout (List.filter is_warningStockout items);
            priceOpps := Js.sort by_impact (List.filter is_priceOpp items) |}
  end.

End Engine.

(** [computed] on the state of the component, in the order of the
    dependency list of its [useMemo]. *)
Definition computed_of (st : AppState) : option Computed :=
  computed (salesMap st) (slowCost st) (deadCost st) (slowDays st)
           (targetMargin st) (orderingCost st) (holdingCostRate st) (costData st).

(* ===================================================================== *)
(** ** Export: [downloadCSV] *)
(* ===================================================================== *)

Definition itemType_name (t : ItemType) : string :=
  match t with
  | New => "New"
  | ReCert => "ReCert"
  end.

(** A derived item as the object the engine builds: the properties of the
    cost item in the order [handleCost] writes them, then the eight added
    ones. *)
Definition derived_obj (it : Derived.Item) : obj :=
  let c := Derived.base it in
  [ ("fullItem", CStr (Cost.fullItem c));
    ("itemCode", CStr (Cost.itemCode c));
    ("itemType", CStr (itemType_name (Cost.itemType c)));
    ("unitPrice", CNum (Cost.unitPrice c));
    ("unitCost", CNum (Cost.unitCost c));
    ("Quantity", CNum (Cost.Quantity c));
    ("profitPerUnit", CNum (Cost.profitPerUnit c));
    ("profitMargin", CNum (Cost.profitMargin c));
    ("totalProfit", CNum (Cost.totalProfit c));
    ("totalRevenue", CNum (Cost.totalRevenue c));
    ("totalCost", CNum (Cost.totalCost c));
    ("annualSales", CNum (Derived.annualSales it));
    ("dailySales", CNum (Derived.dailySales it));
    ("daysOfInventory", CNum (Derived.daysOfInventory it));
    ("reorderPoint", CNum (Derived.reorderPoint it));
    ("daysUntilStockout", CNum (Derived.daysUntilStockout it));
    ("eoq", CNum (Derived.eoq it));
    ("priceDelta", CNum (Derived.priceDelta it));
    ("annualImpact", CNum (Derived.annualImpact it)) ].

Definition newline : string := String (ascii_of_nat 10) EmptyString.
Definition backslash : string := String (ascii_of_nat 92) EmptyString.

Definition hex_digit (n : nat) : ascii :=
  if (n <? 10)%nat then ascii_of_nat (48 + n) else ascii_of_nat (87 + n).

(** QuoteJSONString, one code unit at a time. *)
Definition json_escape (c : ascii) : string :=
  let n := nat_of_ascii c in
  if (n =? 8)%nat then backslash ++ "b"
  else if (n =? 9)%nat then backslash ++ "t"
  else if (n =? 10)%nat then backslash ++ "n"
  else if (n =? 12)%nat then backslash ++ "f"
  else if (n =? 13)%nat then backslash ++ "r"
  else if (n =? 34)%nat then backslash ++ dquote
  else if (n =? 92)%nat then backslash ++ backslash
  else if (n <? 32)%nat
       then backslash ++ "u00" ++ String (hex_digit (n / 16)) (String (hex_digit (n mod 16)) "")
  else String c "".

Fixpoint json_escape_all (s : string) : string :=
  match s with
  | EmptyString => EmptyString
  | String c s' => json_escape c ++ json_escape_all s'
  end.

Definition json_quote (s : string) : string := dquote ++ json_escape_all s ++ dquote.

(** A field is quoted when it is written between two double quotes. *)
Definition is_quoted (field : string) : bool :=
  (2 <=? String.length field)%nat && startsWith field dquote && endsWith field dquote.

Section CsvExport.
Context `{Host}.

(** [JSON.stringify(c)] on a cell value *)
Definition JSON_stringify (c : cell) : string :=
  match c with
  | CNull => "null"
  | CBool true => "true"
  | CBool false => "false"
  | CNum x => if JsNum.is_finite x then number_to_string x else "null"
  | CStr s => json_quote s
  end.

(** [headers.map((h) => JSON.stringify(r[h] ?? ""))]: the rows that the
    program exports all have the keys of the first one, so that [r[h]] reads
    an own property. *)
Definition csv_fields (headers : list string) (r : obj) : list string :=
  map (fun h => JSON_stringify (Js.nullish_else (JsObject.get r h) (CStr ""))) headers.

(** The lines joined into [csv]. *)
Definition csv_lines (rows : list obj) : list string :=
  let headers := JsObject.keys (hd [] rows) in
  join "," headers :: map (fun r => join "," (csv_fields headers r)) rows.

(** [downloadCSV(filename, rows)]: the name and the text of the file handed
    to the browser, or [None] when the function returns at once. *)
Definition downloadCSV (filename : string) (rows : list obj) : option (string * string) :=
  match rows with
  | [] => None
  | _ => Some (filename, join newline (csv_lines rows))
  end.

End CsvExport.

(* ===================================================================== *)
(** ** The fields that the row loops read *)
(* ===================================================================== *)

(** The six thresholds of a state. *)
Definition thresholds (st : AppState) :=
  (slowCost st, deadCost st, slowDays st, targetMargin st, orderingCost st,
   holdingCostRate st).

(** The test of both row loops of [handleSales]:
    [item && qty > 0 && item !== "Inventory Item"]. *)
Definition sales_counts (item : string) (qty : float) : bool :=
  negb (String.eqb item "") && JsNum.gt qty 0 && negb (String.eqb item "Inventory Item").

Section SalesFields.
Context `{Host}.

(** [item], [desc], [qty] and [revenue] as the CSV loop of [handleSales]
    reads them from a row, and as its XLS/XLSX loop does. *)
Definition sales_csv_fields (row : obj) : string * string * float * float :=
  (trim (str_or_empty_of (pick row ["Item"; "Inventory Item"; "Item Name"])),
   str_or_empty_of (pick row ["Description"; "ItemDesc"; "Name"; "Memo"]),
   JsNum.or_zero (Js.Number_value (pick row ["Qty"; "QtySold"; "Quantity"; "Quantity Sold"])),
   JsNum.or_zero (Js.Number_value
      (pick row ["TotalRevenue"; "Amount"; "Total"; "Net Amount"; "Sales Amount"]))).

Definition sales_xlsx_fields (iItem iDesc iQty iRev : Z) (r : list cell)
    : string * string * float * float :=
  (trim (str_or_empty (Js.at_ r iItem)),
   str_or_empty (Js.at_ r iDesc),
   num_or_zero (Js.at_ r iQty),
   num_or_zero (Js.at_ r iRev)).

End SalesFields.

(* ===================================================================== *)
(** ** Summary figures: [sum], [avg], [metrics] and [topBottom] *)
(* ===================================================================== *)

Section Summary.
Open Scope float_scope.

(** [arr.reduce((a, b) => a + (Number(b) || 0), 0)] on an array of Numbers *)
Definition sum (arr : list float) : float :=
  fold_left (fun a b => a + JsNum.or_zero b) arr 0.

(** [arr.length] as a Number; a length is below [2^32]. *)
Definition length_number {A} (arr : list A) : float :=
  JsNum.of_Z (Z.of_nat (length arr)).

Definition avg (arr : list float) : float :=
  match arr with
  | [] => 0
  | _ => fold_left (fun a b => a + JsNum.or_zero b) arr 0 / length_number arr
  end.

Record Metrics := {
  avgMargin : float;
  totalProfit : float;
  totalRevenue : float;
  losingItems : nat;
}.

(** The figures shown before any cost file is loaded. *)
Definition placeholder_metrics : Metrics := {|
  avgMargin := 0x1.01ae147ae147bp+5 (* 32.21 *);
  totalProfit := 0x1.4c6b836353f7dp+22 (* 5446368.847 *);
  totalRevenue := 0x1.b8cd374083127p+23 (* 14444187.626 *);
  losingItems := 367;
|}.

Definition is_losing (i : Cost.Item) : bool :=
  JsNum.lt (JsNum.or_zero (Cost.profitMargin i)) 0.

Definition metrics (costData : list Cost.Item) : Metrics :=
  match costData with
  | [] => placeholder_metrics
  | _ =>
    let margins := map (fun i => JsNum.or_zero (Cost.profitMargin i)) costData in
    {| avgMargin := avg margins;
       totalProfit := sum (map (fun i => JsNum.or_zero (Cost.totalProfit i)) costData);
       totalRevenue := sum (map (fun i => JsNum.or_zero (Cost.totalRevenue i)) costData);
       losingItems := length (List.filter is_losing costData) |}
  end.

Definition by_totalProfit_desc (a b : Cost.Item) : float :=
  JsNum.or_zero (Cost.totalProfit b) - JsNum.or_zero (Cost.totalProfit a).

Record TopBottom := { top : list Cost.Item; bottom : list Cost.Item }.

(** [sorted.slice(0, 10)] and [sorted.slice(-10).reverse()]; [None] is
    [null]. *)
Definition topBottom (costData : list Cost.Item) : option TopBottom :=
  match costData with
  | [] => None
  | _ =>
    let sorted := Js.sort by_totalProfit_desc costData in
    Some {| top := firstn 10 sorted;
            bottom := rev (skipn (length sorted - 10) sorted) |}
  end.

End Summary.

(* ===================================================================== *)
(** ** Notions used to state properties of the row loops and of the export *)
(* ===================================================================== *)

Module SalesFold.

(** What the sales mapping keeps true of each of its entries. *)
Definition entry_ok (k : string) (a : Sales.Aggregate) : Prop :=
  Sales.item a = k /\ k <> "" /\ k <> "Inventory Item".

Section Fold.
Context {R : Type} (fi fd : R -> string) (fq fr : R -> float).

(** One turn of a row loop of [handleSales], the four fields of a row being
    read by [fi], [fd], [fq] and [fr]. *)
Definition step (m : gmap string Sales.Aggregate) (r : R) :=
  sales_add m (fi r) (fd r) (fq r) (fr r).

(** The row counts, and counts for the item [k]. *)
Definition adds_to (k : string) (r : R) : Prop :=
  sales_counts (fi r) (fq r) = true /\ fi r = k.

End Fold.

Section Rows.
Context `{Host}.

Definition csv_item (row : obj) := fst (fst (fst (sales_csv_fields row))).
Definition csv_desc (row : obj) := snd (fst (fst (sales_csv_fields row))).
Definition csv_qty (row : obj) := snd (fst (sales_csv_fields row)).
Definition csv_rev (row : obj) := snd (sales_csv_fields row).

End Rows.

End SalesFold.

(** What both branches of [handleSupplier] keep true of a line item and of
    a supplier total. *)
Definition supplier_line_ok (l : SupplierLine.t) : Prop :=
  SupplierLine.supplier l <> ""
  /\ SupplierLine.item l <> ""
  /\ test_prefix_i "total - " (SupplierLine.supplier l) = false
  /\ JsNum.gt (SupplierLine.totalCost l) 0 = true.

Definition supplier_total_ok (s : SupplierTotal.t) : Prop :=
  JsNum.gt (SupplierTotal.totalCost s) 0 = true
  /\ is_internal (SupplierTotal.supplier s) = false
  /\ is_nan (SupplierTotal.totalQuantity s) = false.

Section HeaderTokens.
Context `{Host}.

(** The expected token [h] is found in a row: lower-cased, it is the
    lower-cased text of one of the cells. *)
Definition token_found (row : list (option cell)) (h : string) : Prop :=
  exists x, In (Some x) row
            /\ toLowerCase (Js.String_ (Js.nullish_else (Some x) (CStr ""))) = toLowerCase h.

(** [n] of the expected tokens are found in the row, a token listed twice
    being counted twice. *)
Inductive token_hits (row : list (option cell)) : list string -> nat -> Prop :=
| hits_none : token_hits row [] 0
| hits_found h hs n :
    token_found row h -> token_hits row hs n -> token_hits row (h :: hs) (S n)
| hits_missing h hs n :
    ~ token_found row h -> token_hits row hs n -> token_hits row (h :: hs) n.

End HeaderTokens.





(** [s.split(c)] for a separator of one code unit. *)
Fixpoint split_char (c : ascii) (s : string) : list string :=
  match s with
  | EmptyString => [EmptyString]
  | String d s' =>
      if Ascii.eqb c d then EmptyString :: split_char c s'
      else match split_char c s' with
           | [] => [String d EmptyString]
           | part :: parts => String d part :: parts
           end
  end.

(** [s] holds a capital letter of A-Z. *)
Definition is_capital (c : ascii) : bool :=
  let n := nat_of_ascii c in ((65 <=? n) && (n <=? 90))%nat.

Fixpoint has_capital (s : string) : bool :=
  match s with
  | EmptyString => false
  | String c s' => is_capital c || has_capital s'
  end.

(** [s] holds the code unit [c]. *)
Fixpoint has_char (c : ascii) (s : string) : bool :=
  match s with
  | EmptyString => false
  | String d s' => Ascii.eqb c d || has_char c s'
  end.

(* ===================================================================== *)
(** ** Data of the examples *)
(* ===================================================================== *)

Module Examples.

(** The decimal numeral of an integer. *)
Definition decimal (z : Z) : string :=
  DecimalString.NilZero.string_of_int (Z.to_int z).

(** The integer a finite integral Number stands for. *)
Definition integer_of (x : float) : option Z :=
  match Prim2SF x with
  | S754_zero _ => Some 0%Z
  | S754_finite s m e =>
      if (0 <=? e)%Z
      then Some ((if s then -1 else 1) * Zpos m * 2 ^ e)%Z
      else if (Zpos m mod 2 ^ (- e) =? 0)%Z
           then Some ((if s then -1 else 1) * (Zpos m / 2 ^ (- e)))%Z
           else None
  | _ => None
  end.

(** A host for the examples.  Its [number_to_string] is the one of the
    language on [NaN], the infinities and the integers below [10^15] in
    absolute value, and its [string_to_number] on the empty string and on
    the unsigned decimal numerals of at most fifteen digits; the examples
    convert nothing else.  Its built-in functions print on one line.  Its
    decoders give back fixed rows and a fixed
    sheet. *)
Definition host (rows : list obj) (ws : sheet) : Host := {|
  number_to_string x :=
    if is_nan x then "NaN"
    else if is_infinity x then (if get_sign x then "-Infinity" else "Infinity")
    else match integer_of x with
         | Some z => if (Z.abs z <? 10 ^ 15)%Z then decimal z else ""
         | None => ""
         end;
  string_to_number s :=
    match JsObject.digits_value s 0 with
    | Some n => if (String.length s =? 0)%nat then 0%float
                else if (String.length s <? 16)%nat then JsNum.of_Z (Z.of_N n) else nan
    | None => nan
    end;
  function_to_string k :=
    "function " ++ (if String.eqb k "constructor" then "Object" else k)
      ++ "() { [native code] }";
  papa_parse _ := Some rows;
  xlsx_first_sheet _ := Some ws;
|}.

(** The cost row and the sales mapping of the end-to-end scenario. *)
Definition cost_row : obj :=
  [ ("Item", CStr "ABC123 : Recert Widget");
    ("Average Item Rate", CNum 100);
    ("Average of Est. Unit Cost", CNum 60);
    ("Quantity", CNum 10) ].

Definition sales : gmap string Sales.Aggregate :=
  {[ "ABC123-ReCert" := {| Sales.item := "ABC123-ReCert"; Sales.description := "";
                           Sales.totalQtySold := 730; Sales.totalRevenue := 0 |} ]}.

(** A cost row with a unit price of zero, and one of an item that the sales
    mapping does not know, with 600 of stock at cost. *)
Definition free_row : obj :=
  [ ("Item", CStr "FREE1 : Sample");
    ("Average Item Rate", CNum 0);
    ("Average of Est. Unit Cost", CNum 5);
    ("Quantity", CNum 3) ].

Definition idle_row : obj :=
  [ ("Item", CStr "IDLE9 : Gadget");
    ("Average Item Rate", CNum 80);
    ("Average of Est. Unit Cost", CNum 60);
    ("Quantity", CNum 10) ].

(** A cost row of an item whose code is the name of a member of
    [Object.prototype]. *)
Definition inherited_row : obj :=
  [ ("Item", CStr "constructor");
    ("Average Item Rate", CNum 100);
    ("Average of Est. Unit Cost", CNum 60);
    ("Quantity", CNum 10) ].

(** A purchase-order export, once as the rows of a delimited-text file and
    once as a sheet: one detail line and one subtotal line, with the same
    values in the same columns. *)
Definition po_rows : list obj :=
  [ [ ("Vendor", CStr "Acme"); ("Item", CStr "Widget"); ("Amount", CNum 100);
      ("Quantity", CNum 2); ("Date", CStr "2024-01-05") ];
    [ ("Vendor", CStr "Total - Acme"); ("Item", CNull); ("Amount", CNum 100);
      ("Quantity", CNum 2); ("Date", CNull) ] ].

Definition po_sheet : sheet :=
  [ [ Some (CStr "Vendor"); Some (CStr "Item"); Some (CStr "Amount");
      Some (CStr "Quantity"); Some (CStr "Date") ];
    [ Some (CStr "Acme"); Some (CStr "Widget"); Some (CNum 100);
      Some (CNum 2); Some (CStr "2024-01-05") ];
    [ Some (CStr "Total - Acme"); None; Some (CNum 100); Some (CNum 2); None ] ].

(** A sales export as a sheet, and a file that holds it under a name that
    no upload slot accepts. *)
Definition sales_sheet : sheet :=
  [ [ Some (CStr "Item"); Some (CStr "Qty"); Some (CStr "Amount") ];
    [ Some (CStr "ABC123"); Some (CNum 4); Some (CNum 40) ] ].

(** The same export under a title line. *)
Definition titled_sheet : sheet := [ Some (CStr "Sales by Item") ] :: sales_sheet.

Definition notes_txt : File := {| name := "notes.txt"; content := [] |}.

(** A cost row of an item sold under its cost, and one priced under the
    target margin with 6000 of revenue. *)
Definition losing_row : obj :=
  [ ("Item", CStr "LOSS7 : Cable");
    ("Average Item Rate", CNum 50);
    ("Average of Est. Unit Cost", CNum 60);
    ("Quantity", CNum 4) ].

Definition thin_row : obj :=
  [ ("Item", CStr "ABC123 : Recert Widget");
    ("Average Item Rate", CNum 100);
    ("Average of Est. Unit Cost", CNum 90);
    ("Quantity", CNum 60) ].

(** A sales export as rows: two lines of one item, the second with another
    description. *)
Definition sales_rows : list obj :=
  [ [ ("Item", CStr "ABC123-ReCert"); ("Description", CStr "Widget");
      ("Qty", CNum 700); ("Amount", CNum 7000) ];
    [ ("Item", CStr "ABC123-ReCert"); ("Description", CStr "Widget, recertified");
      ("Qty", CNum 30); ("Amount", CNum 300) ] ].

(** A customer export as labels and amounts: a subtotal, a detail line and
    an intercompany subtotal. *)
Definition customer_pairs : list (string * float) :=
  [ ("Total - Acme Corp", 1000%float); ("Acme Corp", 500%float);
    ("Total - IC-West", 70%float) ].

Definition cost_csv : File := {| name := "cost.csv"; content := [] |}.
Definition sales_csv : File := {| name := "sales.csv"; content := [] |}.
Definition po_csv : File := {| name := "po.csv"; content := [] |}.

End Examples.

(* ===================================================================== *)
(** * Properties *)
(* ===================================================================== *)

(** ** Comparisons of Numbers *)

Module NumFacts.

Open Scope float_scope.

Lemma SFcompare_antisym x y :
  SFcompare x y = option_map CompOpp (SFcompare y x).
Proof.
  destruct x as [sx|sx| |sx mx ex], y as [sy|sy| |sy my ey]; simpl; try reflexivity;
    try (destruct sx; reflexivity); try (destruct sy; reflexivity);
    try (destruct sx, sy; reflexivity).
  destruct sx, sy; simpl; try reflexivity;
    rewrite (Z.compare_antisym ex ey); destruct (ex ?= ey)%Z; simpl; try reflexivity;
    rewrite (Pos.compare_cont_antisym my mx Eq); simpl; try reflexivity.
Qed.

Ltac cmp_cases :=
  repeat match goal with
  | H : context [(?a ?= ?b)%Z] |- _ => destruct (Z.compare_spec a b)
  | |- context [(?a ?= ?b)%Z] => destruct (Z.compare_spec a b)
  | H : context [(?a ?= ?b)%positive] |- _ => destruct (Pos.compare_spec a b)
  | |- context [(?a ?= ?b)%positive] => destruct (Pos.compare_spec a b)
  end.

Lemma SFleb_ltb_trans a b t :
  SFleb a b = true -> SFltb b t = true -> SFltb a t = true.
Proof.
  unfold SFleb, SFltb.
  destruct a as [sa|sa| |sa ma ea], b as [sb|sb| |sb mb eb], t as [st|st| |st mt et];
    simpl; try discriminate; try reflexivity;
    try (destruct sa; simpl; try discriminate; try reflexivity);
    try (destruct sb; simpl; try discriminate; try reflexivity);
    try (destruct st; simpl; try discriminate; try reflexivity).
  all: change (Pos.compare_cont Eq) with Pos.compare.
  all: cmp_cases; simpl; try discriminate; try reflexivity; intros; subst; try lia.
Qed.

(** [a <= b] and [b < t] give [a < t]; no operand is [NaN] then. *)
Lemma gt_ge_trans t a b :
  JsNum.gt t b = true -> JsNum.ge b a = true -> JsNum.gt t a = true.
Proof.
  unfold JsNum.gt, JsNum.ge.
  rewrite !FloatAxioms.ltb_spec, FloatAxioms.leb_spec.
  intros Hbt Hab. exact (SFleb_ltb_trans _ _ _ Hab Hbt).
Qed.

(** [x <= c] excludes [x > c]. *)
Lemma le_not_gt x c : JsNum.le x c = true -> JsNum.gt x c = false.
Proof.
  unfold JsNum.le, JsNum.gt.
  rewrite FloatAxioms.ltb_spec, FloatAxioms.leb_spec.
  unfold SFleb, SFltb. rewrite (SFcompare_antisym (Prim2SF c)).
  destruct (SFcompare (Prim2SF x) (Prim2SF c)) as [[]|]; simpl; congruence.
Qed.

(** A Number equal to zero is one of the two zeros. *)
Lemma seq_zero_inv x : JsNum.seq x 0 = true -> x = 0 \/ x = -0.
Proof.
  unfold JsNum.seq. rewrite FloatAxioms.eqb_spec.
  change (Prim2SF 0) with (S754_zero false).
  destruct (Prim2SF x) as [s|s| |s m e] eqn:E; unfold SFeqb; simpl;
    try discriminate; try (destruct s; discriminate).
  intros _. destruct s; [right | left]; apply Prim2SF_inj; rewrite E; reflexivity.
Qed.

Lemma seq_zero_not_gt x : JsNum.seq x 0 = true -> JsNum.gt x 0 = false.
Proof. intros Hx. destruct (seq_zero_inv x Hx) as [-> | ->]; reflexivity. Qed.

(** No sales a year is no sales a day. *)
Lemma daily_of_zero x : JsNum.seq x 0 = true -> JsNum.gt (x / 365) 0 = false.
Proof. intros Hx. destruct (seq_zero_inv x Hx) as [-> | ->]; reflexivity. Qed.

(** [Math.round] and [Math.max] on the values the engine meets and on the
    ties and zeros where the two differ from naive rounding. *)
Example Math_round_values :
  JsNum.Math_round 14 = 14 /\ JsNum.Math_round 10.5 = 11
  /\ JsNum.Math_round 2.5 = 3 /\ JsNum.Math_round (-2.5) = -2
  /\ JsNum.Math_round (-0.5) = -0 /\ JsNum.Math_round 0.25 = 0
  /\ JsNum.Math_round infinity = infinity
  /\ JsNum.Math_max 7 14 = 14 /\ JsNum.Math_max 7 11 = 11
  /\ JsNum.Math_max (-0) 0 = 0 /\ is_nan (JsNum.Math_max nan 7) = true.
Proof. repeat split; reflexivity. Qed.

End NumFacts.

(** ** Sorting keeps the elements *)

Module SortFacts.

Section Sort.
Context {A : Type} (cmp : A -> A -> float).

Lemma In_insert_by x y l : In y (Js.insert_by cmp x l) <-> y = x \/ In y l.
Proof.
  induction l as [|z l IH]; simpl.
  - intuition congruence.
  - destruct (JsNum.gt (cmp x z) 0); simpl; rewrite ?IH; intuition congruence.
Qed.

Lemma In_sort y l : In y (Js.sort cmp l) <-> In y l.
Proof.
  unfold Js.sort. induction l as [|x l IH]; simpl; [tauto|].
  rewrite In_insert_by, IH. intuition congruence.
Qed.

Lemma length_insert_by x l : length (Js.insert_by cmp x l) = S (length l).
Proof.
  induction l as [|z l IH]; simpl; [reflexivity|].
  destruct (JsNum.gt (cmp x z) 0); simpl; congruence.
Qed.

Lemma length_sort l : length (Js.sort cmp l) = length l.
Proof.
  unfold Js.sort. induction l as [|x l IH]; simpl; [reflexivity|].
  rewrite length_insert_by. congruence.
Qed.

End Sort.

Lemma length_filter_mono {A} (p q : A -> bool) l :
  (forall x, p x = true -> q x = true) ->
  (length (List.filter p l) <= length (List.filter q l))%nat.
Proof.
  intros Hpq. induction l as [|x l IH]; simpl; [lia|].
  destruct (p x) eqn:Hp.
  - rewrite (Hpq x Hp). simpl. lia.
  - destruct (q x); simpl; lia.
Qed.

End SortFacts.

(** ** The engine: guarded divisions and the classification *)

Section EngineFacts.
Open Scope float_scope.
Variable salesMap : gmap string Sales.Aggregate.
Variables deadCost slowDays targetMargin orderingCost holdingCostRate : float.

Lemma derive_no_sales item :
  let d := derive salesMap targetMargin orderingCost holdingCostRate item in
  JsNum.seq (Derived.annualSales d) 0 = true ->
  Derived.daysOfInventory d = infinity /\ Derived.daysUntilStockout d = infinity.
Proof.
  unfold derive; simpl. intros Hz.
  rewrite (NumFacts.daily_of_zero _ Hz). split; reflexivity.
Qed.

Lemma no_sales_not_critical it :
  Derived.daysUntilStockout it = infinity -> is_criticalStockout it = false.
Proof. unfold is_criticalStockout. intros ->. reflexivity. Qed.

Lemma no_sales_not_warning it :
  Derived.daysUntilStockout it = infinity -> is_warningStockout it = false.
Proof.
  unfold is_warningStockout. intros ->.
  destruct (JsNum.gt (totalCost_of it) 500); reflexivity.
Qed.

Lemma critical_not_warning it :
  is_criticalStockout it = true -> is_warningStockout it = false.
Proof.
  unfold is_criticalStockout, is_warningStockout.
  intros Hc. apply andb_prop in Hc as [Hc _]. apply andb_prop in Hc as [Hle _].
  rewrite (NumFacts.le_not_gt _ _ Hle). reflexivity.
Qed.

Lemma slowMover_antitone sc sc' it :
  JsNum.ge sc' sc = true ->
  is_slowMover sc' slowDays it = true -> is_slowMover sc slowDays it = true.
Proof.
  unfold is_slowMover. intros Hge Hs.
  apply andb_prop in Hs as [Hs Hq]. apply andb_prop in Hs as [Hc Hd].
  rewrite (NumFacts.gt_ge_trans _ _ _ Hc Hge), Hd, Hq. reflexivity.
Qed.

Lemma computed_Some slowCost costData c :
  computed salesMap slowCost deadCost slowDays targetMargin orderingCost
           holdingCostRate costData = Some c ->
  let its := map (derive salesMap targetMargin orderingCost holdingCostRate) costData in
  c = {| items := its;
         slowMovers := Js.sort by_totalCost (List.filter (is_slowMover slowCost slowDays) its);
         deadStock := Js.sort by_totalCost (List.filter (is_deadStock deadCost) its);
         criticalStockouts := Js.sort by_stockout (List.filter is_criticalStockout its);
         warningStockouts := Js.sort by_stockout (List.filter is_warningStockout its);
         priceOpps := Js.sort by_impact (List.filter is_priceOpp its) |}.
Proof.
  unfold computed. destruct costData; [discriminate|]. intros [= <-]. reflexivity.
Qed.

End EngineFacts.

(** C7. The two division sites are guarded.  A cost item built from a row
    whose unit price is zero has [profitMargin] and [profitPerUnit] equal to
    zero, and so has every such item that [handleCost] stores; a derived item
    whose annual sales are zero has [daysOfInventory] and
    [daysUntilStockout] equal to [Infinity], which is not [NaN]. *)
Theorem C7_division_sites_guarded `{Host} :
  (forall row : obj,
      JsNum.seq (Cost.unitPrice (cost_row_item row)) 0 = true ->
      Cost.profitMargin (cost_row_item row) = 0%float
      /\ Cost.profitPerUnit (cost_row_item row) = 0%float)
  /\ (forall file st st' it,
      handleCost file st = (st', inr tt) ->
      In it (costData st') ->
      JsNum.seq (Cost.unitPrice it) 0 = true ->
      Cost.profitMargin it = 0%float /\ Cost.profitPerUnit it = 0%float)
  /\ (forall salesMap targetMargin orderingCost holdingCostRate item,
      let d := derive salesMap targetMargin orderingCost holdingCostRate item in
      JsNum.seq (Derived.annualSales d) 0 = true ->
      Derived.daysOfInventory d = infinity
      /\ Derived.daysUntilStockout d = infinity
      /\ is_nan (Derived.daysOfInventory d) = false
      /\ is_nan (Derived.daysUntilStockout d) = false).
Proof.
  assert (Hrow : forall row : obj,
      JsNum.seq (Cost.unitPrice (cost_row_item row)) 0 = true ->
      Cost.profitMargin (cost_row_item row) = 0%float
      /\ Cost.profitPerUnit (cost_row_item row) = 0%float).
  { intros row. unfold cost_row_item; simpl. intros Hz.
    rewrite (NumFacts.seq_zero_not_gt _ Hz). split; reflexivity. }
  split; [exact Hrow|]. split.
  - intros file st st' it Hrun Hin Hz.
    unfold handleCost, bind, ensureExt, setStatus, parseCSV, setCostData in Hrun.
    destruct (negb _) in Hrun; simpl in Hrun; [discriminate|].
    destruct (papa_parse (content file)) as [rows|]; simpl in Hrun; [|discriminate].
    injection Hrun as <-. simpl in Hin.
    apply in_map_iff in Hin as (row & <- & _). apply Hrow, Hz.
  - intros salesMap tm oc hr item d Hz. subst d.
    destruct (derive_no_sales salesMap tm oc hr item Hz) as [-> ->].
    repeat split; reflexivity.
Qed.

(** C8. With the cost dataset, the sales mapping and the other five
    thresholds fixed, raising [slowCost] never adds a slow mover: every item
    of the set computed with the larger value is in the set computed with
    the smaller one, which is therefore at least as long. *)
Theorem C8_slowMovers_antitone_in_slowCost
    (salesMap : gmap string Sales.Aggregate)
    (deadCost slowDays targetMargin orderingCost holdingCostRate : float)
    (costData : list Cost.Item) (slowCost slowCost' : float) :
  JsNum.ge slowCost' slowCost = true ->
  match computed salesMap slowCost' deadCost slowDays targetMargin orderingCost
                 holdingCostRate costData,
        computed salesMap slowCost deadCost slowDays targetMargin orderingCost
                 holdingCostRate costData with
  | Some c', Some c =>
      (forall it, In it (slowMovers c') -> In it (slowMovers c))
      /\ (length (slowMovers c') <= length (slowMovers c))%nat
  | None, None => True
  | _, _ => False
  end.
Proof.
  intros Hge. unfold computed. destruct costData as [|item rest]; [exact I|].
  cbn [slowMovers]. split.
  - intros it Hin. apply SortFacts.In_sort in Hin. apply SortFacts.In_sort.
    apply filter_In in Hin as [Hin Hs]. apply filter_In. split; [exact Hin|].
    exact (slowMover_antitone slowDays slowCost slowCost' it Hge Hs).
  - rewrite !SortFacts.length_sort. apply SortFacts.length_filter_mono.
    intros it. apply slowMover_antitone, Hge.
Qed.

(** C10. A derived item without sales is in neither stockout set: its
    [daysUntilStockout] is [Infinity], which the critical filter excludes by
    name and the warning filter by its bound of 60.  Hence no dead-stock item
    is reported as a stockout risk, and no item is in both stockout sets. *)
Theorem C10_no_sales_no_stockout_alert
    (salesMap : gmap string Sales.Aggregate)
    (slowCost deadCost slowDays targetMargin orderingCost holdingCostRate : float)
    (costData : list Cost.Item) (c : Computed) :
  computed salesMap slowCost deadCost slowDays targetMargin orderingCost
           holdingCostRate costData = Some c ->
  (forall it, In it (items c) -> JsNum.seq (Derived.annualSales it) 0 = true ->
      Derived.daysUntilStockout it = infinity
      /\ ~ In it (criticalStockouts c) /\ ~ In it (warningStockouts c))
  /\ (forall it, In it (deadStock c) ->
      ~ In it (criticalStockouts c) /\ ~ In it (warningStockouts c))
  /\ (forall it, In it (criticalStockouts c) -> ~ In it (warningStockouts c)).
Proof.
  intros Hc. apply computed_Some in Hc. subst c.
  cbn [items deadStock criticalStockouts warningStockouts].
  set (its := map _ costData).
  assert (Hzero : forall it, In it its -> JsNum.seq (Derived.annualSales it) 0 = true ->
            Derived.daysUntilStockout it = infinity).
  { intros it Hin Hz. apply in_map_iff in Hin as (ci & <- & _).
    apply (derive_no_sales salesMap targetMargin orderingCost holdingCostRate ci Hz). }
  assert (Hout : forall it, Derived.daysUntilStockout it = infinity ->
            ~ In it (Js.sort by_stockout (List.filter is_criticalStockout its))
            /\ ~ In it (Js.sort by_stockout (List.filter is_warningStockout its))).
  { intros it Hinf. split; intros Hin; apply SortFacts.In_sort, filter_In in Hin as [_ Hp].
    - rewrite (no_sales_not_critical it Hinf) in Hp. discriminate.
    - rewrite (no_sales_not_warning it Hinf) in Hp. discriminate. }
  split; [|split].
  - intros it Hin Hz. pose proof (Hzero it Hin Hz) as Hinf.
    destruct (Hout it Hinf). auto.
  - intros it Hin. apply SortFacts.In_sort, filter_In in Hin as [Hin Hp].
    unfold is_deadStock in Hp. apply andb_prop in Hp as [Hp _]. apply andb_prop in Hp as [Hz _].
    apply Hout, Hzero; assumption.
  - intros it Hc Hw.
    apply SortFacts.In_sort, filter_In in Hc as [_ Hc].
    apply SortFacts.In_sort, filter_In in Hw as [_ Hw].
    rewrite (critical_not_warning it Hc) in Hw. discriminate.
Qed.

(** ** The engine: the sales lookup and the formulas *)

(** C1. The annual sales of a cost item are read from the sales mapping
    under the first key that reads as an object among the item code, the
    code followed by [-New], the code followed by [-ReCert], and the full
    item label, in this order.  When that key is one of the mapping the
    annual sales are its [totalQtySold]; when none of the four is a key of
    the mapping or a name of [Object.prototype] they are [0].  But a key
    that is no key of the mapping and names a member of [Object.prototype]
    reads as that member, and the annual sales are then [NaN], not [0]: so
    it is for the cost row whose item is [constructor], whatever the
    mapping without such a key, the empty one included. *)
Theorem C1_sales_key_cascade
    (salesMap : gmap string Sales.Aggregate)
    (targetMargin orderingCost holdingCostRate : float) (item : Cost.Item) :
  let d := derive salesMap targetMargin orderingCost holdingCostRate item in
  let keys := [ Cost.itemCode item;
                Cost.itemCode item ++ "-New";
                Cost.itemCode item ++ "-ReCert";
                Cost.fullItem item ] in
  let unread k := salesMap !! k = None /\ is_proto_member k = false in
  (forall pre k post s,
      keys = (pre ++ k :: post)%list ->
      Forall unread pre ->
      salesMap !! k = Some s ->
      Derived.annualSales d = Sales.totalQtySold s)
  /\ (forall pre k post,
      keys = (pre ++ k :: post)%list ->
      Forall unread pre ->
      salesMap !! k = None ->
      is_proto_member k = true ->
      is_nan (Derived.annualSales d) = true)
  /\ (Forall unread keys -> Derived.annualSales d = 0%float)
  /\ (let it := cost_row_item (H := Examples.host [] []) Examples.inherited_row in
      Cost.itemCode it = "constructor"
      /\ Cost.fullItem it = "constructor"
      /\ (salesMap !! "constructor" = None ->
          is_nan (Derived.annualSales
                    (derive salesMap targetMargin orderingCost holdingCostRate it)) = true)
      /\ is_nan (Derived.annualSales
                   (derive ∅ targetMargin orderingCost holdingCostRate it)) = true).
Proof.
  intros d keys unread. subst d keys unread. unfold derive; cbn [Derived.annualSales].
  unfold annualSales_of, sales_of, or_obj, proto_read.
  split; [|split; [|split]].
  - intros pre k post s Hk Hpre Hs.
    destruct pre as [|a [|b [|c [|e pre]]]]; simpl in Hk; injection Hk as Hk;
      subst; try (destruct pre; simpl in *; congruence);
      repeat match goal with
             | H : Forall _ (_ :: _) |- _ => inversion H; subst; clear H
             end;
      repeat match goal with
             | H : _ /\ _ |- _ => destruct H
             end;
      repeat match goal with
             | H : salesMap !! _ = _ |- _ => rewrite H; clear H
             | H : is_proto_member _ = _ |- _ => rewrite H; clear H
             end; reflexivity.
  - intros pre k post Hk Hpre Hs Hm.
    destruct pre as [|a [|b [|c [|e pre]]]]; simpl in Hk; injection Hk as Hk;
      subst; try (destruct pre; simpl in *; congruence);
      repeat match goal with
             | H : Forall _ (_ :: _) |- _ => inversion H; subst; clear H
             end;
      repeat match goal with
             | H : _ /\ _ |- _ => destruct H
             end;
      repeat match goal with
             | H : salesMap !! _ = _ |- _ => rewrite H; clear H
             | H : is_proto_member _ = _ |- _ => rewrite H; clear H
             end; reflexivity.
  - intros Hnone.
    repeat match goal with
           | H : Forall _ (_ :: _) |- _ => inversion H; subst; clear H
           end;
    repeat match goal with
           | H : _ /\ _ |- _ => destruct H
           end;
    repeat match goal with
           | H : salesMap !! _ = _ |- _ => rewrite H; clear H
           | H : is_proto_member _ = _ |- _ => rewrite H; clear H
           end; reflexivity.
  - cbv zeta. split; [reflexivity|]. split; [reflexivity|]. split.
    + intros Hno.
      change (Cost.itemCode (cost_row_item (H := Examples.host [] []) Examples.inherited_row))
        with "constructor".
      rewrite Hno. reflexivity.
    + reflexivity.
Qed.

(** The item of the end-to-end scenario is found under its third key. *)
Lemma C1_sales_key_cascade_witness :
  Derived.annualSales
    (derive Examples.sales (targetMargin initialState) (orderingCost initialState)
            (holdingCostRate initialState)
            (cost_row_item (H := Examples.host [] []) Examples.cost_row))
  = 730%float.
Proof.
  refine (proj1 (C1_sales_key_cascade Examples.sales _ _ _ _)
                ["ABC123"; "ABC123-New"] "ABC123-ReCert" ["ABC123 : Recert Widget"]
                {| Sales.item := "ABC123-ReCert"; Sales.description := "";
                   Sales.totalQtySold := 730; Sales.totalRevenue := 0 |} _ _ _).
  - reflexivity.
  - repeat constructor.
  - reflexivity.
Defined.

(** C2. The derived quantities are the formulas of the specification:
    daily sales, lead time, safety stock (14 days of sales for a ReCert item,
    11 for a new one), reorder point, and the order quantity in its two
    cases.  On the end-to-end scenario they give daily sales 2, lead time 28,
    reorder point 84 and 5 days of inventory. *)
Theorem C2_derived_quantities `{Host}
    (salesMap : gmap string Sales.Aggregate)
    (targetMargin orderingCost holdingCostRate : float) (item : Cost.Item) :
  let d := derive salesMap targetMargin orderingCost holdingCostRate item in
  let a := Derived.annualSales d in
  let holdingCost := (Cost.unitCost item * holdingCostRate)%float in
  Derived.dailySales d = (a / 365)%float
  /\ leadTimeDays item = (match Cost.itemType item with ReCert => 28 | New => 21 end)%float
  /\ (forall ds lt, safetyStock ds lt
                    = (ds * JsNum.Math_max 7 (JsNum.Math_round (lt / 2)))%float)
  /\ (forall ds, safetyStock ds 28 = (ds * 14)%float /\ safetyStock ds 21 = (ds * 11)%float)
  /\ Derived.reorderPoint d
     = (Derived.dailySales d * leadTimeDays item
        + safetyStock (Derived.dailySales d) (leadTimeDays item))%float
  /\ (JsNum.gt holdingCost 0 = true -> JsNum.gt a 0 = true ->
      Derived.eoq d
      = JsNum.Math_round (JsNum.Math_sqrt ((2 * a * orderingCost) / holdingCost))%float)
  /\ (JsNum.gt holdingCost 0 && JsNum.gt a 0 = false ->
      Derived.eoq d = JsNum.Math_round ((a / 12) * 3)%float)
  /\ (let e := derive Examples.sales targetMargin orderingCost holdingCostRate
                      (cost_row_item Examples.cost_row) in
      Derived.annualSales e = 730%float
      /\ Derived.dailySales e = 2%float
      /\ leadTimeDays (cost_row_item Examples.cost_row) = 28%float
      /\ Derived.reorderPoint e = 84%float
      /\ Derived.daysOfInventory e = 5%float).
Proof.
  intros d a holdingCost. subst d a holdingCost.
  split; [reflexivity|]. split; [reflexivity|]. split; [reflexivity|].
  split; [intros ds; split; reflexivity|]. split; [reflexivity|].
  split; [|split].
  - intros Hh Ha. unfold derive in *; cbn [Derived.eoq Derived.annualSales] in *.
    unfold eoq_of. rewrite Hh, Ha. reflexivity.
  - intros Hno. unfold derive in *; cbn [Derived.eoq Derived.annualSales] in *.
    unfold eoq_of. rewrite Hno. reflexivity.
  - repeat split; reflexivity.
Qed.

(** The order quantity of the scenario, by the first case: 70. *)
Lemma C2_derived_quantities_witness :
  Derived.eoq
    (derive Examples.sales (targetMargin initialState) 50 0.25
            (cost_row_item (H := Examples.host [] []) Examples.cost_row))
  = 70%float.
Proof.
  refine (eq_trans
            (proj1 (proj2 (proj2 (proj2 (proj2 (proj2
               (C2_derived_quantities (H := Examples.host [] []) Examples.sales
                  (targetMargin initialState) 50 0.25
                  (cost_row_item (H := Examples.host [] []) Examples.cost_row)))))))
               _ _) _).
  - reflexivity.
  - reflexivity.
  - reflexivity.
Defined.

(** ** The field picker and the header resolver *)

Module TrimFacts.

Lemma app_cons c (a b : string) : String c a ++ b = String c (a ++ b).
Proof. reflexivity. Qed.


Lemma app_empty_r (s : string) : s ++ "" = s.
Proof. induction s as [|c s IH]; [reflexivity|]. rewrite app_cons, IH. reflexivity. Qed.

Lemma app_assoc_s (a b c : string) : (a ++ b) ++ c = a ++ (b ++ c).
Proof. induction a as [|x a IH]; [reflexivity|]. rewrite !app_cons, IH. reflexivity. Qed.

Lemma rev_onto_app (s acc : string) : rev_onto s acc = reverse s ++ acc.
Proof.
  unfold reverse. revert acc. induction s as [|c s IH]; intros acc; [reflexivity|].
  cbn [rev_onto]. rewrite (IH (String c acc)), (IH (String c "")), app_assoc_s. reflexivity.
Qed.

Lemma reverse_cons c (s : string) : reverse (String c s) = reverse s ++ String c "".
Proof. unfold reverse at 1. cbn [rev_onto]. apply rev_onto_app. Qed.










End TrimFacts.

Module PickFacts.

Lemma get_of_key (o : obj) k : In k (map fst o) -> exists v, JsObject.get o k = Some v.
Proof.
  induction o as [|[k' v'] o IH]; simpl; [tauto|].
  intros [->|Hin].
  - rewrite String.eqb_refl. eauto.
  - destruct (String.eqb k' k); eauto.
Qed.

Lemma In_insert_index k x l : In x (JsObject.insert_index k l) <-> x = k \/ In x l.
Proof.
  induction l as [|y l IH]; simpl; [intuition congruence|].
  destruct (fst k <? fst y)%N; simpl; rewrite ?IH; intuition congruence.
Qed.

Lemma In_sorted_indices x l : In x (fold_right JsObject.insert_index [] l) <-> In x l.
Proof.
  induction l as [|y l IH]; simpl; [tauto|].
  rewrite In_insert_index, IH. intuition congruence.
Qed.

(** Every enumerated key is a key of the object. *)
Lemma keys_are_keys (o : obj) k : In k (JsObject.keys o) -> In k (map fst o).
Proof.
  unfold JsObject.keys. intros Hin. apply in_app_or in Hin as [Hin|Hin].
  - apply in_map_iff in Hin as ([n k'] & <- & Hin). simpl.
    apply (proj1 (In_sorted_indices _ _)) in Hin. apply list_elem_of_In in Hin.
    apply list_elem_of_omap in Hin as (k0 & Hk0 & Hf).
    destruct (JsObject.array_index k0); simpl in Hf; [|discriminate].
    injection Hf as _ <-. apply list_elem_of_In, Hk0.
  - apply filter_In in Hin. tauto.
Qed.


Lemma read_own (l : obj) k v : JsObject.get l k = Some v -> JsObject.read l k = Some (VCell v).
Proof. unfold JsObject.read. intros ->. reflexivity. Qed.







Lemma key_of_get (o : obj) k v : JsObject.get o k = Some v -> In k (map fst o).
Proof.
  induction o as [|[k' v'] o IH]; simpl; [discriminate|].
  destruct (String.eqb_spec k' k) as [->|Hne]; auto.
Qed.

Lemma pair_of_get (o : obj) k v : JsObject.get o k = Some v -> In (k, v) o.
Proof.
  induction o as [|[k' v'] o IH]; simpl; [discriminate|].
  destruct (String.eqb_spec k' k) as [->|Hne]; [intros [= ->]; auto|auto].
Qed.

Lemma keys_complete (o : obj) k : In k (map fst o) -> In k (JsObject.keys o).
Proof.
  unfold JsObject.keys. intros Hin. apply in_or_app.
  destruct (JsObject.array_index k) as [n|] eqn:Hidx.
  - left. apply in_map_iff. exists (n, k). split; [reflexivity|].
    apply In_sorted_indices, list_elem_of_In, list_elem_of_omap.
    exists k. split; [apply list_elem_of_In, Hin|]. rewrite Hidx. reflexivity.
  - right. apply filter_In. rewrite Hidx. auto.
Qed.

Lemma entries_keys (o : obj) k : In k (map fst (JsObject.entries o)) <-> In k (map fst o).
Proof.
  unfold JsObject.entries. split.
  - intros Hin. apply in_map_iff in Hin as ([k' v] & <- & Hin). simpl.
    apply list_elem_of_In, list_elem_of_omap in Hin as (k0 & Hk0 & Hf).
    destruct (JsObject.get o k0) eqn:Hg; simpl in Hf; [|discriminate].
    injection Hf as <- <-. exact (key_of_get _ _ _ Hg).
  - intros Hin. destruct (get_of_key o k Hin) as [v Hv].
    apply in_map_iff. exists (k, v). split; [reflexivity|].
    apply list_elem_of_In, list_elem_of_omap. exists k.
    split; [apply list_elem_of_In, keys_complete, Hin|]. rewrite Hv. reflexivity.
Qed.

Lemma entries_pairs (o : obj) k v : In (k, v) (JsObject.entries o) -> In (k, v) o.
Proof.
  unfold JsObject.entries. intros Hin.
  apply list_elem_of_In, list_elem_of_omap in Hin as (k0 & Hk0 & Hf).
  destruct (JsObject.get o k0) eqn:Hg; simpl in Hf; [|discriminate].
  injection Hf as <- <-. exact (pair_of_get _ _ _ Hg).
Qed.

Lemma set_keys (o : obj) k' v k :
  In k (map fst (JsObject.set o k' v)) <-> k = k' \/ In k (map fst o).
Proof.
  induction o as [|[k0 v0] o IH]; simpl; [intuition congruence|].
  destruct (String.eqb_spec k0 k') as [->|Hne]; simpl; rewrite ?IH; intuition congruence.
Qed.

Lemma get_set (o : obj) k' v' k :
  JsObject.get (JsObject.set o k' v') k
  = if String.eqb k' k then Some v' else JsObject.get o k.
Proof.
  induction o as [|[k0 v0] o IH]; simpl; [reflexivity|].
  destruct (String.eqb_spec k0 k') as [->|Hne]; simpl.
  - destruct (String.eqb k' k); reflexivity.
  - rewrite IH. destruct (String.eqb_spec k0 k) as [->|Hne'].
    + destruct (String.eqb_spec k' k) as [->|_]; [congruence|reflexivity].
    + reflexivity.
Qed.

Lemma fold_set_keys (es : list (string * cell)) (acc : obj) k :
  In k (map fst (fold_left (fun o kv => JsObject.set o (fst kv) (snd kv)) es acc))
  <-> In k (map fst acc) \/ In k (map fst es).
Proof.
  revert acc. induction es as [|[k' v'] es IH]; intros acc; simpl; [tauto|].
  rewrite IH, set_keys. intuition congruence.
Qed.

Lemma fold_set_get (es : list (string * cell)) (acc : obj) k v :
  JsObject.get (fold_left (fun o kv => JsObject.set o (fst kv) (snd kv)) es acc) k = Some v ->
  In (k, v) es \/ JsObject.get acc k = Some v.
Proof.
  revert acc. induction es as [|[k' v'] es IH]; intros acc; simpl; [auto|].
  intros Hg. apply IH in Hg as [Hin|Hg]; [auto|].
  rewrite get_set in Hg. destruct (String.eqb_spec k' k) as [->|_]; [|auto].
  injection Hg as ->. auto.
Qed.

(** The keys of the normalised row are the normalised keys of the row. *)
Lemma lowerKeys_keys (o : obj) k :
  In k (map fst (lowerKeys o)) <-> exists k0, In k0 (map fst o) /\ norm_key k0 = k.
Proof.
  unfold lowerKeys, JsObject.fromEntries. rewrite fold_set_keys. simpl.
  rewrite map_map. simpl. split.
  - intros [[]|Hin]. apply in_map_iff in Hin as ([k0 v] & <- & Hin). simpl.
    exists k0. split; [|reflexivity]. apply entries_keys.
    apply in_map_iff. exists (k0, v). auto.
  - intros (k0 & Hin & <-). right.
    apply entries_keys, in_map_iff in Hin as ([k1 v] & <- & Hin).
    apply in_map_iff. exists (k1, v). auto.
Qed.

(** A value of the normalised row is the value of a column whose title
    normalises to its key. *)
Lemma lowerKeys_pairs (o : obj) k v :
  JsObject.get (lowerKeys o) k = Some v -> exists k0, In (k0, v) o /\ norm_key k0 = k.
Proof.
  unfold lowerKeys, JsObject.fromEntries. intros Hg.
  apply fold_set_get in Hg as [Hin|Hg]; [|discriminate].
  apply in_map_iff in Hin as ([k0 v0] & [= <- <-] & Hin).
  exists k0. split; [exact (entries_pairs _ _ _ Hin)|reflexivity].
Qed.

(** *** Plain rows *)








End PickFacts.

(** ** The first index that satisfies a test *)
Module IndexFacts.



End IndexFacts.



Module RowFacts.





End RowFacts.



Module HeaderFacts.
Section Loop.
Context `{Host} (expectedHeaders : list string).

Let qualifies (r : list (option cell)) : bool := header_qualifies r expectedHeaders.

Lemma loop_first rows i fuel n :
  Js.first_at qualifies rows n -> (n < fuel)%nat ->
  findHeaderRow_loop rows expectedHeaders i fuel = (i + n)%nat.
Proof.
  revert i fuel n. induction rows as [|r rows IH]; intros i fuel n [(x & Hx & Hq) Hbefore] Hlt.
  - destruct n; discriminate.
  - destruct fuel as [|fuel]; [lia|]. simpl. destruct n as [|n].
    + simpl in Hx. injection Hx as ->. unfold qualifies in Hq. rewrite Hq. lia.
    + pose proof (Hbefore 0%nat r ltac:(lia) eq_refl) as Hr. unfold qualifies in Hr.
      rewrite Hr. rewrite (IH (S i) fuel n); [lia| |lia]. split; [eauto|].
      intros j y Hj Hy. apply (Hbefore (S j) y); [lia|exact Hy].
Qed.

Lemma loop_none rows i fuel :
  (forall j r, (j < fuel)%nat -> nth_error rows j = Some r -> qualifies r = false) ->
  findHeaderRow_loop rows expectedHeaders i fuel = 0%nat.
Proof.
  revert i fuel. induction rows as [|r rows IH]; intros i fuel Hall.
  - destruct fuel; reflexivity.
  - destruct fuel as [|fuel]; [reflexivity|]. simpl.
    pose proof (Hall 0%nat r ltac:(lia) eq_refl) as Hr. unfold qualifies in Hr. rewrite Hr.
    apply IH. intros j y Hj Hy. apply (Hall (S j) y); [lia|exact Hy].
Qed.

Lemma row_includes_iff (r : list (option string)) h :
  row_includes r h = true <-> In (Some h) r.
Proof.
  unfold row_includes. rewrite existsb_exists. split.
  - intros ([s|] & Hin & Heq); [|discriminate].
    apply String.eqb_eq in Heq. subst. exact Hin.
  - intros Hin. exists (Some h). split; [exact Hin|]. apply String.eqb_refl.
Qed.

End Loop.

Lemma ceil_half_spec n : (2 * ceil_half n = n \/ 2 * ceil_half n = S n)%nat.
Proof.
  unfold ceil_half.
  destruct (Nat.Even_or_Odd (S n)) as [He|Ho].
  - right. rewrite (Nat.Even_double _ He) at 2. unfold Nat.double. lia.
  - left. pose proof (Nat.Odd_double _ Ho) as Hd. unfold Nat.double in Hd. lia.
Qed.

Section Hits.
Context `{Host}.

Lemma token_found_iff (r : list (option cell)) h :
  row_includes (header_cells r) (toLowerCase h) = true <-> token_found r h.
Proof.
  rewrite row_includes_iff. unfold header_cells, token_found.
  rewrite in_map_iff. split.
  - intros ([x|] & Heq & Hin); [|discriminate]. simpl in Heq. injection Heq as Heq. eauto.
  - intros (x & Hin & Heq). exists (Some x).
    split; [exact (f_equal Some Heq)|exact Hin].
Qed.

(** [hits] is the number of expected tokens found in the row. *)
Lemma header_hits_counts (r : list (option cell)) (es : list string) :
  token_hits r es (header_hits r es).
Proof.
  unfold header_hits. induction es as [|h es IH]; [constructor|]. cbn [List.filter].
  destruct (row_includes (header_cells r) (toLowerCase h)) eqn:Hh.
  - cbn [length]. apply hits_found; [apply token_found_iff, Hh|exact IH].
  - apply hits_missing; [|exact IH]. intros Hf. apply token_found_iff in Hf. congruence.
Qed.

Lemma token_hits_unique (r : list (option cell)) (es : list string) n m :
  token_hits r es n -> token_hits r es m -> n = m.
Proof.
  intros Hn. revert m. induction Hn as [|h hs n Hf _ IH|h hs n Hf _ IH]; intros m Hm;
    inversion Hm; subst; try contradiction; auto.
Qed.

End Hits.

End HeaderFacts.

(** C6. The header resolver.  With [need] the ceiling of half the number
    of expected tokens, the hits of a row are the expected tokens that are,
    lower-cased, the lower-cased text of one of its cells, and a row
    qualifies when it has at least [need] hits.  [findHeaderRow] is the
    index of the first qualifying row among the first [min(rows, 30)] rows,
    and [0] when none of them qualifies. *)
Theorem C6_header_resolver `{Host} (ws : sheet) (expectedHeaders : list string) :
  let need := ceil_half (length expectedHeaders) in
  let qualifies r := header_qualifies r expectedHeaders in
  (2 * need = length expectedHeaders \/ 2 * need = S (length expectedHeaders))%nat
  /\ (forall r, token_hits r expectedHeaders (header_hits r expectedHeaders))
  /\ (forall r n, token_hits r expectedHeaders n -> n = header_hits r expectedHeaders)
  /\ (forall r, qualifies r = true
                <-> exists n, token_hits r expectedHeaders n /\ (need <= n)%nat)
  /\ (forall r, qualifies r = true <-> (need <= header_hits r expectedHeaders)%nat)
  /\ (forall r h,
        row_includes (header_cells r) (toLowerCase h) = true
        <-> exists x, In (Some x) r
                      /\ toLowerCase (Js.String_ (Js.nullish_else (Some x) (CStr "")))
                         = toLowerCase h)
  /\ (forall n r,
        (n < Nat.min (length ws) 30)%nat ->
        nth_error ws n = Some r ->
        qualifies r = true ->
        (forall j r', (j < n)%nat -> nth_error ws j = Some r' -> qualifies r' = false) ->
        findHeaderRow ws expectedHeaders = n)
  /\ ((forall j r', (j < Nat.min (length ws) 30)%nat ->
                    nth_error ws j = Some r' -> qualifies r' = false) ->
      findHeaderRow ws expectedHeaders = 0%nat)
  /\ header_hits [ Some (CStr "Memo"); None; Some CNull; Some (CStr "QTY") ]
                 ["item"; "Qty"; "quantity"] = 1%nat.
Proof.
  intros need qualifies. split; [apply HeaderFacts.ceil_half_spec|].
  split; [intros r; apply HeaderFacts.header_hits_counts|].
  split.
  { intros r n Hn.
    exact (HeaderFacts.token_hits_unique _ _ _ _ Hn (HeaderFacts.header_hits_counts _ _)). }
  split.
  { intros r. unfold qualifies, header_qualifies. rewrite Nat.leb_le. split.
    - intros Hle. exists (header_hits r expectedHeaders).
      split; [apply HeaderFacts.header_hits_counts|exact Hle].
    - intros (n & Hn & Hle).
      rewrite <- (HeaderFacts.token_hits_unique _ _ _ _ Hn
                    (HeaderFacts.header_hits_counts _ _)). exact Hle. }
  split; [intros r; apply Nat.leb_le|]. split.
  { intros r h. apply HeaderFacts.token_found_iff. }
  split.
  { intros n r Hn Hr Hq Hbefore. unfold findHeaderRow.
    rewrite (HeaderFacts.loop_first expectedHeaders ws 0 30 n); [reflexivity| |lia].
    split; [exists r; auto|]. exact Hbefore. }
  split; [|reflexivity].
  intros Hnone. unfold findHeaderRow. apply HeaderFacts.loop_none.
  intros j r Hj Hr. apply (Hnone j r); [|exact Hr].
  assert (j < length ws)%nat by (apply nth_error_Some; congruence). lia.
Qed.

(** Under a title line the header is found in the second row. *)
Lemma C6_header_resolver_witness :
  findHeaderRow (H := Examples.host [] []) Examples.titled_sheet
                ["item"; "qty"; "quantity"; "amount"; "total"; "description"] = 1%nat.
Proof.
  refine (proj1 (proj2 (proj2 (proj2 (proj2 (proj2 (proj2
            (C6_header_resolver (H := Examples.host [] []) Examples.titled_sheet
               ["item"; "qty"; "quantity"; "amount"; "total"; "description"])))))))
            1%nat [ Some (CStr "Item"); Some (CStr "Qty"); Some (CStr "Amount") ] _ _ _ _).
  - simpl. lia.
  - reflexivity.
  - reflexivity.
  - intros [|j] r' Hj Hr; [|lia]. injection Hr as <-. reflexivity.
Defined.

(** ** The handlers *)

Module SupplierFacts.
Section Paths.
Context `{Host}.

Lemma xlsx_row_no_date iVendor iItem iTotal iQty acc r :
  Forall (fun l => SupplierLine.date l = None) (snd acc) ->
  Forall (fun l => SupplierLine.date l = None)
         (snd (supplier_xlsx_row iVendor iItem iTotal iQty acc r)).
Proof.
  destruct acc as [sup lines]. unfold supplier_xlsx_row. simpl. intros Hl.
  repeat match goal with |- context [if ?b then _ else _] => destruct b end;
    simpl; try exact Hl.
  apply Forall_app. split; [exact Hl|]. repeat constructor.
Qed.

Lemma xlsx_rows_no_date iVendor iItem iTotal iQty rows acc :
  Forall (fun l => SupplierLine.date l = None) (snd acc) ->
  Forall (fun l => SupplierLine.date l = None)
         (snd (fold_left (supplier_xlsx_row iVendor iItem iTotal iQty) rows acc)).
Proof.
  revert acc. induction rows as [|r rows IH]; intros acc Hacc; simpl; [exact Hacc|].
  apply IH, xlsx_row_no_date, Hacc.
Qed.

(** No line item of the XLS/XLSX branch has a [date] property. *)
Lemma xlsx_lines_no_date ws :
  Forall (fun l => SupplierLine.date l = None) (lineItems (supplier_xlsx ws)).
Proof.
  unfold supplier_xlsx.
  match goal with
  | |- context [fold_left (supplier_xlsx_row ?a ?b ?c ?d) ?rows ?acc] =>
      pose proof (xlsx_rows_no_date a b c d rows acc ltac:(constructor)) as Hd;
      destruct (fold_left (supplier_xlsx_row a b c d) rows acc) as [sup lines]
  end.
  exact Hd.
Qed.

(** Every line item of the CSV branch has one. *)
Lemma csv_lines_date rows :
  Forall (fun l => SupplierLine.date l <> None) (lineItems (supplier_csv rows)).
Proof.
  unfold supplier_csv, supplier_csv_lines. cbn [lineItems].
  apply Forall_forall. intros l Hl. apply list_elem_of_In, filter_In in Hl as [Hl _].
  apply in_map_iff in Hl as (r & <- & _). discriminate.
Qed.

End Paths.
End SupplierFacts.

(** C3. The two branches of [handleSupplier] do not yield the same line
    items: on a purchase-order export with the same values in a
    delimited-text file and in a sheet, the subtotals agree, but the line item
    of the delimited-text branch carries the date of its row and the line
    item of the sheet branch has no [date] property; the sheet branch never
    writes one. *)
Theorem C3_supplier_line_items_differ :
  (forall (H : Host) ws l, In l (lineItems (supplier_xlsx ws)) -> SupplierLine.date l = None)
  /\ (forall (H : Host) rows l,
        In l (lineItems (supplier_csv rows)) -> SupplierLine.date l <> None)
  /\ (forall H : Host,
        suppliers (supplier_csv Examples.po_rows) = suppliers (supplier_xlsx Examples.po_sheet)
        /\ lineItems (supplier_csv Examples.po_rows)
           = [ {| SupplierLine.supplier := "Acme"; SupplierLine.item := "Widget";
                  SupplierLine.totalCost := 100; SupplierLine.quantity := 2;
                  SupplierLine.date := Some (Some (VCell (CStr "2024-01-05"))) |} ]
        /\ lineItems (supplier_xlsx Examples.po_sheet)
           = [ {| SupplierLine.supplier := "Acme"; SupplierLine.item := "Widget";
                  SupplierLine.totalCost := 100; SupplierLine.quantity := 2;
                  SupplierLine.date := None |} ]).
Proof.
  split; [|split].
  - intros H ws l Hl.
    exact (proj1 (Forall_forall _ _) (SupplierFacts.xlsx_lines_no_date ws) l
                 (proj2 (list_elem_of_In _ _) Hl)).
  - intros H rows l Hl.
    exact (proj1 (Forall_forall _ _) (SupplierFacts.csv_lines_date rows) l
                 (proj2 (list_elem_of_In _ _) Hl)).
  - intros H. repeat split; reflexivity.
Qed.

Lemma C3_supplier_line_items_differ_witness :
  let H := Examples.host [] [] in
  let l := {| SupplierLine.supplier := "Acme"; SupplierLine.item := "Widget";
              SupplierLine.totalCost := 100; SupplierLine.quantity := 2;
              SupplierLine.date := None |} in
  In l (lineItems (supplier_xlsx Examples.po_sheet)) /\ SupplierLine.date l = None.
Proof.
  intros H l. split; [vm_compute; left; reflexivity|].
  refine (proj1 C3_supplier_line_items_differ H Examples.po_sheet l _).
  vm_compute; left; reflexivity.
Defined.

Module HandlerFacts.
Section Ext.
Context `{Host}.

Lemma handleCost_rejects file st :
  endsWith (toLowerCase (name file)) ".csv" = false ->
  exists msg, handleCost file st = (st, inl (ExtError msg)).
Proof.
  intros Hext. unfold handleCost, bind, ensureExt, throw. simpl.
  rewrite Hext. simpl. eauto.
Qed.

Lemma handleSales_decodes file st ws :
  endsWith (toLowerCase (name file)) ".csv" = false ->
  xlsx_first_sheet (content file) = Some ws ->
  exists st', handleSales file st = (st', inr tt).
Proof.
  intros Hext Hws. unfold handleSales. rewrite Hext.
  unfold bind, setStatus, readFirstSheet, setSalesMap. simpl. rewrite Hws. eauto.
Qed.

Lemma handleCustomer_decodes file st ws :
  endsWith (toLowerCase (name file)) ".csv" = false ->
  xlsx_first_sheet (content file) = Some ws ->
  exists st', handleCustomer file st = (st', inr tt).
Proof.
  intros Hext Hws. unfold handleCustomer. rewrite Hext.
  unfold bind, setStatus, readFirstSheet, setCustomerData. simpl. rewrite Hws. eauto.
Qed.

Lemma handleSupplier_decodes file st ws :
  endsWith (toLowerCase (name file)) ".csv" = false ->
  xlsx_first_sheet (content file) = Some ws ->
  exists st', handleSupplier file st = (st', inr tt)
              /\ supplierData st' = supplier_xlsx ws.
Proof.
  intros Hext Hws. unfold handleSupplier. rewrite Hext.
  unfold bind, setStatus, readFirstSheet, setSupplierData. simpl. rewrite Hws. eauto.
Qed.

End Ext.
End HandlerFacts.

(** C4. Only [handleCost] checks the extension: under a name that does not
    end in [.csv] it throws before it parses and leaves the state as it was.
    The handlers of the three other slots take every name that does not end
    in [.csv] for a workbook: when the decoder reads the content they
    succeed and replace their dataset.  So a file named [notes.txt] is
    refused by the cost slot and loaded by the sales slot. *)
Theorem C4_extension_check :
  (forall (H : Host) file st,
      endsWith (toLowerCase (name file)) ".csv" = false ->
      exists msg, handleCost file st = (st, inl (ExtError msg)))
  /\ (forall (H : Host) file st ws,
      endsWith (toLowerCase (name file)) ".csv" = false ->
      xlsx_first_sheet (content file) = Some ws ->
      (exists st', handleSales file st = (st', inr tt))
      /\ (exists st', handleCustomer file st = (st', inr tt))
      /\ (exists st', handleSupplier file st = (st', inr tt)
                      /\ supplierData st' = supplier_xlsx ws))
  /\ (let H := Examples.host [] Examples.sales_sheet in
      let r := handleSales Examples.notes_txt initialState in
      snd r = inr tt
      /\ salesMap initialState !! "ABC123" = None
      /\ salesMap (fst r) !! "ABC123"
         = Some {| Sales.item := "ABC123"; Sales.description := "";
                   Sales.totalQtySold := 4; Sales.totalRevenue := 40 |}).
Proof.
  split; [intros H; apply HandlerFacts.handleCost_rejects|]. split.
  - intros H file st ws Hext Hws. split; [|split].
    + exact (HandlerFacts.handleSales_decodes file st ws Hext Hws).
    + exact (HandlerFacts.handleCustomer_decodes file st ws Hext Hws).
    + exact (HandlerFacts.handleSupplier_decodes file st ws Hext Hws).
  - vm_compute. repeat split; reflexivity.
Qed.

Lemma C4_extension_check_witness :
  let H := Examples.host [] Examples.sales_sheet in
  exists msg, handleCost Examples.notes_txt initialState = (initialState, inl (ExtError msg)).
Proof.
  intros H.
  refine (proj1 C4_extension_check H Examples.notes_txt initialState _).
  reflexivity.
Defined.

(** ** The export *)

Module ExportFacts.

Lemma length_app_string (s t : string) :
  String.length (s ++ t) = (String.length s + String.length t)%nat.
Proof. induction s as [|c s IH]; simpl; [reflexivity|]. rewrite IH. reflexivity. Qed.

Lemma endsWith_app (s e : string) : endsWith (s ++ e) e = true.
Proof.
  induction s as [|c s IH]; simpl.
  - destruct e; simpl; rewrite ?String.eqb_refl, ?Ascii.eqb_refl; reflexivity.
  - rewrite IH. apply orb_true_r.
Qed.

Lemma startsWith_empty s : startsWith s "" = true.
Proof. destruct s; reflexivity. Qed.

(** A string value is written between two double quotes. *)
Lemma json_quote_is_quoted s : is_quoted (json_quote s) = true.
Proof.
  unfold is_quoted, json_quote.
  rewrite !length_app_string. simpl String.length.
  replace (2 <=? 1 + (String.length (json_escape_all s) + 1))%nat with true
    by (symmetry; apply Nat.leb_le; lia).
  change (dquote ++ json_escape_all s ++ dquote)
    with (String (ascii_of_nat 34) (json_escape_all s ++ dquote)).
  cbn [startsWith endsWith]. rewrite ?Ascii.eqb_refl, endsWith_app.
  rewrite orb_true_r. unfold dquote. cbn [startsWith].
  rewrite Ascii.eqb_refl, startsWith_empty. reflexivity.
Qed.

Section Fields.
Context `{Host}.

Lemma csv_field_at headers (r : obj) i h :
  nth_error headers i = Some h ->
  nth_error (csv_fields headers r) i
  = Some (JSON_stringify (Js.nullish_else (JsObject.get r h) (CStr ""))).
Proof. intros Hh. unfold csv_fields. rewrite nth_error_map, Hh. reflexivity. Qed.

End Fields.

End ExportFacts.

(** C9. The text that [downloadCSV] hands over, for a non-empty list of
    rows: the keys of the first row joined by commas, then one line per row
    in order, the lines joined by line breaks; a line is made of the JSON
    texts of the values of the row under those keys, joined by commas.  The
    JSON text of a string is the string between double quotes with its
    special characters escaped, and so is quoted; a missing or null value is
    written as the empty quoted string; a finite number is written as its
    numeral, and a number that is not finite as [null], without quotes. *)
Theorem C9_delimited_text `{Host} (filename : string) (rows : list obj) :
  rows <> [] ->
  let headers := JsObject.keys (hd [] rows) in
  downloadCSV filename rows
  = Some (filename,
          join newline (join "," headers
                        :: map (fun r => join "," (csv_fields headers r)) rows))
  /\ length (csv_lines rows) = S (length rows)
  /\ (forall r i h,
        nth_error headers i = Some h ->
        nth_error (csv_fields headers r) i
        = Some (JSON_stringify (Js.nullish_else (JsObject.get r h) (CStr ""))))
  /\ (forall s, JSON_stringify (Js.nullish_else (Some (CStr s)) (CStr "")) = json_quote s
                /\ is_quoted (json_quote s) = true)
  /\ (JSON_stringify (Js.nullish_else None (CStr "")) = dquote ++ dquote
      /\ JSON_stringify (Js.nullish_else (Some CNull) (CStr "")) = dquote ++ dquote)
  /\ (forall x, JSON_stringify (Js.nullish_else (Some (CNum x)) (CStr ""))
                = if JsNum.is_finite x then number_to_string x else "null")
  /\ is_quoted "null" = false.
Proof.
  intros Hrows headers. split.
  { destruct rows; [contradiction|]. reflexivity. }
  split.
  { unfold csv_lines. simpl. rewrite length_map. reflexivity. }
  split; [intros r i h; apply ExportFacts.csv_field_at|].
  split; [intros s; split; [reflexivity|apply ExportFacts.json_quote_is_quoted]|].
  split; [split; reflexivity|]. split; [reflexivity|reflexivity].
Qed.

(** The row of an item without sales: its days of inventory are written
    [null], so not every value of the line is quoted. *)
Lemma C9_unquoted_values :
  let H := Examples.host [] [] in
  let row := derived_obj (derive ∅ (targetMargin initialState) (orderingCost initialState)
                                 (holdingCostRate initialState)
                                 (cost_row_item Examples.cost_row)) in
  let fields := csv_fields (JsObject.keys row) row in
  nth_error (JsObject.keys row) 13 = Some "daysOfInventory"
  /\ nth_error fields 13 = Some "null"
  /\ nth_error (JsObject.keys row) 3 = Some "unitPrice"
  /\ nth_error fields 3 = Some "100"
  /\ forallb is_quoted fields = false.
Proof. vm_compute. repeat split; reflexivity. Qed.

Lemma C9_delimited_text_witness :
  let H := Examples.host [] [] in
  let row := derived_obj (derive Examples.sales (targetMargin initialState)
                                 (orderingCost initialState) (holdingCostRate initialState)
                                 (cost_row_item Examples.cost_row)) in
  length (csv_lines [row]) = 2%nat.
Proof.
  intros H row.
  refine (proj1 (proj2 (C9_delimited_text (H := H) "slow_movers.csv" [row] _))).
  discriminate.
Defined.


(** ** Instances of the engine theorems *)

Lemma C7_division_sites_guarded_witness :
  let H := Examples.host [] [] in
  Cost.profitMargin (cost_row_item Examples.free_row) = 0%float
  /\ Cost.profitPerUnit (cost_row_item Examples.free_row) = 0%float.
Proof.
  intros H.
  refine (proj1 (C7_division_sites_guarded (H := H)) Examples.free_row _).
  reflexivity.
Defined.

(** At 400 the idle item is a slow mover; at 700 it is not. *)
Lemma C8_slowMovers_antitone_in_slowCost_witness :
  let H := Examples.host [] [] in
  let costData := [cost_row_item Examples.idle_row] in
  JsNum.ge 700 400 = true
  /\ match computed Examples.sales 700 200 180 (targetMargin initialState) 50 0.25 costData,
           computed Examples.sales 400 200 180 (targetMargin initialState) 50 0.25 costData with
     | Some c', Some c =>
         (forall it, In it (slowMovers c') -> In it (slowMovers c))
         /\ (length (slowMovers c') <= length (slowMovers c))%nat
     | None, None => True
     | _, _ => False
     end.
Proof.
  intros H costData. split; [reflexivity|].
  refine (C8_slowMovers_antitone_in_slowCost Examples.sales 200 180
            (targetMargin initialState) 50 0.25 costData 400 700 _).
  reflexivity.
Defined.

Lemma C10_no_sales_no_stockout_alert_witness :
  let H := Examples.host [] [] in
  let costData := [cost_row_item Examples.idle_row; cost_row_item Examples.cost_row] in
  exists c,
    computed Examples.sales 400 200 180 (targetMargin initialState) 50 0.25 costData = Some c
    /\ (forall it, In it (items c) -> JsNum.seq (Derived.annualSales it) 0 = true ->
          Derived.daysUntilStockout it = infinity
          /\ ~ In it (criticalStockouts c) /\ ~ In it (warningStockouts c))
    /\ (forall it, In it (deadStock c) ->
          ~ In it (criticalStockouts c) /\ ~ In it (warningStockouts c))
    /\ (forall it, In it (criticalStockouts c) -> ~ In it (warningStockouts c)).
Proof.
  intros H costData. eexists. split; [reflexivity|].
  refine (C10_no_sales_no_stockout_alert Examples.sales 400 200 180
            (targetMargin initialState) 50 0.25 costData _ _).
  reflexivity.
Defined.

(** ** More on the handlers *)

Module FrameFacts.

(** Unfolds a handler down to its decoder calls and splits on them. *)
Ltac run_handler :=
  unfold handleCost, handleSales, handleCustomer, handleSupplier, ensureExt,
         parseCSV, readFirstSheet, bind, ret, throw,
         setStatus, setCostData, setSalesMap, setCustomerData, setSupplierData;
  repeat match goal with
         | |- context [if ?b then _ else _] => destruct b
         | |- context [match papa_parse ?c with _ => _ end] => destruct (papa_parse c)
         | |- context [match xlsx_first_sheet ?c with _ => _ end] =>
             destruct (xlsx_first_sheet c)
         end;
  cbn.

Section Independence.
Context `{Host}.

(** How a handler ends, and the dataset it writes, do not depend on the
    state it starts from. *)
Lemma handleCost_indep file st1 st2 :
  snd (handleCost file st1) = snd (handleCost file st2)
  /\ (snd (handleCost file st1) = inr tt ->
      costData (fst (handleCost file st1)) = costData (fst (handleCost file st2))).
Proof. run_handler; split; try reflexivity; intros He; discriminate He. Qed.

Lemma handleSales_indep file st1 st2 :
  snd (handleSales file st1) = snd (handleSales file st2)
  /\ (snd (handleSales file st1) = inr tt ->
      salesMap (fst (handleSales file st1)) = salesMap (fst (handleSales file st2))).
Proof. run_handler; split; try reflexivity; intros He; discriminate He. Qed.

End Independence.
End FrameFacts.

(** X1. Each handler writes its own dataset and the status line and nothing
    else; when it throws, it has written no dataset at all. *)
Theorem X1_handlers_frame `{Host} (file : File) (st : AppState) :
  (let r := handleCost file st in
   thresholds (fst r) = thresholds st /\ salesMap (fst r) = salesMap st
   /\ customerData (fst r) = customerData st /\ supplierData (fst r) = supplierData st
   /\ (forall e, snd r = inl e -> costData (fst r) = costData st))
  /\ (let r := handleSales file st in
   thresholds (fst r) = thresholds st /\ costData (fst r) = costData st
   /\ customerData (fst r) = customerData st /\ supplierData (fst r) = supplierData st
   /\ (forall e, snd r = inl e -> salesMap (fst r) = salesMap st))
  /\ (let r := handleCustomer file st in
   thresholds (fst r) = thresholds st /\ costData (fst r) = costData st
   /\ salesMap (fst r) = salesMap st /\ supplierData (fst r) = supplierData st
   /\ (forall e, snd r = inl e -> customerData (fst r) = customerData st))
  /\ (let r := handleSupplier file st in
   thresholds (fst r) = thresholds st /\ costData (fst r) = costData st
   /\ salesMap (fst r) = salesMap st /\ customerData (fst r) = customerData st
   /\ (forall e, snd r = inl e -> supplierData (fst r) = supplierData st)).
Proof.
  repeat split; FrameFacts.run_handler; try reflexivity; intros e He; try reflexivity;
    discriminate He.
Qed.

(** X2. Uploads of the cost file and of the sales file commute: whichever
    comes first, each of the two calls ends the same way and the state holds
    the same datasets and thresholds, so the engine computes the same
    result. *)
Theorem X2_cost_and_sales_uploads_commute `{Host} (cost sales : File) (st : AppState) :
  let a := fst (handleSales sales (fst (handleCost cost st))) in
  let b := fst (handleCost cost (fst (handleSales sales st))) in
  snd (handleCost cost st) = snd (handleCost cost (fst (handleSales sales st)))
  /\ snd (handleSales sales st) = snd (handleSales sales (fst (handleCost cost st)))
  /\ costData a = costData b /\ salesMap a = salesMap b
  /\ customerData a = customerData b /\ supplierData a = supplierData b
  /\ thresholds a = thresholds b
  /\ computed_of a = computed_of b.
Proof.
  intros a b. subst a b.
  set (s1 := fst (handleCost cost st)). set (s2 := fst (handleSales sales st)).
  destruct (X1_handlers_frame cost st) as [(Ht1 & Hs1 & Hc1 & Hp1 & He1) _].
  destruct (X1_handlers_frame sales st) as [_ [(Ht2 & Hc2 & Hu2 & Hp2 & He2) _]].
  destruct (X1_handlers_frame cost s2) as [(Htb & Hsb & Hcb & Hpb & Heb) _].
  destruct (X1_handlers_frame sales s1) as [_ [(Hta & Hca & Hua & Hpa & Hea) _]].
  cbv zeta in *. fold s1 in Ht1, Hs1, Hc1, Hp1, He1. fold s2 in Ht2, Hc2, Hu2, Hp2, He2.
  destruct (FrameFacts.handleCost_indep cost st s2) as [Hoc Hdc].
  destruct (FrameFacts.handleSales_indep sales st s1) as [Hos Hds].
  fold s1 in Hdc. fold s2 in Hds.
  assert (Hcost : costData (fst (handleSales sales s1)) = costData (fst (handleCost cost s2))).
  { rewrite Hca. destruct (snd (handleCost cost st)) as [e|[]] eqn:Hr.
    - rewrite (He1 e eq_refl), (Heb e (eq_sym Hoc)), Hc2. reflexivity.
    - exact (Hdc eq_refl). }
  assert (Hsales : salesMap (fst (handleSales sales s1)) = salesMap (fst (handleCost cost s2))).
  { rewrite Hsb. destruct (snd (handleSales sales st)) as [e|[]] eqn:Hr.
    - rewrite (Hea e (eq_sym Hos)), (He2 e eq_refl), Hs1. reflexivity.
    - symmetry. exact (Hds eq_refl). }
  assert (Hthr : thresholds (fst (handleSales sales s1)) = thresholds (fst (handleCost cost s2))).
  { rewrite Hta, Htb, Ht1, Ht2. reflexivity. }
  split; [exact Hoc|]. split; [exact Hos|]. split; [exact Hcost|]. split; [exact Hsales|].
  split; [rewrite Hua, Hcb, Hc1, Hu2; reflexivity|].
  split; [rewrite Hpa, Hpb, Hp1, Hp2; reflexivity|].
  split; [exact Hthr|].
  unfold computed_of. unfold thresholds in Hthr. injection Hthr as -> -> -> -> -> ->.
  rewrite Hcost, Hsales. reflexivity.
Qed.

Module CoerceFacts.
Open Scope float_scope.

(** [x || 0] is never [NaN]. *)
Lemma or_zero_not_nan x : is_nan (JsNum.or_zero x) = false.
Proof.
  unfold JsNum.or_zero, JsNum.truthy.
  destruct (is_nan x) eqn:Hn; [rewrite andb_false_r; reflexivity|].
  destruct (negb (x =? 0)); simpl; [exact Hn|reflexivity].
Qed.

(** Adding a Number other than a zero to [0] gives it back. *)
Lemma zero_add x : (x =? 0) = false -> 0 + x = x.
Proof.
  intros Hx. apply Prim2SF_inj. rewrite FloatAxioms.add_spec.
  rewrite FloatAxioms.eqb_spec in Hx. change (Prim2SF 0) with (S754_zero false) in *.
  destruct (Prim2SF x) as [s|s| |s m e]; try reflexivity.
  unfold SFeqb in Hx. simpl in Hx. discriminate.
Qed.

Lemma zero_add_pos x : JsNum.gt x 0 = true -> 0 + x = x.
Proof.
  intros Hx. apply zero_add. destruct (x =? 0) eqn:E; [|reflexivity].
  rewrite (NumFacts.seq_zero_not_gt x E) in Hx. discriminate.
Qed.

Lemma zero_add_or_zero x : 0 + JsNum.or_zero x = JsNum.or_zero x.
Proof.
  unfold JsNum.or_zero, JsNum.truthy.
  destruct (x =? 0) eqn:E; simpl; [reflexivity|].
  destruct (is_nan x); simpl; [reflexivity|]. apply zero_add, E.
Qed.

End CoerceFacts.

Module SplitFacts.

Lemma startsWith_app (a b p : string) :
  startsWith a p = true -> startsWith (a ++ b) p = true.
Proof.
  revert p. induction a as [|c a IH]; intros [|d p] Hp; simpl in *;
    try reflexivity; try discriminate.
  - destruct b; reflexivity.
  - apply andb_prop in Hp as [-> Hp]. simpl. apply IH, Hp.
Qed.

Lemma startsWith_nil (p : string) : p <> "" -> startsWith "" p = false.
Proof. destruct p; [congruence|reflexivity]. Qed.

Lemma split_head_cons (sep : string) c s :
  split_head sep (String c s)
  = if startsWith (String c s) sep then "" else String c (split_head sep s).
Proof. reflexivity. Qed.

(** The head is a prefix of the string; what follows is empty or starts with
    the separator. *)
Lemma split_head_prefix (sep s : string) :
  exists rest, s = split_head sep s ++ rest /\ (rest = "" \/ startsWith rest sep = true).
Proof.
  induction s as [|c s (rest & Hs & Hrest)].
  - exists "". destruct sep; split; try reflexivity; left; reflexivity.
  - rewrite split_head_cons. destruct (startsWith (String c s) sep) eqn:Hst.
    + exists (String c s). split; [reflexivity|right; exact Hst].
    + exists rest. split; [|exact Hrest].
      change (String c s = String c (split_head sep s ++ rest)). f_equal. exact Hs.
Qed.

(** The head does not contain the separator. *)
Lemma split_head_clean (sep s : string) :
  sep <> "" -> includes (split_head sep s) sep = false.
Proof.
  intros Hsep. induction s as [|c s IH].
  - destruct sep; [congruence|reflexivity].
  - rewrite split_head_cons. destruct (startsWith (String c s) sep) eqn:Hst.
    + destruct sep; [congruence|reflexivity].
    + cbn [includes]. rewrite IH, orb_false_r.
      destruct (startsWith (String c (split_head sep s)) sep) eqn:Hh; [|reflexivity].
      destruct (split_head_prefix sep s) as (rest & Hs & _).
      pose proof (startsWith_app _ rest _ Hh) as Hfull.
      change (startsWith (String c (split_head sep s ++ rest)) sep = true) in Hfull.
      rewrite <- Hs in Hfull. congruence.
Qed.

Lemma startsWith_prefix (sep q : string) : startsWith (sep ++ q) sep = true.
Proof.
  induction sep as [|c sep IH]; [destruct q; reflexivity|].
  change (startsWith (String c (sep ++ q)) (String c sep) = true).
  cbn [startsWith]. rewrite Ascii.eqb_refl. exact IH.
Qed.

(** No occurrence of the separator starts before the end of the head. *)
Lemma split_head_first (sep s p q : string) :
  s = p ++ sep ++ q -> (String.length (split_head sep s) <= String.length p)%nat.
Proof.
  revert p. induction s as [|c s IH]; intros p Hs.
  - destruct sep; simpl; lia.
  - rewrite split_head_cons. destruct (startsWith (String c s) sep) eqn:Hst; [simpl; lia|].
    destruct p as [|d p].
    + change (String c s = sep ++ q) in Hs. rewrite Hs, startsWith_prefix in Hst. discriminate.
    + change (String c s = String d (p ++ sep ++ q)) in Hs. injection Hs as _ Hs.
      simpl. apply le_n_S, IH, Hs.
Qed.

End SplitFacts.

(** X3. Numeric coercion in [handleCost] never yields [NaN]: the unit
    price, the unit cost and the quantity of every stored item are Numbers
    other than [NaN], whatever the cells of the row hold. *)
Theorem X3_cost_numbers_not_nan `{Host} (file : File) (st st' : AppState) (it : Cost.Item) :
  handleCost file st = (st', inr tt) ->
  In it (costData st') ->
  is_nan (Cost.unitPrice it) = false
  /\ is_nan (Cost.unitCost it) = false
  /\ is_nan (Cost.Quantity it) = false.
Proof.
  intros Hrun Hin.
  unfold handleCost, bind, ensureExt, setStatus, parseCSV, setCostData in Hrun.
  destruct (negb _) in Hrun; simpl in Hrun; [discriminate|].
  destruct (papa_parse (content file)) as [rows|]; simpl in Hrun; [|discriminate].
  injection Hrun as <-. simpl in Hin.
  apply in_map_iff in Hin as (row & <- & _).
  unfold cost_row_item; simpl. repeat split; apply CoerceFacts.or_zero_not_nan.
Qed.

(** X4. The item code of a cost item is the part of its label before the
    first [ : ]: the label is the code followed by nothing or by a text that
    starts with [ : ], the code itself contains no [ : ], and no [ : ] of
    the label starts before the end of the code.  So the code of the label
    [a : : b] is [a], and a label without [ : ] is its own code. *)
Theorem X4_itemCode_is_label_head `{Host} (row : obj) :
  let it := cost_row_item row in
  (exists rest, Cost.fullItem it = Cost.itemCode it ++ rest
                /\ (rest = "" \/ startsWith rest " : " = true))
  /\ includes (Cost.itemCode it) " : " = false
  /\ (forall p q, Cost.fullItem it = p ++ " : " ++ q ->
                  (String.length (Cost.itemCode it) <= String.length p)%nat)
  /\ (forall p, Cost.fullItem it = p -> includes p " : " = false -> Cost.itemCode it = p)
  /\ Cost.itemCode (cost_row_item [("Item", CStr "a : : b")]) = "a".
Proof.
  cbv zeta. unfold cost_row_item; cbn [Cost.fullItem Cost.itemCode].
  set (label := str_or_empty_of (pick row _)).
  assert (Hcode : (if negb (String.eqb label "") then split_head " : " label else "")
                  = split_head " : " label).
  { destruct (String.eqb_spec label "") as [->|]; reflexivity. }
  rewrite Hcode. split; [|split; [|split; [|split]]].
  - apply SplitFacts.split_head_prefix.
  - apply SplitFacts.split_head_clean. discriminate.
  - intros p q Hl. apply (SplitFacts.split_head_first _ _ _ q), Hl.
  - intros p Hl Hinc.
    destruct (SplitFacts.split_head_prefix " : " label) as (rest & Hs & [->|Hrest]).
    + rewrite <- Hl. rewrite Hs at 2. symmetry. apply TrimFacts.app_empty_r.
    + exfalso. rewrite <- Hl, Hs in Hinc.
      assert (Hin : includes (split_head " : " label ++ rest) " : " = true).
      { clear - Hrest. induction (split_head " : " label) as [|c h IH].
        - destruct rest; [discriminate|]. cbn [includes]. change ("" ++ String a rest)
            with (String a rest). cbn [includes]. rewrite Hrest. reflexivity.
        - change (includes (String c (h ++ rest)) " : " = true). cbn [includes].
          rewrite IH. apply orb_true_r. }
      congruence.
  - reflexivity.
Qed.

Module AliasFacts.

Lemma lower_char_idem c : lower_char (lower_char c) = lower_char c.
Proof. destruct c as [[] [] [] [] [] [] [] []]; reflexivity. Qed.

Lemma toLowerCase_idem s : toLowerCase (toLowerCase s) = toLowerCase s.
Proof. induction s as [|c s IH]; simpl; [reflexivity|]. rewrite lower_char_idem, IH. reflexivity. Qed.

Lemma pick_exact_norm l keys keys' :
  map norm_key keys = map norm_key keys' -> pick_exact l keys = pick_exact l keys'.
Proof.
  revert keys'. induction keys as [|k keys IH]; intros [|k' keys'] Heq; simpl in *;
    try discriminate; [reflexivity|].
  injection Heq as Hk Hrest. rewrite Hk, (IH keys' Hrest). reflexivity.
Qed.

Lemma existsb_norm (k : string) keys :
  existsb (fun cand => includes k (norm_key cand)) keys
  = existsb (includes k) (map norm_key keys).
Proof. induction keys as [|a keys IH]; simpl; [reflexivity|]. rewrite IH. reflexivity. Qed.

Lemma pick_contains_norm l keys keys' ks :
  map norm_key keys = map norm_key keys' ->
  pick_contains l keys ks = pick_contains l keys' ks.
Proof.
  intros Heq. induction ks as [|k ks IH]; simpl; [reflexivity|].
  rewrite !existsb_norm, Heq, IH. reflexivity.
Qed.

Lemma pick_contains_no_alias l ks : pick_contains l [] ks = None.
Proof. induction ks as [|k ks IH]; simpl; [reflexivity|exact IH]. Qed.

Lemma pick_exact_empty keys :
  pick_exact [] keys = None <-> Forall (fun a => is_proto_member (norm_key a) = false) keys.
Proof.
  induction keys as [|k keys IH]; simpl.
  - split; [constructor|reflexivity].
  - unfold JsObject.read. simpl. destruct (is_proto_member (norm_key k)) eqn:Hm.
    + split; [discriminate|]. intros Hall. inversion Hall; congruence.
    + rewrite IH. split; [intros Hall; constructor; assumption|].
      intros Hall. inversion Hall; assumption.
Qed.

(** A lower-cased, trimmed key holds no capital letter, so that it names a
    member of [Object.prototype] only when it is [constructor] or
    [__proto__]. *)
Lemma lower_char_small c : is_capital (lower_char c) = false.
Proof. destruct c as [[] [] [] [] [] [] [] []]; reflexivity. Qed.

Lemma toLowerCase_small s : has_capital (toLowerCase s) = false.
Proof.
  induction s as [|c s IH]; [reflexivity|]. cbn [toLowerCase has_capital].
  rewrite lower_char_small, IH. reflexivity.
Qed.

Lemma trimStart_small s : has_capital s = false -> has_capital (trimStart s) = false.
Proof.
  induction s as [|c s IH]; [reflexivity|]. cbn [trimStart has_capital].
  intros Hs. apply orb_false_elim in Hs as [Hc Hs].
  destruct (is_space c); [exact (IH Hs)|]. cbn [has_capital]. rewrite Hc, Hs. reflexivity.
Qed.

Lemma has_capital_app (a b : string) :
  has_capital (a ++ b) = has_capital a || has_capital b.
Proof.
  induction a as [|c a IH]; [reflexivity|].
  rewrite TrimFacts.app_cons. cbn [has_capital]. rewrite IH, orb_assoc. reflexivity.
Qed.

Lemma reverse_small s : has_capital (reverse s) = has_capital s.
Proof.
  induction s as [|c s IH]; [reflexivity|].
  rewrite TrimFacts.reverse_cons, has_capital_app, IH. cbn [has_capital].
  rewrite orb_false_r, orb_comm. reflexivity.
Qed.

Lemma norm_key_small k : has_capital (norm_key k) = false.
Proof.
  unfold norm_key, trim. rewrite reverse_small. apply trimStart_small.
  rewrite reverse_small. apply trimStart_small, toLowerCase_small.
Qed.

Lemma norm_key_member k :
  is_proto_member (norm_key k) = true ->
  norm_key k = "constructor" \/ norm_key k = "__proto__".
Proof.
  pose proof (norm_key_small k) as Hs. unfold is_proto_member. intros Hm.
  apply existsb_exists in Hm as (m & Hin & Heq). apply String.eqb_eq in Heq. subst m.
  simpl in Hin.
  repeat (destruct Hin as [Hin|Hin];
          [rewrite <- Hin in Hs; first [discriminate Hs | auto]|]).
  destruct Hin.
Qed.

(** What the two loops return: a value of the object, or in the first loop
    the inherited member that an alias names. *)
Lemma pick_exact_value l keys v :
  pick_exact l keys = Some v ->
  (exists k c, v = VCell c /\ JsObject.get l k = Some c)
  \/ (exists a, In a keys /\ v = VInherited (norm_key a)
                 /\ is_proto_member (norm_key a) = true
                 /\ JsObject.get l (norm_key a) = None).
Proof.
  induction keys as [|k keys IH]; simpl; [discriminate|]. unfold JsObject.read.
  destruct (JsObject.get l (norm_key k)) eqn:Hg; [intros [= <-]; left; eauto|].
  destruct (is_proto_member (norm_key k)) eqn:Hm.
  - intros [= <-]. right. exists k. auto.
  - intros Hp. destruct (IH Hp) as [?|(a & Ha & ?)]; [left; assumption|].
    right. exists a. auto.
Qed.

(** The second loop goes through own keys, which read as own values. *)
Lemma pick_contains_own l keys ks v :
  (forall k, In k ks -> In k (map fst l)) ->
  pick_contains l keys ks = Some v ->
  exists k c, v = VCell c /\ JsObject.get l k = Some c.
Proof.
  induction ks as [|k ks IH]; simpl; [discriminate|]. intros Hks.
  destruct (existsb _ keys).
  - destruct (PickFacts.get_of_key l k (Hks k (or_introl eq_refl))) as [c Hc].
    rewrite (PickFacts.read_own _ _ _ Hc). intros [= <-]. eauto.
  - apply IH. intros k' Hk'. apply Hks. right. exact Hk'.
Qed.

End AliasFacts.

(** X5. [pick] reads its aliases through lower-casing and trimming only:
    two alias lists that agree after both give the same result on every row.
    In particular the case of the aliases does not matter. *)
Theorem X5_pick_alias_normalisation (o : obj) (keys keys' : list string) :
  (map norm_key keys = map norm_key keys' -> pick o keys = pick o keys')
  /\ pick o (map toLowerCase keys) = pick o keys.
Proof.
  assert (Hnorm : map norm_key keys = map norm_key keys' -> pick o keys = pick o keys').
  { intros Heq. unfold pick.
    rewrite (AliasFacts.pick_exact_norm _ _ _ Heq),
            (AliasFacts.pick_contains_norm _ _ _ _ Heq). reflexivity. }
  split; [exact Hnorm|].
  unfold pick.
  rewrite (AliasFacts.pick_exact_norm _ (map toLowerCase keys) keys),
          (AliasFacts.pick_contains_norm _ (map toLowerCase keys) keys); [reflexivity| |];
    rewrite map_map; apply map_ext; intros k; unfold norm_key;
    rewrite AliasFacts.toLowerCase_idem; reflexivity.
Qed.

(** X6. [pick] never makes a value up.  A cell that it returns is the
    value of a column of the row, and one whose title normalises to a key of
    the normalised row.  What it returns otherwise is the member of
    [Object.prototype] named by an alias, which can only be [constructor] or
    [__proto__], and only when no column has that normalised title.  With no
    alias it returns [undefined]; on a row without columns it returns
    [undefined] exactly when no alias names such a member; and [handleCost]
    drops a row without columns. *)
Theorem X6_pick_returns_a_cell_of_the_row (o : obj) (keys : list string) :
  (forall v, pick o keys = Some (VCell v) -> exists k0, In (k0, v) o)
  /\ (forall m, pick o keys = Some (VInherited m) ->
        (m = "constructor" \/ m = "__proto__")
        /\ (exists a, In a keys /\ norm_key a = m)
        /\ (forall k0, In k0 (map fst o) -> norm_key k0 <> m))
  /\ pick o [] = None
  /\ (pick [] keys = None <-> Forall (fun a => is_proto_member (norm_key a) = false) keys)
  /\ cost_row_accepted [] = false.
Proof.
  assert (Hcases : forall v, pick o keys = Some v ->
            (exists k c, v = VCell c /\ JsObject.get (lowerKeys o) k = Some c)
            \/ (exists a, In a keys /\ v = VInherited (norm_key a)
                           /\ is_proto_member (norm_key a) = true
                           /\ JsObject.get (lowerKeys o) (norm_key a) = None)).
  { intros v. unfold pick.
    destruct (pick_exact (lowerKeys o) keys) as [w|] eqn:He.
    - intros [= <-]. exact (AliasFacts.pick_exact_value _ _ _ He).
    - intros Hc. left. apply (AliasFacts.pick_contains_own _ _ _ _ (PickFacts.keys_are_keys _) Hc). }
  split; [|split; [|split; [|split]]].
  - intros v Hp. destruct (Hcases _ Hp) as [(k & c & [= <-] & Hg)|(a & _ & Hv & _)];
      [|discriminate].
    destruct (PickFacts.lowerKeys_pairs _ _ _ Hg) as (k0 & Hin & _). eauto.
  - intros m Hp. destruct (Hcases _ Hp) as [(k & c & Hv & _)|(a & Ha & [= ->] & Hm & Hg)];
      [discriminate|].
    split; [exact (AliasFacts.norm_key_member _ Hm)|]. split; [eauto|].
    intros k0 Hk0 Heq.
    assert (Hin : In (norm_key a) (map fst (lowerKeys o))).
    { apply PickFacts.lowerKeys_keys. eauto. }
    destruct (PickFacts.get_of_key _ _ Hin) as [c Hc]. congruence.
  - unfold pick. simpl. apply AliasFacts.pick_contains_no_alias.
  - unfold pick. change (lowerKeys []) with (@nil (string * cell)).
    change (JsObject.keys []) with (@nil string). cbn [pick_contains].
    rewrite <- AliasFacts.pick_exact_empty.
    destruct (pick_exact [] keys); split; congruence.
  - reflexivity.
Qed.

Module BoundFacts.

Lemma startsWith_refl s : startsWith s s = true.
Proof. induction s as [|c s IH]; simpl; [reflexivity|]. rewrite Ascii.eqb_refl. exact IH. Qed.

Lemma includes_refl s : includes s s = true.
Proof. destruct s; simpl; [reflexivity|]. rewrite Ascii.eqb_refl, startsWith_refl. reflexivity. Qed.

(** What the loop returns is [-1] or the position of an element that
    satisfies the test. *)
Lemma first_index_from_sound {A} (p : A -> bool) l i r :
  Js.first_index_from p l i = r ->
  r = (-1)%Z
  \/ exists n x, r = (i + Z.of_nat n)%Z /\ nth_error l n = Some x /\ p x = true.
Proof.
  revert i. induction l as [|y l IH]; intros i; simpl; [auto|].
  destruct (p y) eqn:Hp.
  - intros <-. right. exists 0%nat, y. repeat split; [lia|exact Hp].
  - intros Hr. destruct (IH _ Hr) as [->|(n & x & -> & Hx & Hpx)]; [auto|].
    right. exists (S n), x. repeat split; [lia|exact Hx|exact Hpx].
Qed.

Section Header.
Context `{Host} (expectedHeaders : list string).

Lemma loop_sound rows i fuel r :
  findHeaderRow_loop rows expectedHeaders i fuel = r ->
  r = 0%nat
  \/ exists n row, r = (i + n)%nat /\ (n < fuel)%nat /\ nth_error rows n = Some row
                   /\ header_qualifies row expectedHeaders = true.
Proof.
  revert i fuel. induction rows as [|row rows IH]; intros i fuel.
  - destruct fuel; simpl; auto.
  - destruct fuel as [|fuel]; simpl; [auto|].
    destruct (header_qualifies row expectedHeaders) eqn:Hq.
    + intros <-. right. exists 0%nat, row. repeat split; [lia|lia|exact Hq].
    + intros Hr. destruct (IH _ _ Hr) as [->|(n & row' & -> & Hn & Hrow & Hq')]; [auto|].
      right. exists (S n), row'. repeat split; [lia|lia|exact Hrow|exact Hq'].
Qed.

End Header.

End BoundFacts.

(** X7. The index that [findCol] returns is [-1] or a position of the
    header array whose text, lower-cased, contains one of the candidates,
    lower-cased: a column found can always be read, and it is never a column
    unrelated to every candidate. *)
Theorem X7_findCol_index_is_valid (headerArr candidates : list string) :
  findCol headerArr candidates = (-1)%Z
  \/ ((0 <= findCol headerArr candidates < Z.of_nat (length headerArr))%Z
      /\ exists h c,
           Js.at_ headerArr (findCol headerArr candidates) = Some h
           /\ In c candidates
           /\ includes (toLowerCase h) (toLowerCase c) = true).
Proof.
  assert (Hat : forall n x, nth_error (map toLowerCase headerArr) n = Some x ->
            (0 <= Z.of_nat n < Z.of_nat (length headerArr))%Z
            /\ exists h, Js.at_ headerArr (Z.of_nat n) = Some h /\ x = toLowerCase h).
  { intros n x Hx. rewrite nth_error_map in Hx.
    destruct (nth_error headerArr n) as [h|] eqn:Hh; [|discriminate].
    injection Hx as <-. split.
    - assert (n < length headerArr)%nat by (apply nth_error_Some; congruence). lia.
    - exists h. split; [|reflexivity]. unfold Js.at_.
      replace (Z.of_nat n <? 0)%Z with false by (symmetry; apply Z.ltb_ge; lia).
      rewrite Nat2Z.id. exact Hh. }
  assert (Hexact : forall cs i, findCol_exact (map toLowerCase headerArr) cs = i ->
            i = (-1)%Z
            \/ exists n x c, i = Z.of_nat n
                 /\ nth_error (map toLowerCase headerArr) n = Some x
                 /\ In c cs /\ x = toLowerCase c).
  { induction cs as [|c cs IH]; intros i; simpl; [auto|].
    destruct (Js.indexOf _ (toLowerCase c) =? -1)%Z eqn:Hi; simpl.
    - intros Hr. destruct (IH _ Hr) as [->|(n & x & c' & -> & Hx & Hc & ->)]; [auto|].
      right. exists n, (toLowerCase c'), c'. auto.
    - intros <-. unfold Js.indexOf in *.
      destruct (BoundFacts.first_index_from_sound
                  (fun y => String.eqb y (toLowerCase c)) (map toLowerCase headerArr) 0%Z
                  _ eq_refl)
        as [Hm|(n & x & Hn & Hx & Hp)];
        [rewrite Hm in Hi; discriminate|].
      right. exists n, x, c. repeat split; [lia|exact Hx|left; reflexivity|].
      apply String.eqb_eq, Hp. }
  unfold findCol.
  destruct (Hexact candidates _ eq_refl) as [Hm|(n & x & c & Hn & Hx & Hc & ->)].
  - rewrite Hm. simpl. unfold findCol_contains.
    destruct (BoundFacts.first_index_from_sound
                (fun h => existsb (fun c => includes h (toLowerCase c)) candidates)
                (map toLowerCase headerArr) 0%Z _ eq_refl)
      as [Hm'|(n & x & Hn & Hx & Hp)]; [left; exact Hm'|].
    right. rewrite Hn. simpl. destruct (Hat n x Hx) as [Hb (h & Hh & ->)].
    split; [exact Hb|]. apply existsb_exists in Hp as (c & Hc & Hinc). eauto.
  - rewrite Hn. replace (negb (Z.of_nat n =? -1)%Z) with true
      by (symmetry; apply negb_true_iff, Z.eqb_neq; lia).
    right. destruct (Hat n _ Hx) as [Hb (h & Hh & Heq)].
    split; [exact Hb|]. exists h, c. repeat split; [exact Hh|exact Hc|].
    rewrite <- Heq. apply BoundFacts.includes_refl.
Qed.

(** X8. The row that [findHeaderRow] returns is below 30; it is row 0 or a
    row of the sheet that qualifies.  With no expected token it is row 0. *)
Theorem X8_findHeaderRow_index_is_valid `{Host} (ws : sheet) (expectedHeaders : list string) :
  (findHeaderRow ws expectedHeaders < 30)%nat
  /\ (findHeaderRow ws expectedHeaders = 0%nat
      \/ exists row, nth_error ws (findHeaderRow ws expectedHeaders) = Some row
                     /\ header_qualifies row expectedHeaders = true)
  /\ findHeaderRow ws [] = 0%nat.
Proof.
  unfold findHeaderRow.
  destruct (BoundFacts.loop_sound expectedHeaders ws 0 30 _ eq_refl)
    as [Hz|(n & row & Hn & Hlt & Hrow & Hq)].
  - rewrite Hz. split; [lia|]. split; [left; reflexivity|].
    destruct ws; reflexivity.
  - rewrite Hn. simpl. split; [lia|]. split; [right; eauto|].
    destruct ws; reflexivity.
Qed.

(** ** The sales aggregation *)

Module SalesFacts.

Lemma sales_add_skip m item desc qty rev :
  sales_counts item qty = false -> sales_add m item desc qty rev = m.
Proof. unfold sales_add, sales_counts. intros ->. reflexivity. Qed.

Lemma sales_add_other m item desc qty rev k :
  item <> k -> sales_add m item desc qty rev !! k = m !! k.
Proof.
  intros Hne. unfold sales_add. destruct (_ && _); [|reflexivity].
  destruct (proto_read m item) as [[a|name]|]; [|reflexivity|]; apply lookup_insert_ne, Hne.
Qed.

Lemma proto_read_own {A} (m : gmap string A) k a : m !! k = Some a -> proto_read m k = Some (Own a).
Proof. unfold proto_read. intros ->. reflexivity. Qed.

Lemma proto_read_none {A} (m : gmap string A) k :
  m !! k = None -> is_proto_member k = false -> proto_read m k = None.
Proof. unfold proto_read. intros -> ->. reflexivity. Qed.

Lemma proto_read_inherited {A} (m : gmap string A) k :
  m !! k = None -> is_proto_member k = true -> proto_read m k = Some (Inherited k).
Proof. unfold proto_read. intros -> ->. reflexivity. Qed.

(** A row whose item names a member of [Object.prototype], and is no key
    yet, leaves the mapping as it is. *)
Lemma sales_add_inherited m item desc qty rev :
  m !! item = None -> is_proto_member item = true -> sales_add m item desc qty rev = m.
Proof.
  intros Hm Hp. unfold sales_add. rewrite (proto_read_inherited _ _ Hm Hp).
  destruct (_ && _); reflexivity.
Qed.

Lemma sales_add_fresh m item desc qty rev :
  sales_counts item qty = true -> m !! item = None -> is_proto_member item = false ->
  sales_add m item desc qty rev !! item
  = Some {| Sales.item := item; Sales.description := desc;
            Sales.totalQtySold := qty; Sales.totalRevenue := 0 + rev |}.
Proof.
  intros Ha Hm Hp. unfold sales_add. fold (sales_counts item qty).
  rewrite Ha, (proto_read_none _ _ Hm Hp).
  rewrite lookup_insert_eq. unfold sales_counts in Ha.
  apply andb_prop in Ha as [Ha _]. apply andb_prop in Ha as [_ Hq].
  rewrite (CoerceFacts.zero_add_pos qty Hq). reflexivity.
Qed.

Lemma sales_add_again m item desc qty rev a :
  sales_counts item qty = true -> m !! item = Some a ->
  sales_add m item desc qty rev !! item
  = Some {| Sales.item := Sales.item a; Sales.description := Sales.description a;
            Sales.totalQtySold := Sales.totalQtySold a + qty;
            Sales.totalRevenue := Sales.totalRevenue a + rev |}.
Proof.
  intros Ha Hm. unfold sales_add. fold (sales_counts item qty).
  rewrite Ha, (proto_read_own _ _ _ Hm). apply lookup_insert_eq.
Qed.

Lemma sales_add_entries m item desc qty rev :
  (forall k a, m !! k = Some a -> SalesFold.entry_ok k a) ->
  forall k a, sales_add m item desc qty rev !! k = Some a -> SalesFold.entry_ok k a.
Proof.
  intros Hm k a. destruct (sales_counts item qty) eqn:Ha.
  2:{ rewrite (sales_add_skip _ _ _ _ _ Ha). apply Hm. }
  destruct (String.eqb_spec item k) as [->|Hne].
  2:{ rewrite (sales_add_other _ _ _ _ _ _ Hne). apply Hm. }
  assert (Hk : k <> "" /\ k <> "Inventory Item").
  { unfold sales_counts in Ha. apply andb_prop in Ha as [Ha Hp]. apply andb_prop in Ha as [He _].
    apply negb_true_iff in He, Hp. split; intros ->; discriminate. }
  destruct (m !! k) as [b|] eqn:Hb.
  - rewrite (sales_add_again _ _ _ _ _ _ Ha Hb). intros [= <-].
    destruct (Hm k b Hb) as [Hi _]. split; [exact Hi|exact Hk].
  - destruct (is_proto_member k) eqn:Hp.
    + rewrite (sales_add_inherited _ _ _ _ _ Hb Hp). congruence.
    + rewrite (sales_add_fresh _ _ _ _ _ Ha Hb Hp). intros [= <-].
      split; [reflexivity|exact Hk].
Qed.

Section Fold.
Context {R : Type} (fi fd : R -> string) (fq fr : R -> float).

Local Abbreviation step := (SalesFold.step fi fd fq fr).
Local Abbreviation adds_to := (SalesFold.adds_to fi fq).

Lemma adds_to_dec r k : adds_to k r \/ ~ adds_to k r.
Proof.
  unfold SalesFold.adds_to. destruct (sales_counts (fi r) (fq r)); [|right; intros [? _]; discriminate].
  destruct (String.eqb_spec (fi r) k); [left; auto|right; intros [_ ?]; contradiction].
Qed.

Lemma fold_entries rows m :
  (forall k a, m !! k = Some a -> SalesFold.entry_ok k a) ->
  forall k a, fold_left step rows m !! k = Some a -> SalesFold.entry_ok k a.
Proof.
  revert m. induction rows as [|r rows IH]; intros m Hm; simpl; [exact Hm|].
  apply IH. apply sales_add_entries, Hm.
Qed.

Lemma step_keeps m r k : is_Some (m !! k) -> is_Some (step m r !! k).
Proof.
  intros [a Ha]. unfold SalesFold.step. destruct (sales_counts (fi r) (fq r)) eqn:Hadd.
  2:{ rewrite (sales_add_skip _ _ _ _ _ Hadd). eauto. }
  destruct (String.eqb_spec (fi r) k) as [<-|Hne].
  - rewrite (sales_add_again _ _ _ _ _ _ Hadd Ha). eauto.
  - rewrite (sales_add_other _ _ _ _ _ _ Hne). eauto.
Qed.

Lemma step_adds m r k : adds_to k r -> is_proto_member k = false -> is_Some (step m r !! k).
Proof.
  intros [Hadd <-] Hp. unfold SalesFold.step. destruct (m !! fi r) as [a|] eqn:Ha.
  - rewrite (sales_add_again _ _ _ _ _ _ Hadd Ha). eauto.
  - rewrite (sales_add_fresh _ _ _ _ _ Hadd Ha Hp). eauto.
Qed.

Lemma step_inherited m r k : m !! k = None -> is_proto_member k = true -> step m r !! k = None.
Proof.
  intros Hm Hp. unfold SalesFold.step. destruct (String.eqb_spec (fi r) k) as [<-|Hne].
  - rewrite (sales_add_inherited _ _ _ _ _ Hm Hp). exact Hm.
  - rewrite (sales_add_other _ _ _ _ _ _ Hne). exact Hm.
Qed.

Lemma step_unrelated m r k : ~ adds_to k r -> step m r !! k = m !! k.
Proof.
  intros Hno. unfold SalesFold.step. destruct (sales_counts (fi r) (fq r)) eqn:Hadd.
  2:{ rewrite (sales_add_skip _ _ _ _ _ Hadd). reflexivity. }
  apply sales_add_other. intros Heq. apply Hno. split; assumption.
Qed.

(** The keys of the mapping are the items of the rows that add to it, but
    for the names of [Object.prototype]. *)
Lemma fold_keys rows m k :
  is_Some (fold_left step rows m !! k)
  <-> is_Some (m !! k)
      \/ (is_proto_member k = false /\ exists r, In r rows /\ adds_to k r).
Proof.
  revert m. induction rows as [|r rows IH]; intros m; simpl.
  - split; [auto|]. intros [Hm|(_ & r & [] & _)]. exact Hm.
  - rewrite IH. split.
    + intros [Hs|(Hp & r' & Hin & Hr')]; [|right; eauto].
      destruct (m !! k) as [a|] eqn:Hm; [left; eauto|].
      destruct (is_proto_member k) eqn:Hp.
      * rewrite (step_inherited m r k Hm Hp) in Hs. destruct Hs as [? ?]. discriminate.
      * destruct (adds_to_dec r k) as [Hr|Hr].
        -- right. eauto.
        -- rewrite (step_unrelated m r k Hr), Hm in Hs. destruct Hs as [? ?]. discriminate.
    + intros [Hm|(Hp & r' & [<-|Hin] & Hr')].
      * left. apply step_keeps, Hm.
      * left. apply step_adds; assumption.
      * right. eauto.
Qed.

Lemma fold_unrelated rows m k :
  (forall r, In r rows -> ~ adds_to k r) -> fold_left step rows m !! k = m !! k.
Proof.
  revert m. induction rows as [|r rows IH]; intros m Hno; simpl; [reflexivity|].
  rewrite IH by (intros r' Hr'; apply Hno; right; exact Hr').
  apply step_unrelated, Hno. left. reflexivity.
Qed.

(** Once an item is in the mapping, its description stays. *)
Lemma fold_description rows m k a :
  m !! k = Some a ->
  exists b, fold_left step rows m !! k = Some b
            /\ Sales.description b = Sales.description a.
Proof.
  revert m a. induction rows as [|r rows IH]; intros m a Ha; simpl; [eauto|].
  assert (Hs : exists a', step m r !! k = Some a'
                          /\ Sales.description a' = Sales.description a).
  { unfold SalesFold.step. destruct (sales_counts (fi r) (fq r)) eqn:Hadd.
    2:{ rewrite (sales_add_skip _ _ _ _ _ Hadd). eauto. }
    destruct (String.eqb_spec (fi r) k) as [<-|Hne].
    - rewrite (sales_add_again _ _ _ _ _ _ Hadd Ha). eauto.
    - rewrite (sales_add_other _ _ _ _ _ _ Hne). eauto. }
  destruct Hs as (a' & Ha' & Hd). destruct (IH _ _ Ha') as (b & Hb & Hdb).
  exists b. split; [exact Hb|congruence].
Qed.

End Fold.
End SalesFacts.

Module SalesRows.
Section Rows.
Context `{Host}.

Lemma csv_fold rows m :
  fold_left sales_csv_row rows m
  = fold_left (SalesFold.step SalesFold.csv_item SalesFold.csv_desc SalesFold.csv_qty SalesFold.csv_rev) rows m.
Proof. reflexivity. Qed.

Lemma xlsx_fold a b c d rows m :
  fold_left (sales_xlsx_row a b c d) rows m
  = fold_left (SalesFold.step
                 (fun r => fst (fst (fst (sales_xlsx_fields a b c d r))))
                 (fun r => snd (fst (fst (sales_xlsx_fields a b c d r))))
                 (fun r => snd (fst (sales_xlsx_fields a b c d r)))
                 (fun r => snd (sales_xlsx_fields a b c d r))) rows m.
Proof. reflexivity. Qed.

End Rows.
End SalesRows.

(** X9. After a successful [handleSales], by either branch, every entry of
    the sales mapping records its own key as [item], and no key is empty or
    the placeholder [Inventory Item]. *)
Theorem X9_salesMap_entries `{Host} (file : File) (st st' : AppState)
    (k : string) (a : Sales.Aggregate) :
  handleSales file st = (st', inr tt) ->
  salesMap st' !! k = Some a ->
  Sales.item a = k /\ k <> "" /\ k <> "Inventory Item".
Proof.
  unfold handleSales, bind, setStatus, parseCSV, readFirstSheet, setSalesMap.
  destruct (endsWith _ _); simpl.
  - destruct (papa_parse (content file)) as [rows|]; simpl; [|discriminate].
    intros [= <-]. simpl. rewrite SalesRows.csv_fold.
    apply SalesFacts.fold_entries. intros k' a' Hk. rewrite lookup_empty in Hk. discriminate.
  - destruct (xlsx_first_sheet (content file)) as [ws|]; simpl; [|discriminate].
    intros [= <-]. simpl. rewrite SalesRows.xlsx_fold.
    apply SalesFacts.fold_entries. intros k' a' Hk. rewrite lookup_empty in Hk. discriminate.
Qed.

(** X10. The keys of the mapping that the CSV loop of [handleSales] builds
    are exactly the items of the rows that count (item not empty and not the
    placeholder, quantity positive) that are no names of [Object.prototype];
    the same holds of its XLS/XLSX loop.  A row whose item is such a name,
    like [constructor], adds no key: the test [!byItem[item]] finds the
    inherited member. *)
Theorem X10_salesMap_keys `{Host} (k : string) :
  (forall rows : list obj,
      is_Some (fold_left sales_csv_row rows ∅ !! k)
      <-> is_proto_member k = false
          /\ exists row item desc qty rev,
               In row rows /\ sales_csv_fields row = (item, desc, qty, rev)
               /\ item = k /\ sales_counts item qty = true)
  /\ (forall iItem iDesc iQty iRev (rows : list (list cell)),
      is_Some (fold_left (sales_xlsx_row iItem iDesc iQty iRev) rows ∅ !! k)
      <-> is_proto_member k = false
          /\ exists r item desc qty rev,
               In r rows /\ sales_xlsx_fields iItem iDesc iQty iRev r = (item, desc, qty, rev)
               /\ item = k /\ sales_counts item qty = true)
  /\ fold_left sales_csv_row
       [ [ ("Item", CStr "constructor"); ("Qty", CNum 5); ("Amount", CNum 50) ] ] ∅ = ∅.
Proof.
  split; [|split].
  - intros rows. rewrite SalesRows.csv_fold, SalesFacts.fold_keys. split.
    + intros [Hm|(Hp & row & Hin & Hadd & Hk)].
      * rewrite lookup_empty in Hm. destruct Hm as [? ?]. discriminate.
      * split; [exact Hp|].
        exists row, (SalesFold.csv_item row), (SalesFold.csv_desc row),
               (SalesFold.csv_qty row), (SalesFold.csv_rev row).
        repeat split; assumption.
    + intros (Hp & row & item & desc & qty & rev & Hin & Hf & Hk & Hadd). right.
      split; [exact Hp|].
      exists row. split; [exact Hin|]. unfold SalesFold.adds_to, SalesFold.csv_item,
        SalesFold.csv_qty. rewrite Hf. simpl. auto.
  - intros a b c d rows. rewrite SalesRows.xlsx_fold, SalesFacts.fold_keys. split.
    + intros [Hm|(Hp & r & Hin & Hadd & Hk)].
      * rewrite lookup_empty in Hm. destruct Hm as [? ?]. discriminate.
      * split; [exact Hp|].
        exists r. do 4 eexists. repeat split; [exact Hin|exact Hk|exact Hadd].
    + intros (Hp & r & item & desc & qty & rev & Hin & Hf & Hk & Hadd). right.
      split; [exact Hp|].
      exists r. split; [exact Hin|]. unfold SalesFold.adds_to. rewrite Hf. simpl. auto.
  - reflexivity.
Qed.

(** X11. In the mapping that the CSV loop builds, an item that is no name
    of [Object.prototype] keeps the description of the first row that counts
    for it; when no other row counts for it, its totals are the quantity and
    the revenue of that row. *)
Theorem X11_salesMap_first_row `{Host} (pre post : list obj) (row : obj)
    (item desc : string) (qty rev : float) :
  sales_csv_fields row = (item, desc, qty, rev) ->
  sales_counts item qty = true ->
  is_proto_member item = false ->
  (forall r, In r pre -> fst (fst (fst (sales_csv_fields r))) <> item) ->
  exists a,
    fold_left sales_csv_row (pre ++ row :: post)%list ∅ !! item = Some a
    /\ Sales.description a = desc
    /\ ((forall r, In r post -> fst (fst (fst (sales_csv_fields r))) <> item) ->
        Sales.totalQtySold a = qty /\ Sales.totalRevenue a = rev).
Proof.
  intros Hf Hadd Hp Hpre.
  rewrite SalesRows.csv_fold, fold_left_app. simpl.
  set (m := fold_left _ pre ∅).
  assert (Hm : m !! item = None).
  { unfold m. rewrite SalesFacts.fold_unrelated; [apply lookup_empty|].
    intros r Hr [_ Hk]. exact (Hpre r Hr Hk). }
  assert (Hrev : (0 + rev = rev)%float).
  { assert (Hr : rev = SalesFold.csv_rev row) by (unfold SalesFold.csv_rev; rewrite Hf; reflexivity).
    rewrite Hr. apply CoerceFacts.zero_add_or_zero. }
  assert (Hrow : SalesFold.step SalesFold.csv_item SalesFold.csv_desc SalesFold.csv_qty
                   SalesFold.csv_rev m row !! item
                 = Some {| Sales.item := item; Sales.description := desc;
                           Sales.totalQtySold := qty; Sales.totalRevenue := rev |}).
  { unfold SalesFold.step, SalesFold.csv_item, SalesFold.csv_desc, SalesFold.csv_qty,
      SalesFold.csv_rev. rewrite Hf. simpl.
    rewrite (SalesFacts.sales_add_fresh _ _ _ _ _ Hadd Hm Hp), Hrev. reflexivity. }
  destruct (SalesFacts.fold_description SalesFold.csv_item SalesFold.csv_desc
              SalesFold.csv_qty SalesFold.csv_rev post _ _ _ Hrow) as (b & Hb & Hd).
  exists b. split; [exact Hb|]. split; [exact Hd|].
  intros Hpost. rewrite SalesFacts.fold_unrelated in Hb.
  - rewrite Hrow in Hb. injection Hb as <-. split; reflexivity.
  - intros r Hr [_ Hk]. exact (Hpost r Hr Hk).
Qed.

Module TotalsFacts.

Lemma customer_totals_iff rs c :
  In c (customer_totals rs)
  <-> exists r, In r rs
        /\ test_prefix_i "total - " (fst r) = true
        /\ JsNum.gt (snd r) 0 = true
        /\ is_intercompany (strip_prefix_i "total - " (fst r)) = false
        /\ c = {| Customer.customer := strip_prefix_i "total - " (fst r);
                  Customer.totalRevenue := snd r |}.
Proof.
  unfold customer_totals. rewrite SortFacts.In_sort, filter_In, in_map_iff. split.
  - intros [(r & <- & Hr) Hic]. apply filter_In in Hr as [Hin Hp].
    apply andb_prop in Hp as [Hpre Hpos]. apply negb_true_iff in Hic.
    exists r. auto.
  - intros (r & Hin & Hpre & Hpos & Hic & ->). split.
    + exists r. split; [reflexivity|]. apply filter_In.
      rewrite Hpre, Hpos. auto.
    + simpl. rewrite Hic. reflexivity.
Qed.

Section Supplier.
Context `{Host}.

Lemma csv_lines_ok rows l : In l (supplier_csv_lines rows) -> supplier_line_ok l.
Proof.
  unfold supplier_csv_lines. intros Hl. apply filter_In in Hl as [_ Hp].
  apply andb_prop in Hp as [Hp Hc]. apply andb_prop in Hp as [Hp Hi].
  apply andb_prop in Hp as [Hs Ht].
  apply negb_true_iff in Hs, Ht, Hi. repeat split; try assumption.
  - intros Heq. rewrite Heq in Hs. discriminate.
  - intros Heq. rewrite Heq in Hi. discriminate.
Qed.

Lemma csv_totals_ok rows s : In s (supplier_csv_totals rows) -> supplier_total_ok s.
Proof.
  unfold supplier_csv_totals. intros Hs.
  apply SortFacts.In_sort, filter_In in Hs as [Hs Hp].
  apply andb_prop in Hp as [Hc Hi]. apply negb_true_iff in Hi.
  apply in_map_iff in Hs as ([[vendor total] qty] & <- & _).
  repeat split; try assumption. apply CoerceFacts.or_zero_not_nan.
Qed.

Lemma xlsx_row_ok a b c d acc r :
  Forall supplier_total_ok (fst acc) /\ Forall supplier_line_ok (snd acc) ->
  Forall supplier_total_ok (fst (supplier_xlsx_row a b c d acc r))
  /\ Forall supplier_line_ok (snd (supplier_xlsx_row a b c d acc r)).
Proof.
  destruct acc as [sup lines]. simpl. intros [Hs Hl]. unfold supplier_xlsx_row.
  set (vendor := str_or_empty (Js.at_ r a)).
  set (item := str_or_empty (Js.at_ r b)).
  set (total := num_or_zero (Js.at_ r c)).
  set (qty := num_or_zero (Js.at_ r d)).
  destruct (test_prefix_i "total - " vendor) eqn:Hpre; simpl.
  - destruct (JsNum.gt total 0) eqn:Hpos; simpl.
    + destruct (is_internal (strip_prefix_i "total - " vendor)) eqn:Hint; simpl;
        [auto|]. split; [|exact Hl].
      apply Forall_app. split; [exact Hs|]. constructor; [|constructor].
      repeat split; try assumption. apply CoerceFacts.or_zero_not_nan.
    + destruct (negb (String.eqb vendor "") && negb (String.eqb item "")); simpl; auto.
  - destruct (String.eqb_spec vendor "") as [Hv|Hv]; simpl; [auto|].
    destruct (String.eqb_spec item "") as [Hi|Hi]; simpl; [auto|].
    destruct (JsNum.gt total 0) eqn:Hpos; simpl; [|auto].
    split; [exact Hs|]. apply Forall_app. split; [exact Hl|]. constructor; [|constructor].
    repeat split; assumption.
Qed.

Lemma xlsx_rows_ok a b c d rows acc :
  Forall supplier_total_ok (fst acc) /\ Forall supplier_line_ok (snd acc) ->
  Forall supplier_total_ok (fst (fold_left (supplier_xlsx_row a b c d) rows acc))
  /\ Forall supplier_line_ok (snd (fold_left (supplier_xlsx_row a b c d) rows acc)).
Proof.
  revert acc. induction rows as [|r rows IH]; intros acc Hacc; simpl; [exact Hacc|].
  apply IH, xlsx_row_ok, Hacc.
Qed.

Lemma xlsx_ok ws :
  Forall supplier_total_ok (suppliers (supplier_xlsx ws))
  /\ Forall supplier_line_ok (lineItems (supplier_xlsx ws)).
Proof.
  unfold supplier_xlsx.
  match goal with
  | |- context [fold_left (supplier_xlsx_row ?a ?b ?c ?d) ?rows ?acc] =>
      pose proof (xlsx_rows_ok a b c d rows acc
                    (conj (List.Forall_nil _) (List.Forall_nil _))) as [Hs Hl];
      destruct (fold_left (supplier_xlsx_row a b c d) rows acc) as [sup lines]
  end.
  simpl in *. split; [|exact Hl].
  apply Forall_forall. intros s Hin. apply list_elem_of_In, SortFacts.In_sort in Hin.
  exact (proj1 (Forall_forall _ _) Hs s (proj2 (list_elem_of_In _ _) Hin)).
Qed.

End Supplier.
End TotalsFacts.

(** X12. After a successful [handleCustomer], by either branch, every
    customer total has a positive revenue and a name that contains none of
    [ic-], [intercompany] and [inter-company], in any case; and the totals
    that the common chain keeps are exactly those of the rows whose label
    starts with [Total - ], whose amount is positive and whose name passes
    that test, under the label without its prefix. *)
Theorem X12_customer_totals `{Host} :
  (forall rs c,
      In c (customer_totals rs)
      <-> exists r, In r rs
            /\ test_prefix_i "total - " (fst r) = true
            /\ JsNum.gt (snd r) 0 = true
            /\ is_intercompany (strip_prefix_i "total - " (fst r)) = false
            /\ c = {| Customer.customer := strip_prefix_i "total - " (fst r);
                      Customer.totalRevenue := snd r |})
  /\ (forall file st st' c,
      handleCustomer file st = (st', inr tt) ->
      In c (customerData st') ->
      JsNum.gt (Customer.totalRevenue c) 0 = true
      /\ is_intercompany (Customer.customer c) = false).
Proof.
  split; [exact TotalsFacts.customer_totals_iff|].
  intros file st st' c.
  unfold handleCustomer, bind, setStatus, parseCSV, readFirstSheet, setCustomerData.
  destruct (endsWith _ _); simpl.
  - destruct (papa_parse (content file)) as [rows|]; simpl; [|discriminate].
    intros [= <-]. simpl. intros Hc.
    apply TotalsFacts.customer_totals_iff in Hc as (r & _ & _ & Hpos & Hic & ->). auto.
  - destruct (xlsx_first_sheet (content file)) as [ws|]; simpl; [|discriminate].
    intros [= <-]. simpl. intros Hc.
    apply TotalsFacts.customer_totals_iff in Hc as (r & _ & _ & Hpos & Hic & ->). auto.
Qed.

(** X13. After a successful [handleSupplier], by either branch: every line
    item has a supplier and an item that are not empty, a supplier that does
    not start with [Total - ] and a positive cost; every supplier total has a
    positive cost, a name that contains neither [internal] nor
    [intercompany], and a quantity that is not [NaN]. *)
Theorem X13_supplier_result_sets `{Host} (file : File) (st st' : AppState) :
  handleSupplier file st = (st', inr tt) ->
  (forall l, In l (lineItems (supplierData st')) ->
      SupplierLine.supplier l <> "" /\ SupplierLine.item l <> ""
      /\ test_prefix_i "total - " (SupplierLine.supplier l) = false
      /\ JsNum.gt (SupplierLine.totalCost l) 0 = true)
  /\ (forall s, In s (suppliers (supplierData st')) ->
      JsNum.gt (SupplierTotal.totalCost s) 0 = true
      /\ is_internal (SupplierTotal.supplier s) = false
      /\ is_nan (SupplierTotal.totalQuantity s) = false).
Proof.
  unfold handleSupplier, bind, setStatus, parseCSV, readFirstSheet, setSupplierData.
  destruct (endsWith _ _); simpl.
  - destruct (papa_parse (content file)) as [rows|]; simpl; [|discriminate].
    intros [= <-]. simpl. split.
    + intros l. apply TotalsFacts.csv_lines_ok.
    + intros s. apply TotalsFacts.csv_totals_ok.
  - destruct (xlsx_first_sheet (content file)) as [ws|]; simpl; [|discriminate].
    intros [= <-]. simpl. destruct (TotalsFacts.xlsx_ok ws) as [Hs Hl]. split.
    + intros l Hin. exact (proj1 (Forall_forall _ _) Hl l (proj2 (list_elem_of_In _ _) Hin)).
    + intros s Hin. exact (proj1 (Forall_forall _ _) Hs s (proj2 (list_elem_of_In _ _) Hin)).
Qed.

(** ** More on the engine *)

Module PermFacts.
Section Perm.
Context {A : Type} (cmp : A -> A -> float).

Lemma insert_by_perm x l : Permutation (Js.insert_by cmp x l) (x :: l).
Proof.
  induction l as [|y l IH]; simpl; [reflexivity|].
  destruct (JsNum.gt (cmp x y) 0); [|reflexivity].
  rewrite IH. apply perm_swap.
Qed.

(** Sorting rearranges: nothing is lost, nothing is repeated. *)
Lemma sort_perm l : Permutation (Js.sort cmp l) l.
Proof.
  unfold Js.sort. induction l as [|x l IH]; simpl; [reflexivity|].
  rewrite insert_by_perm, IH. reflexivity.
Qed.

End Perm.
End PermFacts.

Section Buckets.
Open Scope float_scope.
Variable salesMap : gmap string Sales.Aggregate.
Variables slowCost deadCost slowDays targetMargin orderingCost holdingCostRate : float.
Variable costData : list Cost.Item.

(** X14. The engine gives [null] exactly when there is no cost item.
    Otherwise it derives one item for each cost item, in the same order, and
    each of its five lists is a rearrangement of the derived items that pass
    the test of the list: no item is lost, repeated or made up. *)
Theorem X14_computed_shape :
  (computed salesMap slowCost deadCost slowDays targetMargin orderingCost
           holdingCostRate costData = None <-> costData = [])
  /\ (forall c, computed salesMap slowCost deadCost slowDays targetMargin orderingCost
           holdingCostRate costData = Some c ->
        map Derived.base (items c) = costData
        /\ Permutation (slowMovers c)
                       (List.filter (is_slowMover slowCost slowDays) (items c))
        /\ Permutation (deadStock c) (List.filter (is_deadStock deadCost) (items c))
        /\ Permutation (criticalStockouts c) (List.filter is_criticalStockout (items c))
        /\ Permutation (warningStockouts c) (List.filter is_warningStockout (items c))
        /\ Permutation (priceOpps c) (List.filter is_priceOpp (items c))).
Proof.
  split.
  - unfold computed. destruct costData; split; intros; try reflexivity; discriminate.
  - intros c Hc. apply computed_Some in Hc. cbv zeta in Hc. subst c.
    cbn [items slowMovers deadStock criticalStockouts warningStockouts priceOpps].
    split; [|repeat split; apply PermFacts.sort_perm].
    rewrite map_map. simpl. apply map_id.
Qed.

(** X15. A dead-stock item whose total cost exceeds [slowCost] is a slow
    mover too; so when [deadCost >= slowCost] every dead-stock item is a slow
    mover. *)
Theorem X15_deadStock_and_slowMovers (c : Computed) :
  computed salesMap slowCost deadCost slowDays targetMargin orderingCost
           holdingCostRate costData = Some c ->
  (forall it, In it (deadStock c) -> JsNum.gt (totalCost_of it) slowCost = true ->
              In it (slowMovers c))
  /\ (JsNum.ge deadCost slowCost = true ->
      forall it, In it (deadStock c) -> In it (slowMovers c)).
Proof.
  intros Hc. apply computed_Some in Hc. cbv zeta in Hc. subst c.
  cbn [slowMovers deadStock].
  assert (Hfirst : forall it,
            In it (Js.sort by_totalCost (List.filter (is_deadStock deadCost)
                     (map (derive salesMap targetMargin orderingCost holdingCostRate) costData))) ->
            JsNum.gt (totalCost_of it) slowCost = true ->
            In it (Js.sort by_totalCost (List.filter (is_slowMover slowCost slowDays)
                     (map (derive salesMap targetMargin orderingCost holdingCostRate) costData)))).
  { intros it Hd Hcost. apply SortFacts.In_sort, filter_In in Hd as [Hin Hp].
    apply SortFacts.In_sort, filter_In. split; [exact Hin|].
    unfold is_deadStock in Hp. apply andb_prop in Hp as [Hp Hq].
    apply andb_prop in Hp as [Hz _].
    unfold is_slowMover. rewrite Hcost, Hz, Hq, orb_true_r. reflexivity. }
  split; [exact Hfirst|].
  intros Hge it Hd. apply Hfirst; [exact Hd|].
  apply SortFacts.In_sort, filter_In in Hd as [_ Hp].
  unfold is_deadStock in Hp. apply andb_prop in Hp as [Hp _].
  apply andb_prop in Hp as [_ Hcost].
  exact (NumFacts.gt_ge_trans _ _ _ Hcost Hge).
Qed.

(** X16. No item is both a price opportunity and dead stock: the first
    needs sales, the second has none. *)
Theorem X16_priceOpps_are_not_deadStock (c : Computed) (it : Derived.Item) :
  computed salesMap slowCost deadCost slowDays targetMargin orderingCost
           holdingCostRate costData = Some c -> In it (priceOpps c) -> ~ In it (deadStock c).
Proof.
  intros Hc. apply computed_Some in Hc. cbv zeta in Hc. subst c.
  cbn [priceOpps deadStock]. intros Hp Hd.
  apply SortFacts.In_sort, filter_In in Hp as [_ Hp].
  apply SortFacts.In_sort, filter_In in Hd as [_ Hd].
  unfold is_priceOpp in Hp. apply andb_prop in Hp as [Hp _]. apply andb_prop in Hp as [_ Hs].
  unfold is_deadStock in Hd. apply andb_prop in Hd as [Hd _]. apply andb_prop in Hd as [Hz _].
  rewrite (NumFacts.seq_zero_not_gt _ Hz) in Hs. discriminate.
Qed.

(** X17. An item that runs out within 30 days but whose stock is worth at
    most 1000 is in neither stockout list: the critical list wants more than
    1000 of stock, and the warning list, which takes stock above 500, wants
    more than 30 days. *)
Theorem X17_urgent_cheap_items_raise_no_alert (c : Computed) (it : Derived.Item) :
  computed salesMap slowCost deadCost slowDays targetMargin orderingCost
           holdingCostRate costData = Some c ->
  JsNum.le (Derived.daysUntilStockout it) 30 = true ->
  JsNum.le (totalCost_of it) 1000 = true ->
  ~ In it (criticalStockouts c) /\ ~ In it (warningStockouts c).
Proof.
  intros Hc Hdays Hcost. apply computed_Some in Hc. cbv zeta in Hc. subst c.
  cbn [criticalStockouts warningStockouts].
  split; intros Hin; apply SortFacts.In_sort, filter_In in Hin as [_ Hp].
  - unfold is_criticalStockout in Hp. apply andb_prop in Hp as [_ Hp].
    rewrite (NumFacts.le_not_gt _ _ Hcost) in Hp. discriminate.
  - unfold is_warningStockout in Hp. apply andb_prop in Hp as [Hp _].
    apply andb_prop in Hp as [Hp _].
    rewrite (NumFacts.le_not_gt _ _ Hdays) in Hp. discriminate.
Qed.

End Buckets.

(** X18. Raising [deadCost] never adds a dead-stock item, and raising
    [slowDays] never adds a slow mover, all else equal. *)
Theorem X18_deadCost_and_slowDays_antitone
    (salesMap : gmap string Sales.Aggregate)
    (slowCost deadCost deadCost' slowDays slowDays' targetMargin orderingCost
       holdingCostRate : float)
    (costData : list Cost.Item) (c c1 c2 : Computed) :
  computed salesMap slowCost deadCost slowDays targetMargin orderingCost
           holdingCostRate costData = Some c ->
  computed salesMap slowCost deadCost' slowDays targetMargin orderingCost
           holdingCostRate costData = Some c1 ->
  computed salesMap slowCost deadCost slowDays' targetMargin orderingCost
           holdingCostRate costData = Some c2 ->
  (JsNum.ge deadCost' deadCost = true ->
   forall it, In it (deadStock c1) -> In it (deadStock c))
  /\ (JsNum.ge slowDays' slowDays = true ->
      forall it, In it (slowMovers c2) -> In it (slowMovers c)).
Proof.
  intros Hc Hc1 Hc2.
  apply computed_Some in Hc, Hc1, Hc2. cbv zeta in Hc, Hc1, Hc2. subst c c1 c2.
  cbn [deadStock slowMovers]. split; intros Hge it Hin;
    apply SortFacts.In_sort, filter_In in Hin as [Hin Hp];
    apply SortFacts.In_sort, filter_In; (split; [exact Hin|]).
  - unfold is_deadStock in *. apply andb_prop in Hp as [Hp Hq].
    apply andb_prop in Hp as [Hz Hcost].
    rewrite Hz, Hq, (NumFacts.gt_ge_trans _ _ _ Hcost Hge). reflexivity.
  - unfold is_slowMover in *. apply andb_prop in Hp as [Hp Hq].
    apply andb_prop in Hp as [Hcost Hd]. rewrite Hcost, Hq. simpl. rewrite andb_true_r.
    apply orb_prop in Hd as [Hd|Hz].
    + rewrite (NumFacts.gt_ge_trans _ _ _ Hd Hge). reflexivity.
    + rewrite Hz. apply orb_true_r.
Qed.

(** X19. For an item without sales the engine suggests neither a reorder
    point nor an order quantity: both are zero. *)
Theorem X19_no_sales_no_reorder
    (salesMap : gmap string Sales.Aggregate)
    (targetMargin orderingCost holdingCostRate : float) (item : Cost.Item) :
  let d := derive salesMap targetMargin orderingCost holdingCostRate item in
  JsNum.seq (Derived.annualSales d) 0 = true ->
  JsNum.seq (Derived.reorderPoint d) 0 = true /\ JsNum.seq (Derived.eoq d) 0 = true.
Proof.
  cbv zeta. unfold derive; cbn [Derived.annualSales Derived.reorderPoint Derived.eoq].
  intros Hz. unfold eoq_of. rewrite (NumFacts.seq_zero_not_gt _ Hz), andb_false_r.
  unfold leadTimeDays, safetyStock.
  destruct (NumFacts.seq_zero_inv _ Hz) as [-> | ->]; destruct (Cost.itemType item);
    split; reflexivity.
Qed.

(** ** More on the export and the summary figures *)

Module LineFacts.

Lemma has_char_app c s t : has_char c (s ++ t) = has_char c s || has_char c t.
Proof.
  induction s as [|d s IH]; [reflexivity|].
  change (has_char c (String d (s ++ t)) = has_char c (String d s) || has_char c t).
  cbn [has_char]. rewrite IH. apply orb_assoc.
Qed.

Lemma json_escape_no_break c : has_char (ascii_of_nat 10) (json_escape c) = false.
Proof. destruct c as [[] [] [] [] [] [] [] []]; reflexivity. Qed.

Lemma json_escape_all_no_break s : has_char (ascii_of_nat 10) (json_escape_all s) = false.
Proof.
  induction s as [|c s IH]; [reflexivity|].
  cbn [json_escape_all]. rewrite has_char_app, json_escape_no_break, IH. reflexivity.
Qed.

End LineFacts.

Module SplitLines.

Lemma split_plain c (l : string) : has_char c l = false -> split_char c l = [l].
Proof.
  induction l as [|d l IH]; [reflexivity|]. cbn [has_char split_char].
  intros Hl. apply orb_false_elim in Hl as [-> Hl]. rewrite (IH Hl). reflexivity.
Qed.

Lemma split_app c (l rest : string) :
  has_char c l = false -> split_char c (l ++ String c rest) = l :: split_char c rest.
Proof.
  induction l as [|d l IH].
  - intros _. change ("" ++ String c rest) with (String c rest). cbn [split_char].
    rewrite Ascii.eqb_refl. reflexivity.
  - cbn [has_char]. intros Hl. apply orb_false_elim in Hl as [Hd Hl].
    change (String d l ++ String c rest) with (String d (l ++ String c rest)).
    cbn [split_char]. rewrite Hd, (IH Hl). reflexivity.
Qed.

(** Splitting at a separator undoes joining with it, when no part holds
    the separator. *)
Lemma split_join c (parts : list string) :
  parts <> [] ->
  Forall (fun l => has_char c l = false) parts ->
  split_char c (join (String c "") parts) = parts.
Proof.
  induction parts as [|l parts IH]; [congruence|]. intros _ Hall.
  inversion Hall as [|? ? Hl Hrest]; subst. destruct parts as [|l' parts].
  - cbn [join]. apply split_plain, Hl.
  - change (join (String c "") (l :: l' :: parts))
      with (l ++ String c "" ++ join (String c "") (l' :: parts)).
    change (String c "" ++ join (String c "") (l' :: parts))
      with (String c (join (String c "") (l' :: parts))).
    rewrite (split_app _ _ _ Hl), IH; [reflexivity|discriminate|exact Hrest].
Qed.

Lemma join_no_char c sep (parts : list string) :
  has_char c sep = false ->
  Forall (fun l => has_char c l = false) parts ->
  has_char c (join sep parts) = false.
Proof.
  intros Hsep. induction parts as [|l parts IH]; [reflexivity|]. intros Hall.
  inversion Hall as [|? ? Hl Hrest]; subst. destruct parts as [|l' parts]; [exact Hl|].
  change (join sep (l :: l' :: parts)) with (l ++ sep ++ join sep (l' :: parts)).
  rewrite !LineFacts.has_char_app, Hl, Hsep, (IH Hrest). reflexivity.
Qed.

End SplitLines.

(** X20. The export is read back line by line: when no key of the first
    row holds a line break, and no numeral written for a number of the rows
    does, splitting the exported text at its line breaks gives the header
    line and then the line of each row, in order, so one line more than
    there are rows.  A line break inside a string value does not split its
    line, since it is written escaped. *)
Theorem X20_export_lines `{Host} (filename : string) (rows : list obj) :
  rows <> [] ->
  Forall (fun k => has_char (ascii_of_nat 10) k = false) (JsObject.keys (hd [] rows)) ->
  (forall r h x, In r rows -> JsObject.get r h = Some (CNum x) ->
                 has_char (ascii_of_nat 10) (number_to_string x) = false) ->
  exists text,
    downloadCSV filename rows = Some (filename, text)
    /\ split_char (ascii_of_nat 10) text = csv_lines rows
    /\ length (split_char (ascii_of_nat 10) text) = S (length rows).
Proof.
  intros Hrows Hkeys Hnum.
  exists (join newline (csv_lines rows)).
  assert (Hsplit : split_char (ascii_of_nat 10) (join newline (csv_lines rows))
                   = csv_lines rows).
  { apply SplitLines.split_join; [discriminate|].
    unfold csv_lines. constructor.
    - apply SplitLines.join_no_char; [reflexivity|exact Hkeys].
    - apply Forall_map. apply Forall_forall. intros r Hr. apply list_elem_of_In in Hr.
      apply SplitLines.join_no_char; [reflexivity|].
      unfold csv_fields. apply Forall_map. apply Forall_forall. intros h _.
      destruct (JsObject.get r h) as [[| [|] |x|s]|] eqn:Hg; try reflexivity.
      + cbn [Js.nullish_else JSON_stringify].
        destruct (JsNum.is_finite x); [exact (Hnum r h x Hr Hg)|reflexivity].
      + cbn [Js.nullish_else JSON_stringify]. unfold json_quote.
        rewrite !LineFacts.has_char_app, LineFacts.json_escape_all_no_break. reflexivity. }
  split; [destruct rows; [congruence|reflexivity]|].
  split; [exact Hsplit|].
  rewrite Hsplit. unfold csv_lines. cbn [length]. rewrite length_map. reflexivity.
Qed.

(** X21. [topBottom] is [null] exactly when there is no cost item.
    Otherwise its two lists hold cost items, ten of them or all when there
    are fewer; with at most ten items the bottom list is the top list
    reversed. *)
Theorem X21_topBottom_shape (costData : list Cost.Item) :
  (topBottom costData = None <-> costData = [])
  /\ (forall tb, topBottom costData = Some tb ->
        length (top tb) = Nat.min 10 (length costData)
        /\ length (bottom tb) = Nat.min 10 (length costData)
        /\ (forall x, In x (top tb) -> In x costData)
        /\ (forall x, In x (bottom tb) -> In x costData)
        /\ (length costData <= 10 -> bottom tb = rev (top tb))).
Proof.
  split.
  - unfold topBottom. destruct costData; split; intros; try reflexivity; discriminate.
  - intros tb. unfold topBottom. destruct costData as [|i rest] eqn:Hcd; [discriminate|].
    rewrite <- Hcd. intros [= <-]. cbn [top bottom].
    set (sorted := Js.sort by_totalProfit_desc costData).
    assert (Hlen : length sorted = length costData) by apply SortFacts.length_sort.
    split; [rewrite length_firstn, Hlen; reflexivity|].
    split; [rewrite length_rev, length_skipn, Hlen; lia|].
    split; [|split].
    + intros x Hx. apply (SortFacts.In_sort by_totalProfit_desc). fold sorted.
      rewrite <- (firstn_skipn 10 sorted). apply in_or_app. left. exact Hx.
    + intros x Hx. apply (SortFacts.In_sort by_totalProfit_desc). fold sorted.
      apply in_rev in Hx. rewrite <- (firstn_skipn (length sorted - 10) sorted).
      apply in_or_app. right. exact Hx.
    + intros Hle. replace (length sorted - 10)%nat with 0%nat by lia.
      rewrite firstn_all2 by lia. reflexivity.
Qed.

(** X22. Only an item with a positive unit price can count among the items
    losing money: an item built by [handleCost] with a price of zero has a
    margin of zero, whatever it costs, so [losingItems] is at most the number
    of positively priced items. *)
Theorem X22_losingItems_have_a_price `{Host} (rows : list obj) :
  (forall row, is_losing (cost_row_item row) = true ->
               JsNum.gt (Cost.unitPrice (cost_row_item row)) 0 = true)
  /\ (rows <> [] ->
      (losingItems (metrics (map cost_row_item rows))
       <= length (List.filter (fun row => JsNum.gt (Cost.unitPrice (cost_row_item row)) 0)
                              rows))%nat).
Proof.
  assert (Hrow : forall row, is_losing (cost_row_item row) = true ->
               JsNum.gt (Cost.unitPrice (cost_row_item row)) 0 = true).
  { intros row. unfold is_losing, cost_row_item; cbn [Cost.profitMargin Cost.unitPrice].
    destruct (JsNum.gt _ 0); [reflexivity|]. intros Hl. discriminate Hl. }
  split; [exact Hrow|].
  intros Hne. unfold metrics. destruct rows as [|r rows]; [contradiction|].
  cbn [map]. cbn [losingItems]. change (cost_row_item r :: map cost_row_item rows)
    with (map cost_row_item (r :: rows)).
  generalize (r :: rows). intros l. induction l as [|x l IH]; [reflexivity|].
  cbn [map List.filter].
  destruct (is_losing (cost_row_item x)) eqn:Hl.
  - rewrite (Hrow x Hl). cbn [length]. lia.
  - destruct (JsNum.gt (Cost.unitPrice (cost_row_item x)) 0); cbn [length]; lia.
Qed.

(** ** Instances of the further properties *)

Lemma X1_handlers_frame_witness :
  let H := Examples.host [] [] in
  costData (fst (handleCost Examples.notes_txt initialState)) = costData initialState.
Proof.
  intros H.
  refine (proj2 (proj2 (proj2 (proj2 (proj1
            (X1_handlers_frame (H := H) Examples.notes_txt initialState))))) _ eq_refl).
Defined.

Lemma X3_cost_numbers_not_nan_witness :
  let H := Examples.host [Examples.cost_row] [] in
  let it := cost_row_item Examples.cost_row in
  is_nan (Cost.unitPrice it) = false
  /\ is_nan (Cost.unitCost it) = false
  /\ is_nan (Cost.Quantity it) = false.
Proof.
  intros H it.
  refine (X3_cost_numbers_not_nan (H := H) Examples.cost_csv initialState
            (fst (handleCost Examples.cost_csv initialState)) it _ _).
  - reflexivity.
  - left. reflexivity.
Defined.

Lemma X5_pick_alias_normalisation_witness :
  pick Examples.cost_row ["QUANTITY "; "qty"] = pick Examples.cost_row ["Quantity"; "Qty"].
Proof.
  refine (proj1 (X5_pick_alias_normalisation Examples.cost_row
                   ["QUANTITY "; "qty"] ["Quantity"; "Qty"]) _).
  reflexivity.
Defined.

Lemma X6_pick_returns_a_cell_of_the_row_witness :
  exists k0, In (k0, CNum 10) Examples.cost_row.
Proof.
  refine (proj1 (X6_pick_returns_a_cell_of_the_row Examples.cost_row ["Quantity"; "Qty"])
                (CNum 10) _).
  reflexivity.
Defined.

Lemma X9_salesMap_entries_witness :
  let H := Examples.host Examples.sales_rows [] in
  let a := {| Sales.item := "ABC123-ReCert"; Sales.description := "Widget";
              Sales.totalQtySold := 730; Sales.totalRevenue := 7300 |} in
  Sales.item a = "ABC123-ReCert"
  /\ "ABC123-ReCert" <> "" /\ "ABC123-ReCert" <> "Inventory Item".
Proof.
  intros H a.
  refine (X9_salesMap_entries (H := H) Examples.sales_csv initialState
            (fst (handleSales Examples.sales_csv initialState)) "ABC123-ReCert" a _ _).
  - reflexivity.
  - vm_compute. reflexivity.
Defined.

Lemma X10_salesMap_keys_witness :
  let H := Examples.host [] [] in
  is_Some (fold_left sales_csv_row Examples.sales_rows ∅ !! "ABC123-ReCert").
Proof.
  intros H.
  refine (proj2 (proj1 (X10_salesMap_keys (H := H) "ABC123-ReCert") Examples.sales_rows) _).
  split; [reflexivity|].
  exists [ ("Item", CStr "ABC123-ReCert"); ("Description", CStr "Widget");
           ("Qty", CNum 700); ("Amount", CNum 7000) ],
         "ABC123-ReCert", "Widget", 700%float, 7000%float.
  repeat split; try reflexivity. left. reflexivity.
Defined.

Lemma X11_salesMap_first_row_witness :
  let H := Examples.host [] [] in
  exists a,
    fold_left sales_csv_row Examples.sales_rows ∅ !! "ABC123-ReCert" = Some a
    /\ Sales.description a = "Widget"
    /\ ((forall r, In r (tail Examples.sales_rows) ->
                   fst (fst (fst (sales_csv_fields r))) <> "ABC123-ReCert") ->
        Sales.totalQtySold a = 700%float /\ Sales.totalRevenue a = 7000%float).
Proof.
  intros H.
  refine (X11_salesMap_first_row (H := H) [] (tail Examples.sales_rows)
            [ ("Item", CStr "ABC123-ReCert"); ("Description", CStr "Widget");
              ("Qty", CNum 700); ("Amount", CNum 7000) ]
            "ABC123-ReCert" "Widget" 700 7000 _ _ _ _).
  - reflexivity.
  - reflexivity.
  - reflexivity.
  - intros r [].
Defined.

Lemma X12_customer_totals_witness :
  let H := Examples.host [] [] in
  In {| Customer.customer := "Acme Corp"; Customer.totalRevenue := 1000 |}
     (customer_totals Examples.customer_pairs).
Proof.
  intros H.
  refine (proj2 (proj1 (X12_customer_totals (H := H)) Examples.customer_pairs _) _).
  exists ("Total - Acme Corp", 1000%float).
  repeat split; try reflexivity. left. reflexivity.
Defined.

Lemma X13_supplier_result_sets_witness :
  let H := Examples.host Examples.po_rows [] in
  let st' := fst (handleSupplier Examples.po_csv initialState) in
  (forall l, In l (lineItems (supplierData st')) ->
      SupplierLine.supplier l <> "" /\ SupplierLine.item l <> ""
      /\ test_prefix_i "total - " (SupplierLine.supplier l) = false
      /\ JsNum.gt (SupplierLine.totalCost l) 0 = true)
  /\ (forall s, In s (suppliers (supplierData st')) ->
      JsNum.gt (SupplierTotal.totalCost s) 0 = true
      /\ is_internal (SupplierTotal.supplier s) = false
      /\ is_nan (SupplierTotal.totalQuantity s) = false).
Proof.
  intros H st'.
  refine (X13_supplier_result_sets (H := H) Examples.po_csv initialState st' _).
  reflexivity.
Defined.

Lemma X14_computed_shape_witness :
  let H := Examples.host [] [] in
  let costData := [cost_row_item Examples.idle_row; cost_row_item Examples.cost_row] in
  exists c,
    computed Examples.sales 400 200 180 (targetMargin initialState) 50 0.25 costData = Some c
    /\ map Derived.base (items c) = costData.
Proof.
  intros H costData. eexists. split; [reflexivity|].
  refine (proj1 (proj2 (X14_computed_shape Examples.sales 400 200 180
                          (targetMargin initialState) 50 0.25 costData) _ _)).
  reflexivity.
Defined.

Lemma X15_deadStock_and_slowMovers_witness :
  let H := Examples.host [] [] in
  let costData := [cost_row_item Examples.idle_row; cost_row_item Examples.cost_row] in
  exists c,
    computed Examples.sales 400 500 180 (targetMargin initialState) 50 0.25 costData = Some c
    /\ JsNum.ge 500 400 = true
    /\ forall it, In it (deadStock c) -> In it (slowMovers c).
Proof.
  intros H costData. eexists. split; [reflexivity|]. split; [reflexivity|].
  refine (proj2 (X15_deadStock_and_slowMovers Examples.sales 400 500 180
                   (targetMargin initialState) 50 0.25 costData _ _) _).
  - reflexivity.
  - reflexivity.
Defined.

Lemma X16_priceOpps_are_not_deadStock_witness :
  let H := Examples.host [] [] in
  let costData := [cost_row_item Examples.thin_row; cost_row_item Examples.idle_row] in
  let it := derive Examples.sales (targetMargin initialState) 50 0.25
                   (cost_row_item Examples.thin_row) in
  exists c,
    computed Examples.sales 400 200 180 (targetMargin initialState) 50 0.25 costData = Some c
    /\ In it (priceOpps c) /\ ~ In it (deadStock c).
Proof.
  intros H costData it. eexists. split; [reflexivity|].
  split; [vm_compute; left; reflexivity|].
  refine (X16_priceOpps_are_not_deadStock Examples.sales 400 200 180
            (targetMargin initialState) 50 0.25 costData _ it _ _).
  - reflexivity.
  - vm_compute. left. reflexivity.
Defined.

Lemma X17_urgent_cheap_items_raise_no_alert_witness :
  let H := Examples.host [] [] in
  let costData := [cost_row_item Examples.cost_row] in
  let it := derive Examples.sales (targetMargin initialState) 50 0.25
                   (cost_row_item Examples.cost_row) in
  exists c,
    computed Examples.sales 400 200 180 (targetMargin initialState) 50 0.25 costData = Some c
    /\ Derived.daysUntilStockout it = 5%float /\ totalCost_of it = 600%float
    /\ ~ In it (criticalStockouts c) /\ ~ In it (warningStockouts c).
Proof.
  intros H costData it. eexists. split; [reflexivity|].
  split; [reflexivity|]. split; [reflexivity|].
  refine (X17_urgent_cheap_items_raise_no_alert Examples.sales 400 200 180
            (targetMargin initialState) 50 0.25 costData _ it _ _ _).
  - reflexivity.
  - reflexivity.
  - reflexivity.
Defined.

Lemma X18_deadCost_and_slowDays_antitone_witness :
  let H := Examples.host [] [] in
  let costData := [cost_row_item Examples.idle_row; cost_row_item Examples.cost_row] in
  exists c c1 c2,
    computed Examples.sales 400 200 180 (targetMargin initialState) 50 0.25 costData = Some c
    /\ computed Examples.sales 400 700 180 (targetMargin initialState) 50 0.25 costData
       = Some c1
    /\ computed Examples.sales 400 200 365 (targetMargin initialState) 50 0.25 costData
       = Some c2
    /\ (JsNum.ge 700 200 = true -> forall it, In it (deadStock c1) -> In it (deadStock c))
    /\ (JsNum.ge 365 180 = true -> forall it, In it (slowMovers c2) -> In it (slowMovers c)).
Proof.
  intros H costData. do 3 eexists.
  split; [reflexivity|]. split; [reflexivity|]. split; [reflexivity|].
  refine (X18_deadCost_and_slowDays_antitone Examples.sales 400 200 700 180 365
            (targetMargin initialState) 50 0.25 costData _ _ _ _ _ _).
  - reflexivity.
  - reflexivity.
  - reflexivity.
Defined.

Lemma X19_no_sales_no_reorder_witness :
  let H := Examples.host [] [] in
  let d := derive Examples.sales (targetMargin initialState) 50 0.25
                  (cost_row_item Examples.idle_row) in
  JsNum.seq (Derived.reorderPoint d) 0 = true /\ JsNum.seq (Derived.eoq d) 0 = true.
Proof.
  intros H d.
  refine (X19_no_sales_no_reorder Examples.sales (targetMargin initialState) 50 0.25
            (cost_row_item Examples.idle_row) _).
  reflexivity.
Defined.

(** A string value with a line break stays on its line. *)
Lemma X20_export_lines_witness :
  let H := Examples.host [] [] in
  let rows := [ [ ("item", CStr ("a" ++ newline ++ "b")); ("qty", CNum 3) ] ] in
  exists text,
    downloadCSV "export.csv" rows = Some ("export.csv", text)
    /\ split_char (ascii_of_nat 10) text = csv_lines rows
    /\ length (split_char (ascii_of_nat 10) text) = 2%nat.
Proof.
  intros H rows.
  refine (X20_export_lines (H := H) "export.csv" rows _ _ _).
  - discriminate.
  - repeat constructor.
  - intros r h x Hin Hg. destruct Hin as [Hr|[]]. rewrite <- Hr in Hg. cbn [JsObject.get] in Hg.
    destruct (String.eqb "item" h); [discriminate|].
    destruct (String.eqb "qty" h); [|discriminate].
    injection Hg as <-. reflexivity.
Defined.

Lemma X21_topBottom_shape_witness :
  let H := Examples.host [] [] in
  let costData := [cost_row_item Examples.losing_row; cost_row_item Examples.cost_row] in
  exists tb, topBottom costData = Some tb /\ bottom tb = rev (top tb).
Proof.
  intros H costData. eexists. split; [reflexivity|].
  refine (proj2 (proj2 (proj2 (proj2 (proj2 (X21_topBottom_shape costData) _ _)))) _).
  - reflexivity.
  - simpl. lia.
Defined.

Lemma X22_losingItems_have_a_price_witness :
  let H := Examples.host [] [] in
  JsNum.gt (Cost.unitPrice (cost_row_item Examples.losing_row)) 0 = true.
Proof.
  intros H.
  refine (proj1 (X22_losingItems_have_a_price (H := H) []) Examples.losing_row _).
  reflexivity.
Defined.
